(** * genai-db-toolbox: the PBIX UI miner and its relational projector

    A shallow embedding of the parts of
      - extract_pbix_ui.py      (member decoding and parsing),
      - parse_pbix_ui.py        (visual classification and binding extraction),
      - setup_powerbi_mcp_db.py (page resolution and SQLite projection)
    that the specification's testable properties talk about.

    Python values read from JSON are kept dynamically typed ([json]); every
    operation that can raise in Python returns a [result].  Text is a list of
    Unicode code points, byte strings are lists of integers in 0..255. *)

From Stdlib Require Import String Ascii ZArith List Bool Lia Arith.
From Stdlib Require DecimalString.
Import ListNotations.

Local Open Scope Z_scope.
Set Warnings "-register-all".


(* ================================================================== *)
(** ** Text: Python [str] as a list of code points                     *)
(* ================================================================== *)

Definition text := list Z.
Definition bytes := list Z.

(** A literal of the source, written as a Rocq string. *)
Definition lit (s : string) : text :=
  map (fun a => Z.of_N (N_of_ascii a)) (list_ascii_of_string s).

(** The same, with every apostrophe read as a double quote: JSON documents
    are written with apostrophes in this file. *)
Definition jlit (s : string) : text :=
  map (fun c => if c =? 39 then 34 else c) (lit s).

Fixpoint text_eqb (a b : text) : bool :=
  match a, b with
  | [], [] => true
  | x :: a', y :: b' => (x =? y) && text_eqb a' b'
  | _, _ => false
  end.

(** [s.startswith(p)] *)
Fixpoint starts_with (p s : text) : bool :=
  match p, s with
  | [], _ => true
  | x :: p', y :: s' => (x =? y) && starts_with p' s'
  | _ :: _, [] => false
  end.

(** [p in s] for two strings: [p] occurs as a contiguous run of [s]. *)
Fixpoint contains (p s : text) : bool :=
  starts_with p s ||
  match s with
  | [] => false
  | _ :: s' => contains p s'
  end.

Fixpoint drop_while (f : Z -> bool) (s : text) : text :=
  match s with
  | [] => []
  | c :: s' => if f c then drop_while f s' else s
  end.

(** [s.strip(chars)] for a set of characters given as a predicate. *)
Definition strip_with (f : Z -> bool) (s : text) : text :=
  rev (drop_while f (rev (drop_while f s))).

(** The characters [str.isspace] accepts, which [str.strip()] removes. *)
Definition py_isspace (c : Z) : bool :=
  ((9 <=? c) && (c <=? 13)) || ((28 <=? c) && (c <=? 32)) ||
  (c =? 133) || (c =? 160) || (c =? 5760) ||
  ((8192 <=? c) && (c <=? 8202)) || (c =? 8232) || (c =? 8233) ||
  (c =? 8239) || (c =? 8287) || (c =? 12288).

Definition strip (s : text) : text := strip_with py_isspace s.

(** [s.strip(q)] for a single quote character [q] *)
Definition strip_char (q : Z) (s : text) : text := strip_with (Z.eqb q) s.

(** [s[:n]] *)
Definition slice_to (n : nat) (s : text) : text := firstn n s.

(** [s.lower()] on the letters A..Z; no character outside them lowers to
    a letter of the word text, the only word it is compared with. *)
Definition py_lower (s : text) : text :=
  map (fun c => if (65 <=? c) && (c <=? 90) then c + 32 else c) s.

(** Decimal rendering of an integer, as [str(n)] does. *)
Definition str_of_Z (z : Z) : text :=
  lit (DecimalString.NilZero.string_of_int (Z.to_int z)).

(* ================================================================== *)
(** ** Codecs: bytes.decode as the interpreter performs it             *)
(* ================================================================== *)

Definition is_high_surrogate (u : Z) : bool := (0xD800 <=? u) && (u <=? 0xDBFF).
Definition is_low_surrogate (u : Z) : bool := (0xDC00 <=? u) && (u <=? 0xDFFF).

Definition unit16 (lo hi : Z) : Z := Z.lor lo (Z.shiftl hi 8).

Definition join_surrogates (h l : Z) : Z :=
  0x10000 + Z.lor (Z.shiftl (Z.land h 0x3FF) 10) (Z.land l 0x3FF).

(** [content.decode('utf-16le')]: [None] stands for UnicodeDecodeError
    (truncated data, a lone surrogate, or an unfinished pair). *)
Fixpoint utf16le_decode (bs : bytes) : option text :=
  match bs with
  | [] => Some []
  | [_] => None
  | lo :: hi :: rest =>
      let u := unit16 lo hi in
      if is_high_surrogate u then
        match rest with
        | lo2 :: hi2 :: rest' =>
            let u2 := unit16 lo2 hi2 in
            if is_low_surrogate u2
            then option_map (cons (join_surrogates u u2)) (utf16le_decode rest')
            else None
        | _ => None
        end
      else if is_low_surrogate u then None
      else option_map (cons u) (utf16le_decode rest)
  end.

Definition is_cont (b : Z) : bool := Z.land b 0xC0 =? 0x80.

(** One step of the UTF-8 decoder at the head of [bs]: a decoded character and
    the bytes after it, or an invalid run of [skip] bytes (invalid start byte:
    1; invalid continuation byte: the bytes before it), or data that ends
    inside a sequence. *)
Inductive utf8_step_result :=
| U8Char (cp : Z) (rest : bytes)
| U8Invalid (skip : nat)
| U8Truncated.

Definition utf8_step (bs : bytes) : utf8_step_result :=
  match bs with
  | [] => U8Truncated
  | ch :: r =>
    if ch <? 0x80 then U8Char ch r
    else if ch <? 0xC2 then U8Invalid 1
    else if ch <? 0xE0 then
      match r with
      | [] => U8Truncated
      | ch2 :: r2 =>
          if is_cont ch2
          then U8Char (Z.lor (Z.shiftl (Z.land ch 0x1F) 6) (Z.land ch2 0x3F)) r2
          else U8Invalid 1
      end
    else if ch <? 0xF0 then
      match r with
      | [] => U8Truncated
      | ch2 :: r2 =>
          if negb (is_cont ch2) || (if ch2 <? 0xA0 then ch =? 0xE0 else ch =? 0xED)
          then U8Invalid 1
          else match r2 with
               | [] => U8Truncated
               | ch3 :: r3 =>
                   if is_cont ch3
                   then U8Char (Z.lor (Z.shiftl (Z.land ch 0x0F) 12)
                                 (Z.lor (Z.shiftl (Z.land ch2 0x3F) 6) (Z.land ch3 0x3F))) r3
                   else U8Invalid 2
               end
      end
    else if ch <? 0xF5 then
      match r with
      | [] => U8Truncated
      | ch2 :: r2 =>
          if negb (is_cont ch2) || (if ch2 <? 0x90 then ch =? 0xF0 else ch =? 0xF4)
          then U8Invalid 1
          else match r2 with
               | [] => U8Truncated
               | ch3 :: r3 =>
                   if negb (is_cont ch3) then U8Invalid 2
                   else match r3 with
                        | [] => U8Truncated
                        | ch4 :: r4 =>
                            if is_cont ch4
                            then U8Char (Z.lor (Z.shiftl (Z.land ch 0x07) 18)
                                          (Z.lor (Z.shiftl (Z.land ch2 0x3F) 12)
                                            (Z.lor (Z.shiftl (Z.land ch3 0x3F) 6)
                                                   (Z.land ch4 0x3F)))) r4
                            else U8Invalid 3
                        end
               end
      end
    else U8Invalid 1
  end.

(** [content.decode('utf-8')]: any invalid or truncated sequence raises. *)
Fixpoint utf8_strict_loop (fuel : nat) (bs : bytes) : option text :=
  match bs with
  | [] => Some []
  | _ :: _ =>
    match fuel with
    | O => None
    | S fuel' =>
      match utf8_step bs with
      | U8Char c r => option_map (cons c) (utf8_strict_loop fuel' r)
      | U8Invalid _ | U8Truncated => None
      end
    end
  end.

Definition utf8_decode (bs : bytes) : option text :=
  utf8_strict_loop (length bs) bs.

(** [content.decode('utf-8', errors='ignore')]: an invalid run is dropped and
    decoding resumes after it; a sequence cut by the end of data is dropped. *)
Fixpoint utf8_ignore_loop (fuel : nat) (bs : bytes) : text :=
  match bs with
  | [] => []
  | _ :: _ =>
    match fuel with
    | O => []
    | S fuel' =>
      match utf8_step bs with
      | U8Char c r => c :: utf8_ignore_loop fuel' r
      | U8Invalid n => utf8_ignore_loop fuel' (skipn n bs)
      | U8Truncated => []
      end
    end
  end.

Definition utf8_decode_ignore (bs : bytes) : text :=
  utf8_ignore_loop (length bs) bs.

(** The decoding cascade of [_extract_layout_file] (and [_extract_text_file]):
    each [except UnicodeDecodeError] falls to the next codec. *)
Definition decode_cascade (content : bytes) : text :=
  match utf16le_decode content with
  | Some t => t
  | None =>
    match utf8_decode content with
    | Some t => t
    | None => utf8_decode_ignore content
    end
  end.

(** The specification's wording of the last step, for comparison with the
    source: a lossy decode that puts U+FFFD in place of each undecodable
    run (Python's errors='replace'). *)
Fixpoint spec_utf8_replace_loop (fuel : nat) (bs : bytes) : text :=
  match bs with
  | [] => []
  | _ :: _ =>
    match fuel with
    | O => []
    | S fuel' =>
      match utf8_step bs with
      | U8Char c r => c :: spec_utf8_replace_loop fuel' r
      | U8Invalid n => 0xFFFD :: spec_utf8_replace_loop fuel' (skipn n bs)
      | U8Truncated => [0xFFFD]
      end
    end
  end.

Definition spec_decode_cascade (content : bytes) : text :=
  match utf16le_decode content with
  | Some t => t
  | None =>
    match utf8_decode content with
    | Some t => t
    | None => spec_utf8_replace_loop (length content) content
    end
  end.

(** A Unicode scalar value: a code point that is not a surrogate. *)
Definition is_scalar (c : Z) : bool :=
  (0 <=? c) && (c <? 0x110000) && negb ((0xD800 <=? c) && (c <=? 0xDFFF)).

(** UTF-16LE encoding of a text of scalar values: what a valid UTF-16LE
    payload is. *)
Definition utf16le_encode_char (c : Z) : bytes :=
  if c <? 0x10000 then [Z.land c 0xFF; Z.shiftr c 8]
  else
    let v := c - 0x10000 in
    let h := 0xD800 + Z.shiftr v 10 in
    let l := 0xDC00 + Z.land v 0x3FF in
    [Z.land h 0xFF; Z.shiftr h 8; Z.land l 0xFF; Z.shiftr l 8].

Definition utf16le_encode (t : text) : bytes := flat_map utf16le_encode_char t.

(* ================================================================== *)
(** ** Python values read from JSON, exceptions, and the result monad  *)
(* ================================================================== *)

(** A value produced by [json.load]/[json.loads].  A dict keeps insertion
    order and has unique keys; a float is kept as its source literal. *)
Inductive json :=
| JNull
| JBool (b : bool)
| JInt (z : Z)
| JFloat (literal : text)
| JStr (s : text)
| JArr (items : list json)
| JObj (members : list (text * json)).

Inductive exn :=
| KeyError (k : text)
| TypeError
| AttributeError
| ValueError
| JSONDecodeError
| RecursionError
| OverflowError
| OSError
| DatabaseError
| OperationalError
| UnicodeEncodeError.

Inductive result (A : Type) :=
| Ok (a : A)
| Raise (e : exn).

Arguments Ok {A} a.
Arguments Raise {A} e.

Definition bind {A B} (m : result A) (k : A -> result B) : result B :=
  match m with
  | Ok a => k a
  | Raise e => Raise e
  end.

Notation "x <- m ;; k" := (bind m (fun x => k))
  (at level 61, m at next level, right associativity).

(** [try: body  except Exception as e: handler(e)] *)
Definition try_except {A} (body : result A) (handler : exn -> result A) : result A :=
  match body with
  | Ok a => Ok a
  | Raise e => handler e
  end.

(** A value as SQLite holds it: NULL, INTEGER, REAL (kept as a literal, like a
    float of JSON) or TEXT. *)
Inductive sqlval :=
| SqlNull
| SqlInt (z : Z)
| SqlReal (literal : text)
| SqlText (s : text).

(** The affinity of a column, from its declared type: TEXT; INTEGER; REAL;
    NUMERIC for any other name (BOOLEAN here). *)
Inductive affinity :=
| AffText
| AffInteger
| AffReal
| AffNumeric.

(** Library functions of the interpreter and of SQLite whose results the
    source only passes on: they are an interface here, with a reference
    instance further down. *)
Class PyRuntime := {
  (** [json.loads(s)]: the parsed document, or JSONDecodeError (or another
      exception of the interpreter, such as RecursionError) *)
  json_loads : text -> result json;
  (** [json.dumps(v)] of a value that came from JSON *)
  json_dumps : json -> text;
  (** [str(v)] of a float, a list or a dict *)
  py_repr : json -> text;
  (** [round(x, 1)] of a float, on its literal *)
  round1_float : text -> text;
  (** [str(e)] of a caught exception *)
  exn_str : exn -> text;
  (** the text SQLite makes of a REAL value that goes into a TEXT column *)
  sqlite_real_text : text -> text;
  (** what SQLite stores in a column of INTEGER, REAL or NUMERIC affinity for
      a value whose conversion takes arithmetic on floats or the reading of
      a number: a REAL (an INTEGER when it is integral) or a TEXT (a number
      when it reads as one) in an INTEGER or NUMERIC column, an INTEGER (a
      REAL) or a TEXT in a REAL column *)
  sqlite_numeric : affinity -> sqlval -> sqlval
}.

Fixpoint assoc (k : text) (m : list (text * json)) : option json :=
  match m with
  | [] => None
  | (k', v) :: m' => if text_eqb k k' then Some v else assoc k m'
  end.

(** [d[k] = v] on a dict: an existing key keeps its position. *)
Fixpoint dict_set (k : text) (v : json) (m : list (text * json)) : list (text * json) :=
  match m with
  | [] => [(k, v)]
  | (k', v') :: m' => if text_eqb k k' then (k', v) :: m' else (k', v') :: dict_set k v m'
  end.

(** [d.get(k, dflt)]: only a dict has the method. *)
Definition dict_get (d : json) (k : text) (dflt : json) : result json :=
  match d with
  | JObj m => Ok (match assoc k m with Some v => v | None => dflt end)
  | _ => Raise AttributeError
  end.

(** [d[k]] with a string key. *)
Definition getitem (d : json) (k : text) : result json :=
  match d with
  | JObj m => match assoc k m with Some v => Ok v | None => Raise (KeyError k) end
  | _ => Raise TypeError
  end.

Definition is_str_eq (k : text) (v : json) : bool :=
  match v with
  | JStr s => text_eqb k s
  | _ => false
  end.

(** [k in d] with a string [k]: key of a dict, element of a list, substring
    of a string; the other values are not containers. *)
Definition py_in (k : text) (d : json) : result bool :=
  match d with
  | JObj m => Ok (match assoc k m with Some _ => true | None => false end)
  | JArr l => Ok (existsb (is_str_eq k) l)
  | JStr s => Ok (contains k s)
  | _ => Raise TypeError
  end.

(** [d.items()] *)
Definition dict_items (d : json) : result (list (text * json)) :=
  match d with
  | JObj m => Ok m
  | _ => Raise AttributeError
  end.

(** The values [for x in v] runs through. *)
Definition py_iter (v : json) : result (list json) :=
  match v with
  | JArr l => Ok l
  | JObj m => Ok (map (fun kv => JStr (fst kv)) m)
  | JStr s => Ok (map (fun c => JStr [c]) s)
  | _ => Raise TypeError
  end.

Definition is_list (v : json) : bool :=
  match v with JArr _ => true | _ => false end.

Definition is_dict (v : json) : bool :=
  match v with JObj _ => true | _ => false end.

(** [l.append(x)]: only a list has the method. *)
Definition list_append (l x : json) : result json :=
  match l with
  | JArr items => Ok (JArr (items ++ [x]))
  | _ => Raise AttributeError
  end.

(** [l.extend(it)]: the method is looked up before [it] is iterated. *)
Definition list_extend (l it : json) : result json :=
  match l with
  | JArr items => xs <- py_iter it ;; Ok (JArr (items ++ xs))
  | _ => Raise AttributeError
  end.

(** [v.strip(q)] for a value expected to be a string. *)
Definition str_strip (q : Z) (v : json) : result json :=
  match v with
  | JStr s => Ok (JStr (strip_char q s))
  | _ => Raise AttributeError
  end.

Section Runtime.
Context {rt : PyRuntime}.

(** [str(v)] *)
Definition py_str (v : json) : text :=
  match v with
  | JStr s => s
  | JNull => lit "None"
  | JBool true => lit "True"
  | JBool false => lit "False"
  | JInt z => str_of_Z z
  | JFloat _ | JArr _ | JObj _ => py_repr v
  end.

(** [round(v, 1)]: an int (or bool) comes back unchanged as an int. *)
Definition py_round1 (v : json) : result json :=
  match v with
  | JInt z => Ok (JInt z)
  | JBool b => Ok (JInt (if b then 1 else 0))
  | JFloat l => Ok (JFloat (round1_float l))
  | _ => Raise TypeError
  end.

End Runtime.

(* ================================================================== *)
(** ** A reference JSON reader (the grammar [json.loads] accepts)      *)
(* ================================================================== *)

Definition is_json_ws (c : Z) : bool :=
  (c =? 32) || (c =? 9) || (c =? 10) || (c =? 13).

Definition skip_ws (s : text) : text := drop_while is_json_ws s.

Definition is_digit (c : Z) : bool := (48 <=? c) && (c <=? 57).

Definition hex_val (c : Z) : option Z :=
  if is_digit c then Some (c - 48)
  else if (97 <=? c) && (c <=? 102) then Some (c - 87)
  else if (65 <=? c) && (c <=? 70) then Some (c - 55)
  else None.

Definition hex4 (a b c d : Z) : option Z :=
  match hex_val a, hex_val b, hex_val c, hex_val d with
  | Some x, Some y, Some z, Some w => Some (((x * 16 + y) * 16 + z) * 16 + w)
  | _, _, _, _ => None
  end.

(** The body of a string after its opening quote; [acc] is reversed. *)
Fixpoint scan_string (s acc : text) : option (text * text) :=
  match s with
  | [] => None
  | 34 :: r => Some (rev acc, r)
  | 92 :: [] => None
  | 92 :: e :: r =>
      if e =? 117 then
        match r with
        | a :: b :: c :: d :: r' =>
            match hex4 a b c d with
            | None => None
            | Some u =>
                if is_high_surrogate u then
                  match r' with
                  | 92 :: 117 :: a2 :: b2 :: c2 :: d2 :: r'' =>
                      match hex4 a2 b2 c2 d2 with
                      | Some u2 =>
                          if is_low_surrogate u2
                          then scan_string r'' (join_surrogates u u2 :: acc)
                          else scan_string r' (u :: acc)
                      | None => scan_string r' (u :: acc)
                      end
                  | _ => scan_string r' (u :: acc)
                  end
                else scan_string r' (u :: acc)
            end
        | _ => None
        end
      else if e =? 34 then scan_string r (34 :: acc)
      else if e =? 92 then scan_string r (92 :: acc)
      else if e =? 47 then scan_string r (47 :: acc)
      else if e =? 98 then scan_string r (8 :: acc)
      else if e =? 102 then scan_string r (12 :: acc)
      else if e =? 110 then scan_string r (10 :: acc)
      else if e =? 114 then scan_string r (13 :: acc)
      else if e =? 116 then scan_string r (9 :: acc)
      else None
  | c :: r => if c <? 32 then None else scan_string r (c :: acc)
  end.

Fixpoint span_digits (s : text) : text * text :=
  match s with
  | c :: r => if is_digit c then let (ds, r') := span_digits r in (c :: ds, r') else ([], s)
  | [] => ([], [])
  end.

Definition digits_value (ds : text) : Z :=
  fold_left (fun acc c => acc * 10 + (c - 48)) ds 0.

(** A number at the head of [s]: an optional minus, then 0 or a run of
    digits not starting with 0; an optional fraction (a dot and at least one
    digit); an optional exponent (e or E, an optional sign, at least one
    digit).  Without fraction and exponent it is an int, else a float. *)
Definition scan_number (s : text) : option (json * text) :=
  let (neg, s1) := match s with 45 :: r => (true, r) | _ => (false, s) end in
  let int_part :=
    match s1 with
    | 48 :: r => Some ([48], r)
    | c :: _ => if is_digit c then Some (span_digits s1) else None
    | [] => None
    end in
  match int_part with
  | None => None
  | Some (ds, r1) =>
      let (frac, r2) :=
        match r1 with
        | 46 :: d :: _ =>
            if is_digit d then let (fs, r) := span_digits (tl r1) in (46 :: fs, r)
            else ([], r1)
        | _ => ([], r1)
        end in
      let (ex, r3) :=
        match r2 with
        | e :: r =>
            if (e =? 101) || (e =? 69) then
              let (sign, r') :=
                match r with
                | c :: r'' => if (c =? 43) || (c =? 45) then ([c], r'') else ([], r)
                | [] => ([], r)
                end in
              match span_digits r' with
              | ([], _) => ([], r2)
              | (es, r'') => (e :: sign ++ es, r'')
              end
            else ([], r2)
        | [] => ([], r2)
        end in
      let sign := if neg then [45] else [] in
      match frac, ex with
      | [], [] => Some (JInt (if neg then - digits_value ds else digits_value ds), r3)
      | _, _ => Some (JFloat (sign ++ ds ++ frac ++ ex), r3)
      end
  end.

Definition scan_keyword (s : text) : option (json * text) :=
  if starts_with (lit "null") s then Some (JNull, skipn 4 s)
  else if starts_with (lit "true") s then Some (JBool true, skipn 4 s)
  else if starts_with (lit "false") s then Some (JBool false, skipn 5 s)
  else match scan_number s with
       | Some r => Some r
       | None =>
         if starts_with (lit "NaN") s then Some (JFloat (lit "NaN"), skipn 3 s)
         else if starts_with (lit "Infinity") s then Some (JFloat (lit "Infinity"), skipn 8 s)
         else if starts_with (lit "-Infinity") s then Some (JFloat (lit "-Infinity"), skipn 9 s)
         else None
       end.

Fixpoint parse_value (fuel : nat) (s : text) : option (json * text) :=
  match fuel with
  | O => None
  | S f =>
    match s with
    | 34 :: r =>
        match scan_string r [] with
        | Some (str, r') => Some (JStr str, r')
        | None => None
        end
    | 123 :: r =>
        match skip_ws r with
        | 125 :: r' => Some (JObj [], r')
        | r' => parse_members f r' []
        end
    | 91 :: r =>
        match skip_ws r with
        | 93 :: r' => Some (JArr [], r')
        | r' => parse_items f r' []
        end
    | _ => scan_keyword s
    end
  end
with parse_members (fuel : nat) (s : text) (acc : list (text * json)) : option (json * text) :=
  match fuel with
  | O => None
  | S f =>
    match s with
    | 34 :: r =>
        match scan_string r [] with
        | Some (k, r1) =>
            match skip_ws r1 with
            | 58 :: r2 =>
                match parse_value f (skip_ws r2) with
                | Some (v, r3) =>
                    let acc' := dict_set k v acc in
                    match skip_ws r3 with
                    | 125 :: r4 => Some (JObj acc', r4)
                    | 44 :: r4 => parse_members f (skip_ws r4) acc'
                    | _ => None
                    end
                | None => None
                end
            | _ => None
            end
        | None => None
        end
    | _ => None
    end
  end
with parse_items (fuel : nat) (s : text) (acc : list json) : option (json * text) :=
  match fuel with
  | O => None
  | S f =>
    match parse_value f s with
    | Some (v, r) =>
        match skip_ws r with
        | 93 :: r' => Some (JArr (acc ++ [v]), r')
        | 44 :: r' => parse_items f (skip_ws r') (acc ++ [v])
        | _ => None
        end
    | None => None
    end
  end.

(** [json.loads(s)] on the reference reader: the whole of [s] must be one
    document, with white space around it. *)
Definition ref_json_loads (s : text) : result json :=
  match parse_value (S (length s)) (skip_ws s) with
  | Some (v, r) =>
      match skip_ws r with
      | [] => Ok v
      | _ :: _ => Raise JSONDecodeError
      end
  | None => Raise JSONDecodeError
  end.

(* ================================================================== *)
(** ** State and exceptions together                                   *)
(* ================================================================== *)

(** A computation that updates a state of type [S] and may raise; the state
    reached when the exception is raised is kept, as a Python handler sees
    the mutations made before the raise. *)
Definition SE (S A : Type) : Type := S -> result A * S.

Definition se_ret {S A} (a : A) : SE S A := fun s => (Ok a, s).

Definition se_bind {S A B} (m : SE S A) (k : A -> SE S B) : SE S B :=
  fun s =>
    match m s with
    | (Ok a, s') => k a s'
    | (Raise e, s') => (Raise e, s')
    end.

Definition se_lift {S A} (r : result A) : SE S A := fun s => (r, s).
Definition se_get {S} : SE S S := fun s => (Ok s, s).
Definition se_put {S} (s : S) : SE S unit := fun _ => (Ok tt, s).

Notation "x <~ m ;; k" := (se_bind m (fun x => k))
  (at level 61, m at next level, right associativity).
Notation "m ;;; k" := (se_bind m (fun _ => k))
  (at level 61, right associativity).

(** [for x in xs: body(x)] without [break] or [return]. *)
Fixpoint se_for {S A} (xs : list A) (body : A -> SE S unit) : SE S unit :=
  match xs with
  | [] => se_ret tt
  | x :: xs' => body x ;;; se_for xs' body
  end.

(** [for x in xs: ...] whose body may [return v]: [Some v] is the value
    returned, [None] means the loop ran to its end. *)
Fixpoint first_return {A} (xs : list A) (body : A -> result (option json))
  : result (option json) :=
  match xs with
  | [] => Ok None
  | x :: xs' =>
      o <- body x ;;
      match o with
      | Some v => Ok (Some v)
      | None => first_return xs' body
      end
  end.

(** [k1 in d and k2 in d[k1]] *)
Definition in_nested (d : json) (k1 k2 : text) : result bool :=
  b <- py_in k1 d ;;
  if b then v <- getitem d k1 ;; py_in k2 v else Ok false.

(** [e['expr']['Literal']['Value'].strip(apostrophe)] *)
Definition literal_value (e : json) : result json :=
  x <- getitem e (lit "expr") ;;
  l <- getitem x (lit "Literal") ;;
  v <- getitem l (lit "Value") ;;
  str_strip 39 v.

(* ================================================================== *)
(** ** extract_pbix_ui.py                                              *)
(* ================================================================== *)

Section ExtractPbixUi.
Context {rt : PyRuntime}.

(** [PBIXUIExtractor._extract_layout_file]: [member] is what opening and
    reading the archive member gives (the bytes, or the exception raised);
    the result [None] is Python's None. *)
Definition _extract_layout_file (member : result bytes) : option json :=
  match member with
  | Raise _ => None
  | Ok content =>
      let text_content := decode_cascade content in
      match strip text_content with
      | [] => None
      | _ :: _ =>
          match json_loads text_content with
          | Ok v => Some v
          | Raise JSONDecodeError =>
              Some (JObj [(lit "raw_content",
                           JStr (if (1000 <? length text_content)%nat
                                 then slice_to 1000 text_content ++ lit "..."
                                 else text_content))])
          | Raise _ => None
          end
      end
  end.

End ExtractPbixUi.

(* ================================================================== *)
(** ** parse_pbix_ui.py                                                *)
(* ================================================================== *)

Definition VISUAL_TYPE_MAP : list (text * json) :=
  map (fun kv => (lit (fst kv), JStr (lit (snd kv))))
  [ ("actionButton", "Action Button");
    ("card", "Card");
    ("columnChart", "Column Chart");
    ("barChart", "Bar Chart");
    ("lineChart", "Line Chart");
    ("areaChart", "Area Chart");
    ("pieChart", "Pie Chart");
    ("donutChart", "Donut Chart");
    ("tableEx", "Table");
    ("matrix", "Matrix");
    ("slicer", "Slicer");
    ("gauge", "Gauge");
    ("scatterChart", "Scatter Chart");
    ("map", "Map");
    ("filledMap", "Filled Map");
    ("treemap", "Treemap");
    ("waterfallChart", "Waterfall Chart");
    ("funnelChart", "Funnel Chart");
    ("ribbonChart", "Ribbon Chart");
    ("textbox", "Text Box");
    ("shape", "Shape");
    ("image", "Image");
    ("multiRowCard", "Multi-row Card");
    ("kpi", "KPI");
    ("stackedAreaChart", "Stacked Area Chart");
    ("clusteredBarChart", "Clustered Bar Chart");
    ("stackedBarChart", "Stacked Bar Chart");
    ("clusteredColumnChart", "Clustered Column Chart");
    ("stackedColumnChart", "Stacked Column Chart");
    ("lineStackedColumnComboChart", "Line and Stacked Column Chart");
    ("lineClusteredColumnComboChart", "Line and Clustered Column Chart");
    ("100stackedBarChart", "100% Stacked Bar Chart");
    ("100stackedColumnChart", "100% Stacked Column Chart");
    ("htmlViewer", "HTML Viewer") ]%string.

Section ParsePbixUi.
Context {rt : PyRuntime}.

(** [PBIXVisualParser.parse_visual_config].  Only a string has [startswith];
    the handler catches JSONDecodeError and ValueError, nothing else. *)
Definition parse_visual_config (config_str : json) : result json :=
  match config_str with
  | JStr s =>
      let loaded :=
        if starts_with (lit "{") s then json_loads s
        else json_loads (strip_char 34 s) in
      match loaded with
      | Ok config => Ok config
      | Raise JSONDecodeError | Raise ValueError =>
          Ok (JObj [(lit "error", JStr (lit "Failed to parse config"));
                    (lit "raw", JStr (slice_to 200 s))])
      | Raise e => Raise e
      end
  | _ => Raise AttributeError
  end.

(** [PBIXVisualParser.extract_visual_type].  [VISUAL_TYPE_MAP.get(t, t)]
    hashes [t]: a list or a dict is unhashable. *)
Definition extract_visual_type (config : json) : result json :=
  b <- in_nested config (lit "singleVisual") (lit "visualType") ;;
  if b then
    single_visual <- getitem config (lit "singleVisual") ;;
    visual_type <- getitem single_visual (lit "visualType") ;;
    match visual_type with
    | JStr code =>
        Ok (match assoc code VISUAL_TYPE_MAP with
            | Some name => name
            | None => visual_type
            end)
    | JArr _ | JObj _ => Raise TypeError
    | _ => Ok visual_type
    end
  else Ok (JStr (lit "Unknown")).

(** The [try] block of [extract_data_roles]; the state is the variable
    [data_roles].  After [data_roles = query['dataRoles']] the variable is
    the very list stored in the configuration, which the later [append] and
    [extend] therefore grow in place; nothing in this module reads that
    entry of the configuration again. *)
Definition data_roles_try (config : json) : SE json unit :=
  has_sv <~ se_lift (py_in (lit "singleVisual") config) ;;
  if has_sv then
    single_visual <~ se_lift (getitem config (lit "singleVisual")) ;;
    has_query <~ se_lift (py_in (lit "query") single_visual) ;;
    (if has_query then
       query <~ se_lift (getitem single_visual (lit "query")) ;;
       has_roles <~ se_lift (py_in (lit "dataRoles") query) ;;
       if has_roles then
         roles <~ se_lift (getitem query (lit "dataRoles")) ;;
         se_put roles
       else se_ret tt
     else se_ret tt) ;;;
    has_proj <~ se_lift (py_in (lit "projections") single_visual) ;;
    (if has_proj then
       projections <~ se_lift (getitem single_visual (lit "projections")) ;;
       items <~ se_lift (dict_items projections) ;;
       se_for items (fun item =>
         match snd item with
         | JArr fields =>
             se_for fields (fun field =>
               data_roles <~ se_get ;;
               data_roles' <~ se_lift (list_append data_roles
                                 (JObj [(lit "role", JStr (fst item));
                                        (lit "field", field)])) ;;
               se_put data_roles')
         | _ => se_ret tt
         end)
     else se_ret tt) ;;;
    has_direct <~ se_lift (py_in (lit "dataRoles") single_visual) ;;
    if has_direct then
      data_roles <~ se_get ;;
      (if is_list data_roles then se_ret tt else se_lift (Raise AttributeError)) ;;;
      direct <~ se_lift (getitem single_visual (lit "dataRoles")) ;;
      data_roles' <~ se_lift (list_extend data_roles direct) ;;
      se_put data_roles'
    else se_ret tt
  else se_ret tt.

(** [PBIXVisualParser.extract_data_roles]: the handler appends an error
    entry to whatever [data_roles] is by then, and that [append] is not
    protected. *)
Definition extract_data_roles (config : json) : result json :=
  match data_roles_try config (JArr []) with
  | (Ok _, data_roles) => Ok data_roles
  | (Raise e, data_roles) =>
      list_append data_roles (JObj [(lit "error", JStr (exn_str e))])
  end.

(** The [try] block of [extract_visual_properties]; the state is the dict
    [properties]. *)
Definition visual_properties_try (config : json) : SE (list (text * json)) unit :=
  b <~ se_lift (in_nested config (lit "singleVisual") (lit "objects")) ;;
  if b then
    single_visual <~ se_lift (getitem config (lit "singleVisual")) ;;
    objects <~ se_lift (getitem single_visual (lit "objects")) ;;
    items <~ se_lift (dict_items objects) ;;
    se_for items (fun item =>
      properties <~ se_get ;;
      se_put (dict_set (fst item) (JArr []) properties) ;;;
      match snd item with
      | JArr object_configs =>
          se_for object_configs (fun obj_config =>
            has_props <~ se_lift (py_in (lit "properties") obj_config) ;;
            if has_props then
              p <~ se_lift (getitem obj_config (lit "properties")) ;;
              properties <~ se_get ;;
              cur <~ se_lift (getitem (JObj properties) (fst item)) ;;
              cur' <~ se_lift (list_append cur p) ;;
              se_put (dict_set (fst item) cur' properties)
            else se_ret tt)
      | _ => se_ret tt
      end)
  else se_ret tt.

(** [PBIXVisualParser.extract_visual_properties] *)
Definition extract_visual_properties (config : json) : json :=
  match visual_properties_try config [] with
  | (Ok _, properties) => JObj properties
  | (Raise e, properties) => JObj (dict_set (lit "error") (JStr (exn_str e)) properties)
  end.

(** The [try] block of [extract_text_content]: [Some v] when a [return]
    inside the loops is reached. *)
Definition text_content_try (config : json) : result (option json) :=
  b <- in_nested config (lit "singleVisual") (lit "objects") ;;
  if b then
    single_visual <- getitem config (lit "singleVisual") ;;
    objects <- getitem single_visual (lit "objects") ;;
    has_text <- py_in (lit "text") objects ;;
    found <- (if has_text then
                text_configs <- getitem objects (lit "text") ;;
                configs <- py_iter text_configs ;;
                first_return configs (fun text_config =>
                  b1 <- in_nested text_config (lit "properties") (lit "text") ;;
                  if b1 then
                    props <- getitem text_config (lit "properties") ;;
                    text_expr <- getitem props (lit "text") ;;
                    b2 <- in_nested text_expr (lit "expr") (lit "Literal") ;;
                    if b2 then v <- literal_value text_expr ;; Ok (Some v)
                    else Ok None
                  else Ok None)
              else Ok None) ;;
    match found with
    | Some v => Ok (Some v)
    | None =>
        items <- dict_items objects ;;
        first_return items (fun item =>
          match snd item with
          | JArr obj_configs =>
              first_return obj_configs (fun obj_config =>
                has_props <- py_in (lit "properties") obj_config ;;
                if has_props then
                  props <- getitem obj_config (lit "properties") ;;
                  pitems <- dict_items props ;;
                  first_return pitems (fun p =>
                    if contains (lit "text") (py_lower (fst p)) && is_dict (snd p) then
                      b2 <- in_nested (snd p) (lit "expr") (lit "Literal") ;;
                      if b2 then v <- literal_value (snd p) ;; Ok (Some v)
                      else Ok None
                    else Ok None)
                else Ok None)
          | _ => Ok None
          end)
    end
  else Ok None.

(** [PBIXVisualParser.extract_text_content]: every exception is swallowed. *)
Definition extract_text_content (config : json) : json :=
  match text_content_try config with
  | Ok (Some v) => v
  | Ok None | Raise _ => JNull
  end.

(** The [try] block of [extract_bookmarks_and_actions]; the state is the
    dict [actions]. *)
Definition actions_try (config : json) : SE (list (text * json)) unit :=
  b <~ se_lift (in_nested config (lit "singleVisual") (lit "vcObjects")) ;;
  if b then
    single_visual <~ se_lift (getitem config (lit "singleVisual")) ;;
    vc_objects <~ se_lift (getitem single_visual (lit "vcObjects")) ;;
    has_link <~ se_lift (py_in (lit "visualLink") vc_objects) ;;
    if has_link then
      links <~ se_lift (getitem vc_objects (lit "visualLink")) ;;
      link_configs <~ se_lift (py_iter links) ;;
      se_for link_configs (fun link_config =>
        has_props <~ se_lift (py_in (lit "properties") link_config) ;;
        if has_props then
          props <~ se_lift (getitem link_config (lit "properties")) ;;
          b1 <~ se_lift (in_nested props (lit "type") (lit "expr")) ;;
          link_type <~ (if b1 then
                          t <~ se_lift (getitem props (lit "type")) ;;
                          se_lift (literal_value t)
                        else se_ret JNull) ;;
          b2 <~ se_lift (in_nested props (lit "bookmark") (lit "expr")) ;;
          bookmark <~ (if b2 then
                         t <~ se_lift (getitem props (lit "bookmark")) ;;
                         se_lift (literal_value t)
                       else se_ret JNull) ;;
          actions <~ se_get ;;
          se_put (dict_set (lit "bookmark") bookmark
                   (dict_set (lit "link_type") link_type actions))
        else se_ret tt)
    else se_ret tt
  else se_ret tt.

(** [PBIXVisualParser.extract_bookmarks_and_actions] *)
Definition extract_bookmarks_and_actions (config : json) : json :=
  match actions_try config [] with
  | (Ok _, actions) => JObj actions
  | (Raise e, actions) => JObj (dict_set (lit "error") (JStr (exn_str e)) actions)
  end.

(** [PBIXVisualParser._enhance_visual_data]: the entries of the dict display
    are evaluated in order, and nothing here is protected by a handler. *)
Definition _enhance_visual_data (visual page_name : json) : result json :=
  config_str <- dict_get visual (lit "properties") (JStr (lit "{}")) ;;
  config <- parse_visual_config config_str ;;
  id <- dict_get visual (lit "id") JNull ;;
  enhanced_type <- extract_visual_type config ;;
  original_type <- dict_get visual (lit "type") (JStr (lit "unknown")) ;;
  x0 <- dict_get visual (lit "x") (JInt 0) ;;
  x <- py_round1 x0 ;;
  y0 <- dict_get visual (lit "y") (JInt 0) ;;
  y <- py_round1 y0 ;;
  w0 <- dict_get visual (lit "width") (JInt 0) ;;
  width <- py_round1 w0 ;;
  h0 <- dict_get visual (lit "height") (JInt 0) ;;
  height <- py_round1 h0 ;;
  z_order <- dict_get visual (lit "z_order") (JInt 0) ;;
  data_roles <- extract_data_roles config ;;
  let properties := extract_visual_properties config in
  let text_content := extract_text_content config in
  let actions := extract_bookmarks_and_actions config in
  config_size <- match config_str with
                 | JStr s => Ok (JInt (Z.of_nat (length s)))
                 | _ => Raise TypeError
                 end ;;
  Ok (JObj [ (lit "id", id);
             (lit "page_name", page_name);
             (lit "enhanced_type", enhanced_type);
             (lit "original_type", original_type);
             (lit "position",
              JObj [ (lit "x", x); (lit "y", y); (lit "width", width);
                     (lit "height", height); (lit "z_order", z_order) ]);
             (lit "data_roles", data_roles);
             (lit "properties", properties);
             (lit "text_content", text_content);
             (lit "actions", actions);
             (lit "config_size", config_size) ]).

End ParsePbixUi.

(* ================================================================== *)
(** ** setup_powerbi_mcp_db.py: classifiers and the page resolver       *)
(* ================================================================== *)

(** [extract_source_type].  The argument is whatever the caller read from the
    data model; [in] raises on a value that is not a container. *)
Definition extract_source_type (m_expression : json) : result text :=
  b1 <- py_in (lit "Excel.Workbook") m_expression ;;
  if b1 then Ok (lit "Excel") else
  b2 <- py_in (lit "AzureStorage.BlobContents") m_expression ;;
  if b2 then Ok (lit "Azure Blob Storage") else
  b3 <- py_in (lit "Table.FromRows") m_expression ;;
  if b3 then Ok (lit "Embedded Table") else
  b4 <- py_in (lit "Sql.Database") m_expression ;;
  if b4 then Ok (lit "SQL Database") else
  b5 <- py_in (lit "Web.Contents") m_expression ;;
  if b5 then Ok (lit "Web Source") else
  Ok (lit "Other").

Section Resolver.
Context {rt : PyRuntime}.

(** The inner loop of [extract_page_from_visual]: does some container of
    the page carry the visual's id (both through [str])? *)
Fixpoint scan_containers (visual_id : text) (containers : list json) : result bool :=
  match containers with
  | [] => Ok false
  | container :: rest =>
      cid <- dict_get container (lit "id") (JStr []) ;;
      if text_eqb (py_str cid) visual_id then Ok true
      else scan_containers visual_id rest
  end.

(** The outer loop: the name of the first page one of whose containers
    matches, [None] when the loop ends without a [return]. *)
Fixpoint scan_pages (visual_id : text) (pages : list json) : result (option json) :=
  match pages with
  | [] => Ok None
  | page :: rest =>
      raw_data <- dict_get page (lit "raw_data") (JObj []) ;;
      visual_containers <- dict_get raw_data (lit "visualContainers") (JArr []) ;;
      containers <- py_iter visual_containers ;;
      hit <- scan_containers visual_id containers ;;
      if hit then name <- getitem page (lit "name") ;; Ok (Some name)
      else scan_pages visual_id rest
  end.

(** [pages[0]['name'] if pages else 'Unknown'] *)
Definition first_page_or_unknown (pages : list json) : result json :=
  match pages with
  | page :: _ => getitem page (lit "name")
  | [] => Ok (JStr (lit "Unknown"))
  end.

(** [pages[i]['name']], evaluated under the guard [len(pages) > i] *)
Definition page_name_at (i : nat) (pages : list json) : result json :=
  getitem (nth i pages JNull) (lit "name").

(** The statements after the loops: the [if]/[elif] chain on the discovery
    path and the final [return]. *)
Definition resolve_fallback (visual : json) (pages : list json) : result json :=
  path <- dict_get visual (lit "path") (JStr []) ;;
  s0 <- py_in (lit "sections[0]") path ;;
  if s0 then first_page_or_unknown pages else
  s1 <- py_in (lit "sections[1]") path ;;
  if s1 && (1 <? length pages)%nat then page_name_at 1 pages else
  s2 <- py_in (lit "sections[2]") path ;;
  if s2 && (2 <? length pages)%nat then page_name_at 2 pages else
  s3 <- py_in (lit "sections[3]") path ;;
  if s3 && (3 <? length pages)%nat then page_name_at 3 pages else
  first_page_or_unknown pages.

(** [extract_page_from_visual] *)
Definition extract_page_from_visual (visual : json) (pages : list json) : result json :=
  id <- dict_get visual (lit "id") (JStr []) ;;
  found <- scan_pages (py_str id) pages ;;
  match found with
  | Some name => Ok name
  | None => resolve_fallback visual pages
  end.

(** *** The resolver as a transition system

    The same function one statement at a time: where control stands in
    [extract_page_from_visual], and the step each statement takes. *)
Inductive rstate :=
| AtEntry
| AtPageLoop (visual_id : text) (rest : list json)
| AtContainerLoop (visual_id : text) (page : json) (containers rest : list json)
| AtFallback
| Returned (v : json)
| Raised (e : exn).

(** What a run ends in, read off a [result]. *)
Definition outcome (r : result json) : rstate :=
  match r with
  | Ok v => Returned v
  | Raise e => Raised e
  end.

Inductive rstep (visual : json) (pages : list json) : rstate -> rstate -> Prop :=
| step_entry id :
    dict_get visual (lit "id") (JStr []) = Ok id ->
    rstep visual pages AtEntry (AtPageLoop (py_str id) pages)
| step_entry_raise e :
    dict_get visual (lit "id") (JStr []) = Raise e ->
    rstep visual pages AtEntry (Raised e)
| step_pages_done vid :
    rstep visual pages (AtPageLoop vid []) AtFallback
| step_page_enter vid page rest raw_data vcs containers :
    dict_get page (lit "raw_data") (JObj []) = Ok raw_data ->
    dict_get raw_data (lit "visualContainers") (JArr []) = Ok vcs ->
    py_iter vcs = Ok containers ->
    rstep visual pages (AtPageLoop vid (page :: rest))
                       (AtContainerLoop vid page containers rest)
| step_page_raw_raise vid page rest e :
    dict_get page (lit "raw_data") (JObj []) = Raise e ->
    rstep visual pages (AtPageLoop vid (page :: rest)) (Raised e)
| step_page_vcs_raise vid page rest raw_data e :
    dict_get page (lit "raw_data") (JObj []) = Ok raw_data ->
    dict_get raw_data (lit "visualContainers") (JArr []) = Raise e ->
    rstep visual pages (AtPageLoop vid (page :: rest)) (Raised e)
| step_page_iter_raise vid page rest raw_data vcs e :
    dict_get page (lit "raw_data") (JObj []) = Ok raw_data ->
    dict_get raw_data (lit "visualContainers") (JArr []) = Ok vcs ->
    py_iter vcs = Raise e ->
    rstep visual pages (AtPageLoop vid (page :: rest)) (Raised e)
| step_containers_done vid page rest :
    rstep visual pages (AtContainerLoop vid page [] rest) (AtPageLoop vid rest)
| step_container_skip vid page c cs rest cid :
    dict_get c (lit "id") (JStr []) = Ok cid ->
    text_eqb (py_str cid) vid = false ->
    rstep visual pages (AtContainerLoop vid page (c :: cs) rest)
                       (AtContainerLoop vid page cs rest)
| step_container_hit vid page c cs rest cid :
    dict_get c (lit "id") (JStr []) = Ok cid ->
    text_eqb (py_str cid) vid = true ->
    rstep visual pages (AtContainerLoop vid page (c :: cs) rest)
                       (outcome (getitem page (lit "name")))
| step_container_raise vid page c cs rest e :
    dict_get c (lit "id") (JStr []) = Raise e ->
    rstep visual pages (AtContainerLoop vid page (c :: cs) rest) (Raised e)
| step_fallback :
    rstep visual pages AtFallback (outcome (resolve_fallback visual pages)).

Inductive rsteps (visual : json) (pages : list json) : rstate -> rstate -> Prop :=
| rsteps_refl s : rsteps visual pages s s
| rsteps_step s s' s'' :
    rstep visual pages s s' -> rsteps visual pages s' s'' -> rsteps visual pages s s''.

Definition rfinal (s : rstate) : bool :=
  match s with
  | Returned _ | Raised _ => true
  | _ => false
  end.

End Resolver.

(* ================================================================== *)
(** ** The SQLite store as the projector sees it                       *)
(* ================================================================== *)

Definition row := list sqlval.

(** The tables and views of the script. *)
Inductive relname :=
| powerbi_pages
| powerbi_visualizations
| powerbi_custom_visuals
| powerbi_dax_measures
| powerbi_calculated_columns
| powerbi_relationships
| powerbi_power_query.

Inductive viewname :=
| powerbi_page_summary
| powerbi_visual_types_summary
| powerbi_data_model_overview.

Definition relname_eqb (a b : relname) : bool :=
  match a, b with
  | powerbi_pages, powerbi_pages
  | powerbi_visualizations, powerbi_visualizations
  | powerbi_custom_visuals, powerbi_custom_visuals
  | powerbi_dax_measures, powerbi_dax_measures
  | powerbi_calculated_columns, powerbi_calculated_columns
  | powerbi_relationships, powerbi_relationships
  | powerbi_power_query, powerbi_power_query => true
  | _, _ => false
  end.

Definition viewname_eqb (a b : viewname) : bool :=
  match a, b with
  | powerbi_page_summary, powerbi_page_summary
  | powerbi_visual_types_summary, powerbi_visual_types_summary
  | powerbi_data_model_overview, powerbi_data_model_overview => true
  | _, _ => false
  end.

(** The columns of the declared PRIMARY KEY, by position in the column list
    of the INSERT; [None] for the tables whose key is an
    INTEGER PRIMARY KEY AUTOINCREMENT column that the INSERT does not name. *)
Definition primary_key (t : relname) : option (list nat) :=
  match t with
  | powerbi_pages => Some [0%nat]
  | powerbi_visualizations => Some [0%nat; 1%nat]
  | powerbi_custom_visuals => Some [0%nat]
  | powerbi_dax_measures
  | powerbi_calculated_columns
  | powerbi_relationships
  | powerbi_power_query => None
  end.

(** A table: its rows in rowid order and the largest rowid handed out so far
    (the sqlite_sequence entry of an AUTOINCREMENT table).  A row of an
    AUTOINCREMENT table starts with its id.  Of a table with a declared key
    the rowids are not kept: a new row comes after the last one, as it does
    while the largest rowid of the table is below 2^63-1. *)
Record table := { rows : list row; last_rowid : Z }.

Definition empty_table : table := {| rows := []; last_rowid := 0 |}.

Record store := {
  tables : relname -> option table;
  views : viewname -> bool
}.

(** A connection in the sqlite3 module's default mode: a transaction is
    opened implicitly before an INSERT or REPLACE statement and stays open
    until commit or rollback; a CREATE statement issued while no transaction
    is open takes effect at once. *)
Record conn := {
  committed : store;
  working : store;
  in_txn : bool
}.

Definition connect (db : store) : conn :=
  {| committed := db; working := db; in_txn := false |}.

(** The affinities of the columns an INSERT of the script names, in order. *)
Definition column_affinities (t : relname) : list affinity :=
  match t with
  | powerbi_pages =>
      [AffText; AffText; AffText; AffInteger; AffInteger; AffInteger; AffInteger;
       AffText; AffText]
  | powerbi_visualizations =>
      [AffText; AffText; AffText; AffText; AffReal; AffReal; AffReal; AffReal;
       AffInteger; AffText; AffInteger; AffText; AffText]
  | powerbi_custom_visuals => [AffText; AffText; AffText; AffText]
  | powerbi_dax_measures => [AffText; AffText; AffText; AffText]
  | powerbi_calculated_columns => [AffText; AffText; AffText; AffText]
  | powerbi_relationships => [AffText; AffText; AffText; AffText; AffText; AffNumeric]
  | powerbi_power_query => [AffText; AffText; AffText]
  end.

(** Equality of two stored values of a key column.  The key columns of the
    script have TEXT affinity, so what they hold is NULL or TEXT, compared
    character by character. *)
Definition sqlval_eqb (a b : sqlval) : bool :=
  match a, b with
  | SqlNull, SqlNull => true
  | SqlInt x, SqlInt y => x =? y
  | SqlReal x, SqlReal y => text_eqb x y
  | SqlText x, SqlText y => text_eqb x y
  | _, _ => false
  end.

Definition is_null (v : sqlval) : bool :=
  match v with SqlNull => true | _ => false end.

Definition key_of (cols : list nat) (r : row) : list sqlval :=
  map (fun i => nth i r SqlNull) cols.

Fixpoint key_eqb (a b : list sqlval) : bool :=
  match a, b with
  | [], [] => true
  | x :: a', y :: b' => sqlval_eqb x y && key_eqb a' b'
  | _, _ => false
  end.

(** Two rows collide on the key when their key columns are equal and none
    of them is NULL (a NULL never equals another NULL in a UNIQUE index). *)
Definition conflicts (cols : list nat) (r r' : row) : bool :=
  forallb (fun v => negb (is_null v)) (key_of cols r) &&
  key_eqb (key_of cols r) (key_of cols r').

Definition max_rowid (rs : list row) : Z :=
  fold_left (fun m r => match r with SqlInt i :: _ => Z.max m i | _ => m end) rs 0.

(** An AUTOINCREMENT table takes no more rows once the largest rowid,
    2^63-1, has been used: the INSERT fails (database or disk is full). *)
Definition autoincrement_full (t : relname) (tb : table) : bool :=
  match primary_key t with
  | Some _ => false
  | None => 2 ^ 63 - 1 <=? Z.max (last_rowid tb) (max_rowid (rows tb))
  end.

(** INSERT OR REPLACE of one row, as stored.  With a declared key, the rows
    that collide with the new one are deleted first; without one, the row
    gets the next rowid and there is nothing it could collide with. *)
Definition insert_or_replace (t : relname) (vals : row) (tb : table) : table :=
  match primary_key t with
  | Some cols =>
      {| rows := filter (fun r' => negb (conflicts cols vals r')) (rows tb) ++ [vals];
         last_rowid := last_rowid tb |}
  | None =>
      let id := Z.max (last_rowid tb) (max_rowid (rows tb)) + 1 in
      {| rows := rows tb ++ [SqlInt id :: vals]; last_rowid := id |}
  end.

Definition set_table (t : relname) (tb : table) (s : store) : store :=
  {| tables := fun t' => if relname_eqb t' t then Some tb else tables s t';
     views := views s |}.

Definition set_view (v : viewname) (s : store) : store :=
  {| tables := tables s;
     views := fun v' => if viewname_eqb v' v then true else views s v' |}.

(** CREATE TABLE IF NOT EXISTS *)
Definition create_table (t : relname) (s : store) : store :=
  match tables s t with
  | Some _ => s
  | None => set_table t empty_table s
  end.

Definition is_surrogate (c : Z) : bool := (0xD800 <=? c) && (c <=? 0xDFFF).

(** How the sqlite3 module binds a Python value to a parameter: an int must
    fit 64 bits, a str must encode as UTF-8 (no lone surrogate), and SQLite
    takes the float NaN for NULL. *)
Definition bind_param (v : json) : result sqlval :=
  match v with
  | JNull => Ok SqlNull
  | JBool b => Ok (SqlInt (if b then 1 else 0))
  | JInt z =>
      if (- 2 ^ 63 <=? z) && (z <? 2 ^ 63) then Ok (SqlInt z) else Raise OverflowError
  | JFloat l => Ok (if text_eqb l (lit "NaN") then SqlNull else SqlReal l)
  | JStr s => if existsb is_surrogate s then Raise UnicodeEncodeError else Ok (SqlText s)
  | JArr _ | JObj _ => Raise DatabaseError
  end.

Fixpoint bind_params (vs : list json) : result row :=
  match vs with
  | [] => Ok []
  | v :: vs' => x <- bind_param v ;; xs <- bind_params vs' ;; Ok (x :: xs)
  end.

(** [cursor.execute("CREATE TABLE IF NOT EXISTS ...")] *)
Definition execute_create_table (t : relname) : SE conn unit :=
  fun c =>
    (Ok tt,
     {| committed := if in_txn c then committed c else create_table t (committed c);
        working := create_table t (working c);
        in_txn := in_txn c |}).

(** [cursor.execute("CREATE VIEW IF NOT EXISTS ...")] *)
Definition execute_create_view (v : viewname) : SE conn unit :=
  fun c =>
    (Ok tt,
     {| committed := if in_txn c then committed c else set_view v (committed c);
        working := set_view v (working c);
        in_txn := in_txn c |}).

Section Storing.
Context {rt : PyRuntime}.

(** What a column of affinity [a] stores for a bound value: NULL stays NULL;
    a TEXT column turns a number into its text; a column of another
    affinity keeps an INTEGER (a REAL column a REAL) and converts the rest
    as SQLite does. *)
Definition apply_affinity (a : affinity) (v : sqlval) : sqlval :=
  match v with
  | SqlNull => SqlNull
  | SqlInt z =>
      match a with
      | AffText => SqlText (str_of_Z z)
      | AffInteger | AffNumeric => SqlInt z
      | AffReal => sqlite_numeric a v
      end
  | SqlReal l =>
      match a with
      | AffText => SqlText (sqlite_real_text l)
      | AffReal => SqlReal l
      | AffInteger | AffNumeric => sqlite_numeric a v
      end
  | SqlText s =>
      match a with
      | AffText => SqlText s
      | AffInteger | AffReal | AffNumeric => sqlite_numeric a v
      end
  end.

Fixpoint store_row (affinities : list affinity) (vals : row) : row :=
  match affinities, vals with
  | a :: affinities', v :: vals' => apply_affinity a v :: store_row affinities' vals'
  | _, _ => vals
  end.

(** [cursor.execute("INSERT OR REPLACE INTO t (...) VALUES (?, ...)", params)]:
    the statement is prepared (the table must exist), the transaction is
    opened, the parameters are bound, and the row is written. *)
Definition execute_insert (t : relname) (params : list json) : SE conn unit :=
  fun c =>
    match tables (working c) t with
    | None => (Raise OperationalError, c)
    | Some tb =>
        let begun := {| committed := committed c; working := working c; in_txn := true |} in
        match bind_params params with
        | Raise e => (Raise e, begun)
        | Ok vals =>
            if autoincrement_full t tb then (Raise OperationalError, begun)
            else
              (Ok tt,
               {| committed := committed c;
                  working := set_table t
                               (insert_or_replace t (store_row (column_affinities t) vals) tb)
                               (working c);
                  in_txn := true |})
        end
    end.

End Storing.

(** [conn.commit()] and [conn.rollback()] *)
Definition commit : SE conn unit :=
  fun c => (Ok tt, {| committed := working c; working := working c; in_txn := false |}).

Definition rollback (c : conn) : conn :=
  {| committed := committed c; working := committed c; in_txn := false |}.

(* ================================================================== *)
(** ** setup_powerbi_mcp_db.py: the projector                           *)
(* ================================================================== *)

Section Projector.
Context {rt : PyRuntime}.

Definition get (d : json) (k : string) (dflt : json) : SE conn json :=
  se_lift (dict_get d (lit k) dflt).

Definition item (d : json) (k : string) : SE conn json :=
  se_lift (getitem d (lit k)).

(** The body of [for page in ui_data.get('pages', [])] *)
Definition insert_page (page : json) : SE conn unit :=
  raw_data <~ get page "raw_data" (JObj []) ;;
  page_id <~ item page "name" ;;
  page_name <~ item page "name" ;;
  display_name <~ get raw_data "displayName" page_name ;;
  ordinal <~ item page "ordinal" ;;
  width <~ item page "width" ;;
  height <~ item page "height" ;;
  visual_count <~ item page "visual_count" ;;
  background <~ get page "background" (JObj []) ;;
  filters <~ get raw_data "filters" (JStr (lit "[]")) ;;
  execute_insert powerbi_pages
    [page_id; page_name; display_name; ordinal; width; height; visual_count;
     JStr (json_dumps background); filters].

(** The body of [for visual in ui_data.get('visualizations', [])] *)
Definition insert_visual (pages : list json) (visual : json) : SE conn unit :=
  page_id <~ se_lift (extract_page_from_visual visual pages) ;;
  id <~ get visual "id" (JStr []) ;;
  visual_type <~ get visual "type" (JStr (lit "unknown")) ;;
  enhanced_type <~ get visual "enhanced_type" (JStr (lit "Unknown")) ;;
  px <~ get visual "position" (JObj []) ;;
  x <~ get px "x" (JInt 0) ;;
  py <~ get visual "position" (JObj []) ;;
  y <~ get py "y" (JInt 0) ;;
  pw <~ get visual "position" (JObj []) ;;
  width <~ get pw "width" (JInt 0) ;;
  ph <~ get visual "position" (JObj []) ;;
  height <~ get ph "height" (JInt 0) ;;
  pz <~ get visual "position" (JObj []) ;;
  z_order <~ get pz "z_order" (JInt 0) ;;
  text_content <~ get visual "text_content" JNull ;;
  data_roles_count <~ get visual "data_roles_count" (JInt 0) ;;
  bookmark_action <~ get visual "bookmark_action" JNull ;;
  raw_config <~ get visual "raw_config" (JObj []) ;;
  execute_insert powerbi_visualizations
    [JStr (py_str id); page_id; visual_type; enhanced_type; x; y; width; height;
     z_order; text_content; data_roles_count; bookmark_action;
     JStr (json_dumps raw_config)].

(** The body of [for custom_visual in ui_data.get('custom_visuals', [])] *)
Definition insert_custom_visual (custom_visual : json) : SE conn unit :=
  config <~ get custom_visual "config" (JObj []) ;;
  file <~ get custom_visual "file" (JStr []) ;;
  name <~ get config "name" (JStr (lit "Unknown")) ;;
  version <~ get config "version" (JStr (lit "Unknown")) ;;
  execute_insert powerbi_custom_visuals
    [file; name; version; JStr (json_dumps config)].

(** [create_ui_tables]; [ui_structure] is what opening and loading the file
    gives.  The page list is read again for every visual; a value that got
    through the page loop without being a list is empty, and the resolver
    treats it as the empty list. *)
Definition create_ui_tables (ui_structure : result json) : SE conn unit :=
  ui_data <~ se_lift ui_structure ;;
  execute_create_table powerbi_pages ;;;
  pages_v <~ get ui_data "pages" (JArr []) ;;
  pages <~ se_lift (py_iter pages_v) ;;
  se_for pages insert_page ;;;
  execute_create_table powerbi_visualizations ;;;
  visuals_v <~ get ui_data "visualizations" (JArr []) ;;
  visuals <~ se_lift (py_iter visuals_v) ;;
  se_for visuals (fun visual =>
    pages_v' <~ get ui_data "pages" (JArr []) ;;
    pages' <~ se_lift (py_iter pages_v') ;;
    insert_visual pages' visual) ;;;
  execute_create_table powerbi_custom_visuals ;;;
  customs_v <~ get ui_data "custom_visuals" (JArr []) ;;
  customs <~ se_lift (py_iter customs_v) ;;
  se_for customs insert_custom_visual.

Definition insert_measure (measure : json) : SE conn unit :=
  table_name <~ get measure "table" (JStr []) ;;
  name <~ get measure "name" (JStr []) ;;
  expression <~ get measure "expression" (JStr []) ;;
  description <~ get measure "description" (JStr []) ;;
  execute_insert powerbi_dax_measures [table_name; name; expression; description].

Definition insert_calculated_column (column : json) : SE conn unit :=
  table_name <~ get column "table" (JStr []) ;;
  name <~ get column "name" (JStr []) ;;
  expression <~ get column "expression" (JStr []) ;;
  data_type <~ get column "data_type" (JStr []) ;;
  execute_insert powerbi_calculated_columns [table_name; name; expression; data_type].

Definition insert_relationship (relationship : json) : SE conn unit :=
  from_table <~ get relationship "from_table" (JStr []) ;;
  from_column <~ get relationship "from_column" (JStr []) ;;
  to_table <~ get relationship "to_table" (JStr []) ;;
  to_column <~ get relationship "to_column" (JStr []) ;;
  cardinality <~ get relationship "cardinality" (JStr []) ;;
  is_active <~ get relationship "is_active" (JBool true) ;;
  execute_insert powerbi_relationships
    [from_table; from_column; to_table; to_column; cardinality; is_active].

(** The body of [for source_name, query_data in power_query.items()] *)
Definition insert_power_query (entry : text * json) : SE conn unit :=
  let (source_name, query_data) := entry in
  m_expression <~ (if is_dict query_data
                   then get query_data "Expression" (JStr (py_str query_data))
                   else se_ret (JStr (py_str query_data))) ;;
  source_type <~ se_lift (extract_source_type m_expression) ;;
  execute_insert powerbi_power_query
    [JStr source_name; m_expression; JStr source_type].

(** [create_metadata_tables] *)
Definition create_metadata_tables (data_model_file : result json) : SE conn unit :=
  data_model <~ se_lift data_model_file ;;
  execute_create_table powerbi_dax_measures ;;;
  measures_v <~ get data_model "measures" (JArr []) ;;
  measures <~ se_lift (py_iter measures_v) ;;
  se_for measures insert_measure ;;;
  execute_create_table powerbi_calculated_columns ;;;
  columns_v <~ get data_model "calculated_columns" (JArr []) ;;
  columns <~ se_lift (py_iter columns_v) ;;
  se_for columns insert_calculated_column ;;;
  execute_create_table powerbi_relationships ;;;
  relationships_v <~ get data_model "relationships" (JArr []) ;;
  relationships <~ se_lift (py_iter relationships_v) ;;
  se_for relationships insert_relationship ;;;
  execute_create_table powerbi_power_query ;;;
  power_query <~ get data_model "power_query" (JObj []) ;;
  match power_query with
  | JObj entries => se_for entries insert_power_query
  | JStr _ =>
      execute_insert powerbi_power_query
        [JStr (lit "power_query_error"); power_query; JStr (lit "Error")]
  | _ => se_ret tt
  end.

(** [create_powerbi_views] *)
Definition create_powerbi_views : SE conn unit :=
  execute_create_view powerbi_page_summary ;;;
  execute_create_view powerbi_visual_types_summary ;;;
  execute_create_view powerbi_data_model_overview.

(** What the run prints: the completion line (followed by the summary), or
    the error line. *)
Inductive report :=
| SetupComplete
| SetupError (e : exn).

(** The [try] block of [setup_powerbi_mcp_database] up to the commit; the
    summary printed after it only reads. *)
Definition setup_try (ui_structure data_model_file : result json) : SE conn unit :=
  create_ui_tables ui_structure ;;;
  create_metadata_tables data_model_file ;;;
  create_powerbi_views ;;;
  commit.

(** [setup_powerbi_mcp_database]: the connection as [conn.close()] leaves
    it, and the line printed. *)
Definition setup_powerbi_mcp_database
  (db : store) (ui_structure data_model_file : result json) : conn * report :=
  match setup_try ui_structure data_model_file (connect db) with
  | (Ok _, c) => (c, SetupComplete)
  | (Raise e, c) => (rollback c, SetupError e)
  end.

End Projector.

(** The number of rows a table of the store holds; a table that does not
    exist holds none. *)
Definition table_rows (s : store) (t : relname) : list row :=
  match tables s t with
  | Some tb => rows tb
  | None => []
  end.

Definition row_count (s : store) (t : relname) : nat := length (table_rows s t).

Definition empty_store : store :=
  {| tables := fun _ => None; views := fun _ => false |}.

(* ================================================================== *)
(** ** A reference runtime, for running the embedding on examples      *)
(* ================================================================== *)

Definition quote_with (q : Z) (s : text) : text :=
  q :: flat_map (fun c => if (c =? q) || (c =? 92) then [92; c] else [c]) s ++ [q].

(** [json.dumps] with its default separators, on documents of printable
    ASCII; a float prints as its literal. *)
Fixpoint ref_json_dumps (v : json) : text :=
  match v with
  | JNull => lit "null"
  | JBool true => lit "true"
  | JBool false => lit "false"
  | JInt z => str_of_Z z
  | JFloat l => l
  | JStr s => quote_with 34 s
  | JArr l =>
      lit "[" ++
      (fix go (xs : list json) : text :=
         match xs with
         | [] => []
         | x :: r =>
             ref_json_dumps x ++ match r with [] => [] | _ :: _ => lit ", " ++ go r end
         end) l ++ lit "]"
  | JObj m =>
      lit "{" ++
      (fix go (xs : list (text * json)) : text :=
         match xs with
         | [] => []
         | kv :: r =>
             quote_with 34 (fst kv) ++ lit ": " ++ ref_json_dumps (snd kv) ++
             match r with [] => [] | _ :: _ => lit ", " ++ go r end
         end) m ++ lit "}"
  end.

(** [repr] of a value built from JSON, on strings without apostrophes. *)
Fixpoint ref_py_repr (v : json) : text :=
  match v with
  | JNull => lit "None"
  | JBool true => lit "True"
  | JBool false => lit "False"
  | JInt z => str_of_Z z
  | JFloat l => l
  | JStr s => quote_with 39 s
  | JArr l =>
      lit "[" ++
      (fix go (xs : list json) : text :=
         match xs with
         | [] => []
         | x :: r =>
             ref_py_repr x ++ match r with [] => [] | _ :: _ => lit ", " ++ go r end
         end) l ++ lit "]"
  | JObj m =>
      lit "{" ++
      (fix go (xs : list (text * json)) : text :=
         match xs with
         | [] => []
         | kv :: r =>
             quote_with 39 (fst kv) ++ lit ": " ++ ref_py_repr (snd kv) ++
             match r with [] => [] | _ :: _ => lit ", " ++ go r end
         end) m ++ lit "}"
  end.

(** The name of the exception, and the quoted key for a KeyError. *)
Definition ref_exn_str (e : exn) : text :=
  match e with
  | KeyError k => quote_with 39 k
  | TypeError => lit "TypeError"
  | AttributeError => lit "AttributeError"
  | ValueError => lit "ValueError"
  | JSONDecodeError => lit "JSONDecodeError"
  | RecursionError => lit "RecursionError"
  | OverflowError => lit "OverflowError"
  | OSError => lit "OSError"
  | DatabaseError => lit "DatabaseError"
  | OperationalError => lit "OperationalError"
  | UnicodeEncodeError => lit "UnicodeEncodeError"
  end.

(** SQLite's conversions on the values of the examples: an INTEGER in a REAL
    column becomes the REAL of the same value. *)
Definition ref_sqlite_numeric (a : affinity) (v : sqlval) : sqlval :=
  match a, v with
  | AffReal, SqlInt z => SqlReal (str_of_Z z ++ lit ".0")
  | _, _ => v
  end.

(** The reference runtime.  Rounding leaves a float literal as it is, which
    is its value when the literal has at most one fractional digit; the text
    of a REAL is its literal; an exception is described by its name. *)
#[export] Instance ref_runtime : PyRuntime := {
  json_loads := ref_json_loads;
  json_dumps := ref_json_dumps;
  py_repr := ref_py_repr;
  round1_float := fun l => l;
  exn_str := ref_exn_str;
  sqlite_real_text := fun l => l;
  sqlite_numeric := ref_sqlite_numeric
}.

(* ================================================================== *)
(** ** Definitions that follow the specification's wording             *)
(* ================================================================== *)

Definition is_upper (c : Z) : bool := (65 <=? c) && (c <=? 90).
Definition is_lower (c : Z) : bool := (97 <=? c) && (c <=? 122).

(** Title case as [str.title] gives it on ASCII letters: the first letter of
    every run of letters in upper case, the others in lower case. *)
Fixpoint spec_title_from (in_word : bool) (s : text) : text :=
  match s with
  | [] => []
  | c :: r =>
      if is_upper c then (if in_word then c + 32 else c) :: spec_title_from true r
      else if is_lower c then (if in_word then c else c - 32) :: spec_title_from true r
      else c :: spec_title_from false r
  end.

Definition spec_title_case (s : text) : text := spec_title_from false s.

(** The markers of [extract_source_type] with their labels, in the order the
    source tests them. *)
Definition source_markers : list (text * text) :=
  [ (lit "Excel.Workbook", lit "Excel");
    (lit "AzureStorage.BlobContents", lit "Azure Blob Storage");
    (lit "Table.FromRows", lit "Embedded Table");
    (lit "Sql.Database", lit "SQL Database");
    (lit "Web.Contents", lit "Web Source") ].

Definition source_labels : list text :=
  map snd source_markers ++ [lit "Other"].

(** The label of the earliest marker, in priority order, that occurs in
    [s]; Other when none does. *)
Fixpoint label_by_priority (markers : list (text * text)) (s : text) : text :=
  match markers with
  | [] => lit "Other"
  | (marker, label) :: rest =>
      if contains marker s then label else label_by_priority rest s
  end.

(** The marker the discovery path carries for the N-th top-level section. *)
Definition section_marker (n : nat) : text :=
  lit "sections[" ++ str_of_Z (Z.of_nat n) ++ lit "]".

(** *** The page list as the resolver reads it

    The parts of a page the resolver looks at, for pages of the expected
    shape: a dict with a name whose raw_data, when present, is a dict whose
    visualContainers, when present, is a list of dicts. *)
Section ResolverShapes.
Context {rt : PyRuntime}.

Definition page_containers (page : json) : list json :=
  match page with
  | JObj m =>
      match assoc (lit "raw_data") m with
      | Some (JObj rd) =>
          match assoc (lit "visualContainers") rd with
          | Some (JArr cs) => cs
          | _ => []
          end
      | _ => []
      end
  | _ => []
  end.

(** [str(container.get('id', ''))] *)
Definition container_id (c : json) : text :=
  match c with
  | JObj m => py_str (match assoc (lit "id") m with Some v => v | None => JStr [] end)
  | _ => []
  end.

(** Some container of the page carries the id. *)
Definition page_holds (vid : text) (page : json) : bool :=
  existsb (fun c => text_eqb (container_id c) vid) (page_containers page).

Definition page_name (page : json) : json :=
  match page with
  | JObj m => match assoc (lit "name") m with Some v => v | None => JNull end
  | _ => JNull
  end.

Definition well_formed_page (page : json) : bool :=
  match page with
  | JObj m =>
      match assoc (lit "name") m with
      | None => false
      | Some _ =>
          match assoc (lit "raw_data") m with
          | None => true
          | Some (JObj rd) =>
              match assoc (lit "visualContainers") rd with
              | None => true
              | Some (JArr cs) => forallb is_dict cs
              | Some _ => false
              end
          | Some _ => false
          end
      end
  | _ => false
  end.

(** The first page, or the marker of an unresolved visual. *)
Definition first_name_or_unknown (pages : list json) : json :=
  match pages with
  | page :: _ => page_name page
  | [] => JStr (lit "Unknown")
  end.

End ResolverShapes.

(** *** The shapes of a visual candidate and of its configuration *)










(* ================================================================== *)
(** ** Invariants of the projector                                  *)
(* ================================================================== *)

(** A computation keeps [I] when every state it can end in, returning or
    raising, satisfies [I] if the state it started in did. *)
Definition preserves {S A} (I : S -> Prop) (m : SE S A) : Prop :=
  forall s, I s -> I (snd (m s)).

(** What a failed run may leave behind, relative to the store [db] it started
    from: every table of [db] as it was, a table that [db] did not have either
    still missing or created empty, and the views of [db]. *)
Definition rows_kept (db s : store) : Prop :=
  (forall t, match tables db t with
             | Some tb => tables s t = Some tb
             | None => tables s t = None \/ tables s t = Some empty_table
             end) /\
  (forall v, views s v = views db v).

(** Until the commit, what is committed differs from [db] by empty tables
    only. *)
Definition committed_kept (db : store) (c : conn) : Prop :=
  rows_kept db (committed c).

(** A computation adds [n] rows to table [t] when every run of it that
    returns leaves [t], in the working store, with [n] rows more. *)
Definition adds_rows {A} (t : relname) (n : nat) (m : SE conn A) : Prop :=
  forall c a c', m c = (Ok a, c') ->
    row_count (working c') t = (row_count (working c) t + n)%nat.

(* ================================================================== *)
(** ** Example inputs                                                  *)
(* ================================================================== *)

Definition field (k : string) (v : json) : text * json := (lit k, v).

Definition str (s : string) : json := JStr (lit s).

Definition one_page : json :=
  JObj [field "name" (str "ReportSection1"); field "ordinal" (JInt 0);
        field "width" (JInt 1280); field "height" (JInt 720);
        field "visual_count" (JInt 1)].

(** The row [one_page] becomes in the pages table. *)
Definition one_page_row : row :=
  [SqlText (lit "ReportSection1"); SqlText (lit "ReportSection1");
   SqlText (lit "ReportSection1"); SqlInt 0; SqlInt 1280; SqlInt 720; SqlInt 1;
   SqlText (lit "{}"); SqlText (lit "[]")].

Definition one_page_ui : json := JObj [field "pages" (JArr [one_page])].

(** A UI structure whose only page has no name. *)
Definition nameless_page_ui : json := JObj [field "pages" (JArr [JObj []])].

Definition sample_ui : json :=
  JObj [field "pages" (JArr [one_page]);
        field "visualizations"
          (JArr [JObj [field "id" (JInt 1); field "type" (str "barChart");
                       field "enhanced_type" (str "Bar Chart");
                       field "path" (str "sections[0].visualContainers[0]")]]);
        field "custom_visuals"
          (JArr [JObj [field "file" (str "CustomVisuals/gantt.json")]])].

Definition sample_model : json :=
  JObj [field "measures"
          (JArr [JObj [field "table" (str "Sales"); field "name" (str "Total Sales");
                       field "expression" (str "SUM(Sales[Amount])")]]);
        field "calculated_columns"
          (JArr [JObj [field "table" (str "Sales"); field "name" (str "Margin");
                       field "expression" (str "Sales[Amount] - Sales[Cost]")]]);
        field "relationships"
          (JArr [JObj [field "from_table" (str "Sales");
                       field "from_column" (str "ProductId");
                       field "to_table" (str "Product");
                       field "to_column" (str "Id")]]);
        field "power_query"
          (JObj [field "Sales"
                   (JObj [field "Expression"
                            (str "Excel.Workbook(File.Contents(path))")])])].

(** Projecting the sample into a new store, and projecting it again into the
    store the first run left. *)
Definition first_run : conn * report :=
  setup_powerbi_mcp_database empty_store (Ok sample_ui) (Ok sample_model).

Definition second_run : conn * report :=
  setup_powerbi_mcp_database (committed (fst first_run)) (Ok sample_ui) (Ok sample_model).

(** A report of five pages, the second of which holds the container with
    id 7, and three visuals found under its fifth and third sections. *)
Definition five_pages : list json :=
  [ JObj [(lit "name", JStr (lit "Page0"))];
    JObj [(lit "name", JStr (lit "Page1"));
          (lit "raw_data",
           JObj [(lit "visualContainers", JArr [JObj [(lit "id", JInt 7)]])])];
    JObj [(lit "name", JStr (lit "Page2"))];
    JObj [(lit "name", JStr (lit "Page3"))];
    JObj [(lit "name", JStr (lit "Page4"))] ].

Definition visual_in_section (id : Z) (path : string) : list (text * json) :=
  [(lit "id", JInt id); (lit "path", JStr (lit path))].



(* ================================================================== *)
(** ** The statements a run sends to the store                         *)
(* ================================================================== *)

(** What a cursor call does to the connection, once its parameters are
    evaluated, bound and converted to what the columns store: the statement
    as SQLite sees it. *)
Inductive dbop :=
| OpCreateTable (t : relname)
| OpCreateView (v : viewname)
| OpBegin
| OpInsert (t : relname) (vals : row)
| OpCommit.

Definition table_or_empty (s : store) (t : relname) : table :=
  match tables s t with
  | Some tb => tb
  | None => empty_table
  end.

Definition apply_op (o : dbop) (c : conn) : conn :=
  match o with
  | OpCreateTable t => snd (execute_create_table t c)
  | OpCreateView v => snd (execute_create_view v c)
  | OpBegin => {| committed := committed c; working := working c; in_txn := true |}
  | OpInsert t vals =>
      {| committed := committed c;
         working := set_table t (insert_or_replace t vals (table_or_empty (working c) t))
                              (working c);
         in_txn := true |}
  | OpCommit => snd (commit c)
  end.

Definition run_ops (ops : list dbop) (c : conn) : conn :=
  fold_left (fun c o => apply_op o c) ops c.

(** The rows a list of statements inserts into table [t], in order. *)
Fixpoint inserted (t : relname) (ops : list dbop) : list row :=
  match ops with
  | [] => []
  | OpInsert t' vals :: ops' =>
      if relname_eqb t' t then vals :: inserted t ops' else inserted t ops'
  | _ :: ops' => inserted t ops'
  end.

(** The tables of [ts] exist in the working store. *)
Definition has_tables (ts : list relname) (c : conn) : Prop :=
  forall t, In t ts -> tables (working c) t <> None.

(** The store refuses a statement: an INSERT into an AUTOINCREMENT table
    that has used its last rowid. *)
Definition op_refused (o : dbop) (c : conn) : bool :=
  match o with
  | OpInsert t _ => autoincrement_full t (table_or_empty (working c) t)
  | _ => false
  end.

Definition begin_txn (c : conn) : conn :=
  {| committed := committed c; working := working c; in_txn := true |}.

(** Running statements up to the first one the store refuses: the state
    reached, and whether a statement was refused. *)
Fixpoint run_ops_until_full (ops : list dbop) (c : conn) : conn * bool :=
  match ops with
  | [] => (c, false)
  | o :: ops' =>
      if op_refused o c then (begin_txn c, true)
      else run_ops_until_full ops' (apply_op o c)
  end.

(** A computation is oblivious of the store when, on every connection in
    which the tables [ts] exist, it sends the same statements and, unless
    the store refuses one of them, returns the same result; when it returns,
    the tables [ts'] exist. *)
Definition oblivious {A} (ts : list relname) (m : SE conn A) (ts' : list relname) : Prop :=
  exists (r : result A) (ops : list dbop),
    (forall c, has_tables ts c ->
       m c = (if snd (run_ops_until_full ops c) then Raise OperationalError else r,
              fst (run_ops_until_full ops c))) /\
    (forall c a, has_tables ts c -> r = Ok a -> has_tables ts' (run_ops ops c)).

(** The largest rowid an AUTOINCREMENT table has used. *)
Definition used_rowid (tb : table) : Z := Z.max (last_rowid tb) (max_rowid (rows tb)).

(** The rows [vs] go into the AUTOINCREMENT table one after the other
    without a refusal. *)
Fixpoint inserts_fit (t : relname) (vs : list row) (tb : table) : bool :=
  match vs with
  | [] => true
  | v :: vs' => negb (autoincrement_full t tb) && inserts_fit t vs' (insert_or_replace t v tb)
  end.




Definition ui_tables : list relname :=
  [powerbi_pages; powerbi_visualizations; powerbi_custom_visuals].

Definition metadata_tables : list relname :=
  [powerbi_dax_measures; powerbi_calculated_columns; powerbi_relationships;
   powerbi_power_query].

Definition all_tables : list relname := ui_tables ++ metadata_tables.

Definition all_views : list viewname :=
  [powerbi_page_summary; powerbi_visual_types_summary; powerbi_data_model_overview].

(** The id of a row of an AUTOINCREMENT table. *)
Definition row_id (r : row) : Z :=
  match r with
  | SqlInt i :: _ => i
  | _ => 0
  end.

(** Every new row has an id above the ids of all rows before it. *)
Fixpoint ids_fresh (before news : list row) {struct news} : Prop :=
  match news with
  | [] => True
  | r :: rest =>
      (forall old, In old before -> row_id old < row_id r) /\
      ids_fresh (before ++ [r]) rest
  end.


(* ================================================================== *)
(** ** extract_pbix_ui.py: text members                                *)
(* ================================================================== *)

(** [PBIXUIExtractor._extract_text_file]: the same cascade as the layout
    reader; [None] when opening or reading the member raises. *)
Definition _extract_text_file (member : result bytes) : option text :=
  match member with
  | Raise _ => None
  | Ok content => Some (decode_cascade content)
  end.

(** UTF-8 encoding of a scalar value, and of a text. *)
Definition utf8_encode_char (c : Z) : bytes :=
  if c <? 0x80 then [c]
  else if c <? 0x800 then
    [0xC0 + Z.shiftr c 6; 0x80 + Z.land c 0x3F]
  else if c <? 0x10000 then
    [0xE0 + Z.shiftr c 12; 0x80 + Z.land (Z.shiftr c 6) 0x3F; 0x80 + Z.land c 0x3F]
  else
    [0xF0 + Z.shiftr c 18; 0x80 + Z.land (Z.shiftr c 12) 0x3F;
     0x80 + Z.land (Z.shiftr c 6) 0x3F; 0x80 + Z.land c 0x3F].

Definition utf8_encode (t : text) : bytes := flat_map utf8_encode_char t.

(** A byte of the ASCII range. *)
Definition is_ascii (b : Z) : bool := (0 <=? b) && (b <? 0x80).

(** The text UTF-16LE makes of an even number of bytes none of whose pairs
    is a surrogate: one character per pair. *)
Fixpoint pair_up (bs : bytes) : text :=
  match bs with
  | lo :: hi :: rest => unit16 lo hi :: pair_up rest
  | _ => []
  end.

(* ================================================================== *)
(** ** parse_pbix_ui.py: pages                                         *)
(* ================================================================== *)

(** [s.replace(old, new)] for a non-empty [old]: occurrences are taken from
    the left and do not overlap; [skip] counts the characters of a replaced
    occurrence still to pass. *)
Fixpoint replace_from (old new : text) (skip : nat) (s : text) : text :=
  match s with
  | [] => []
  | c :: r =>
      match skip with
      | S k => replace_from old new k r
      | O =>
          if starts_with old s
          then new ++ replace_from old new (length old - 1) r
          else c :: replace_from old new 0 r
      end
  end.

Definition py_replace (old new s : text) : text := replace_from old new 0 s.

(** [len(v)] *)
Definition py_len (v : json) : result Z :=
  match v with
  | JArr l => Ok (Z.of_nat (length l))
  | JObj m => Ok (Z.of_nat (length m))
  | JStr s => Ok (Z.of_nat (length s))
  | _ => Raise TypeError
  end.

(** A list comprehension or an appending loop whose body may raise. *)
Fixpoint map_result {A B} (f : A -> result B) (xs : list A) : result (list B) :=
  match xs with
  | [] => Ok []
  | x :: xs' => y <- f x ;; ys <- map_result f xs' ;; Ok (y :: ys)
  end.

(** [PBIXVisualParser._clean_page_name]: only a string has [startswith]. *)
Definition _clean_page_name (name : json) : result json :=
  match name with
  | JStr s =>
      if starts_with (lit "ReportSection") s then
        if (50 <? length s)%nat
        then Ok (JStr (lit "Page " ++ skipn (length s - 4) s))
        else Ok (JStr (py_replace (lit "ReportSection") (lit "Page ") s))
      else Ok name
  | _ => Raise AttributeError
  end.

Section ParsePages.
Context {rt : PyRuntime}.

(** [PBIXVisualParser._enhance_page_data] *)
Definition _enhance_page_data (page : json) : result json :=
  name <- dict_get page (lit "name") (JStr (lit "Unknown")) ;;
  name' <- dict_get page (lit "name") (JStr (lit "Unknown")) ;;
  display_name <- _clean_page_name name' ;;
  id <- dict_get page (lit "id") JNull ;;
  width <- dict_get page (lit "width") (JInt 0) ;;
  height <- dict_get page (lit "height") (JInt 0) ;;
  counted <- dict_get page (lit "visualizations") (JArr []) ;;
  visual_count <- py_len counted ;;
  visuals_v <- dict_get page (lit "visualizations") (JArr []) ;;
  visuals <- py_iter visuals_v ;;
  visualizations <- map_result (fun visual =>
                      page_name <- dict_get page (lit "name") (JStr (lit "Unknown")) ;;
                      _enhance_visual_data visual page_name) visuals ;;
  Ok (JObj [ (lit "name", name);
             (lit "display_name", display_name);
             (lit "id", id);
             (lit "size", JStr (py_str width ++ lit "x" ++ py_str height));
             (lit "visual_count", JInt visual_count);
             (lit "visualizations", JArr visualizations) ]).

End ParsePages.

(** A property value holding a literal: the expr/Literal/Value nesting the
    text and action extractors read. *)
Definition literal_expr (v : json) : json :=
  JObj [(lit "expr", JObj [(lit "Literal", JObj [(lit "Value", v)])])].

(** A visualLink entry with a link type and a bookmark target. *)
Definition bookmark_link (link_type bookmark : text) : json :=
  JObj [(lit "properties",
         JObj [(lit "type", literal_expr (JStr link_type));
               (lit "bookmark", literal_expr (JStr bookmark))])].

(* ================================================================== *)
(** ** extract_pbix_ui.py: the structural miner                        *)
(* ================================================================== *)

(** [f"{path}.{key}" if path else key] and [f"{path}[{i}]"] *)
Definition sub_path (path key : text) : text :=
  match path with
  | [] => key
  | _ :: _ => path ++ lit "." ++ key
  end.

Definition index_path (path : text) (i : nat) : text :=
  path ++ lit "[" ++ str_of_Z (Z.of_nat i) ++ lit "]".

(** [PBIXUIExtractor._parse_single_visual] *)
Definition _parse_single_visual (visual_data : json) (path : text) : result json :=
  name <- dict_get visual_data (lit "name") JNull ;;
  id <- dict_get visual_data (lit "id") name ;;
  type0 <- dict_get visual_data (lit "type") (JStr (lit "unknown")) ;;
  type <- dict_get visual_data (lit "visualType") type0 ;;
  display_name <- dict_get visual_data (lit "displayName") (JStr []) ;;
  title <- dict_get visual_data (lit "title") display_name ;;
  x <- dict_get visual_data (lit "x") (JInt 0) ;;
  y <- dict_get visual_data (lit "y") (JInt 0) ;;
  width <- dict_get visual_data (lit "width") (JInt 0) ;;
  height <- dict_get visual_data (lit "height") (JInt 0) ;;
  z_order0 <- dict_get visual_data (lit "zOrder") (JInt 0) ;;
  z_order <- dict_get visual_data (lit "z") z_order0 ;;
  has_roles <- py_in (lit "dataRoles") visual_data ;;
  data_roles <- (if has_roles then getitem visual_data (lit "dataRoles")
                 else
                   nested <- in_nested visual_data (lit "query") (lit "dataRoles") ;;
                   if nested then
                     query <- getitem visual_data (lit "query") ;;
                     getitem query (lit "dataRoles")
                   else Ok (JArr [])) ;;
  has_props <- py_in (lit "properties") visual_data ;;
  properties <- (if has_props then getitem visual_data (lit "properties")
                 else
                   has_config <- py_in (lit "config") visual_data ;;
                   if has_config then getitem visual_data (lit "config")
                   else Ok (JObj [])) ;;
  has_filters <- py_in (lit "filters") visual_data ;;
  filters <- (if has_filters then getitem visual_data (lit "filters")
              else Ok (JArr [])) ;;
  Ok (JObj [ (lit "id", id);
             (lit "type", type);
             (lit "title", title);
             (lit "x", x);
             (lit "y", y);
             (lit "width", width);
             (lit "height", height);
             (lit "z_order", z_order);
             (lit "path", JStr path);
             (lit "data_roles", data_roles);
             (lit "properties", properties);
             (lit "filters", filters);
             (lit "raw_data", visual_data) ]).

(** The visuals of one of the keys visuals, visualContainers, visualizations
    of a page: parsed when the entry is a list, none otherwise. *)
Definition page_visuals (page_data : json) (vkey : string) : result (list json) :=
  has <- py_in (lit vkey) page_data ;;
  if has then
    visuals <- getitem page_data (lit vkey) ;;
    match visuals with
    | JArr vs => map_result (fun visual => _parse_single_visual visual []) vs
    | _ => Ok []
    end
  else Ok [].

(** [PBIXUIExtractor._parse_single_page] *)
Definition _parse_single_page (page_data : json) : result json :=
  display_name <- dict_get page_data (lit "displayName") (JStr (lit "Unknown Page")) ;;
  name <- dict_get page_data (lit "name") display_name ;;
  ordinal0 <- dict_get page_data (lit "ordinal") JNull ;;
  id <- dict_get page_data (lit "id") ordinal0 ;;
  ordinal <- dict_get page_data (lit "ordinal") (JInt 0) ;;
  visibility <- dict_get page_data (lit "visibility") (JStr (lit "visible")) ;;
  width <- dict_get page_data (lit "width") (JInt 0) ;;
  height <- dict_get page_data (lit "height") (JInt 0) ;;
  background <- dict_get page_data (lit "background") (JObj []) ;;
  v1 <- page_visuals page_data "visuals" ;;
  v2 <- page_visuals page_data "visualContainers" ;;
  v3 <- page_visuals page_data "visualizations" ;;
  Ok (JObj [ (lit "name", name);
             (lit "id", id);
             (lit "ordinal", ordinal);
             (lit "visibility", visibility);
             (lit "width", width);
             (lit "height", height);
             (lit "visualizations", JArr (v1 ++ v2 ++ v3));
             (lit "filters", JArr []);
             (lit "background", background);
             (lit "raw_data", page_data) ]).

Definition possible_page_keys : list text :=
  [lit "pages"; lit "reportPages"; lit "sections"; lit "Pages"; lit "ReportPages"].

(** [pages.append(self._parse_single_page(page))] *)
Definition append_page (page : json) : SE (list json) unit :=
  parsed <~ se_lift (_parse_single_page page) ;;
  pages <~ se_get ;;
  se_put (pages ++ [parsed]).

(** The first loop of [_parse_report_pages], over the known page keys of a
    dict; the state is the list [pages]. *)
Definition pages_by_key (layout : list (text * json)) : SE (list json) unit :=
  se_for possible_page_keys (fun key =>
    match assoc key layout with
    | Some (JArr page_data) => se_for page_data append_page
    | Some (JObj page_data) => append_page (JObj page_data)
    | _ => se_ret tt
    end).

Definition has_page_key (value : list (text * json)) : bool :=
  existsb (fun pk => match assoc pk value with Some _ => true | None => false end)
          possible_page_keys.

(** The second loop: the pages of every dict value that has a page key. *)
Definition nested_pages (f : json -> list json) : list (text * json) -> list json :=
  fix loop (items : list (text * json)) : list json :=
    match items with
    | [] => []
    | kv :: rest =>
        match kv with
        | (_, value) =>
            match value with
            | JObj members =>
                if has_page_key members then f value ++ loop rest else loop rest
            | _ => loop rest
            end
        end
    end.

(** [PBIXUIExtractor._parse_report_pages]: an exception in the first loop
    ends the search with the pages found so far. *)
Fixpoint _parse_report_pages (layout_data : json) : list json :=
  match layout_data with
  | JObj layout =>
      match pages_by_key layout [] with
      | (Ok _, pages) => pages ++ nested_pages _parse_report_pages layout
      | (Raise _, pages) => pages
      end
  | _ => []
  end.

Definition visual_indicators : list text :=
  [lit "visualType"; lit "type"; lit "config"].

Definition has_indicator (m : list (text * json)) : bool :=
  existsb (fun key => match assoc key m with Some _ => true | None => false end)
          visual_indicators.

(** [for key, value in data.items(): find(value, sub_path)] and
    [for i, item in enumerate(data): find(item, index_path)] *)
Definition for_members {St} (f : json -> text -> SE St unit) (path : text)
  : list (text * json) -> SE St unit :=
  fix loop (items : list (text * json)) : SE St unit :=
    match items with
    | [] => se_ret tt
    | kv :: rest =>
        match kv with
        | (key, value) => f value (sub_path path key) ;;; loop rest
        end
    end.

Definition for_items {St} (f : json -> text -> SE St unit) (path : text)
  : list json -> nat -> SE St unit :=
  fix loop (items : list json) (i : nat) : SE St unit :=
    match items with
    | [] => se_ret tt
    | item :: rest => f item (index_path path i) ;;; loop rest (S i)
    end.

(** The inner function [find_visuals] of [_parse_visualizations]; the state
    is the list [visuals].  The document is taken to nest less deeply than
    the interpreter's recursion limit, as every document json.loads
    returned does here. *)
Fixpoint find_visuals (data : json) (path : text) : SE (list json) unit :=
  match data with
  | JObj m =>
      (if has_indicator m then
         visual <~ se_lift (_parse_single_visual data path) ;;
         visuals <~ se_get ;;
         se_put (visuals ++ [visual])
       else se_ret tt) ;;;
      for_members find_visuals path m
  | JArr items => for_items find_visuals path items 0%nat
  | _ => se_ret tt
  end.

(** [PBIXUIExtractor._parse_visualizations]: an exception ends the search
    with the visuals found so far. *)
Definition _parse_visualizations (layout_data : json) : list json :=
  snd (find_visuals layout_data [] []).

Definition filter_record (path : text) (filter_data : json) : json :=
  JObj [(lit "path", JStr path); (lit "filter", filter_data)].

Definition own_filters (m : list (text * json)) (path : text) : list json :=
  match assoc (lit "filters") m with
  | Some (JArr fs) => map (filter_record path) fs
  | _ => []
  end.

(** The member the filter search passes over. *)
Definition filters_member (key : text) (value : json) : bool :=
  text_eqb key (lit "filters") && is_list value.

Definition members_filters (f : json -> text -> list json) (path : text)
  : list (text * json) -> list json :=
  fix loop (items : list (text * json)) : list json :=
    match items with
    | [] => []
    | kv :: rest =>
        match kv with
        | (key, value) =>
            if filters_member key value then loop rest
            else f value (sub_path path key) ++ loop rest
        end
    end.

Definition items_filters (f : json -> text -> list json) (path : text)
  : list json -> nat -> list json :=
  fix loop (items : list json) (i : nat) : list json :=
    match items with
    | [] => []
    | item :: rest => f item (index_path path i) ++ loop rest (S i)
    end.

(** The inner function [find_filters] of [_parse_filters]: the records in
    the order they are appended.  Within the recursion limit nothing in
    it raises. *)
Fixpoint find_filters (data : json) (path : text) : list json :=
  match data with
  | JObj m => own_filters m path ++ members_filters find_filters path m
  | JArr items => items_filters find_filters path items 0%nat
  | _ => []
  end.

(** [PBIXUIExtractor._parse_filters] *)
Definition _parse_filters (layout_data : json) : list json :=
  find_filters layout_data [].

Definition no_member (key : text) (value : json) : bool := false.

(** A route into a document: at a dict the position of a member, at a list
    an index.  [locate] follows it, refusing the members [skip] names, and
    spells the path as the miner does. *)
Fixpoint locate (skip : text -> json -> bool) (doc : json) (path : text)
  (route : list nat) : option (text * json) :=
  match route with
  | [] => Some (path, doc)
  | n :: route' =>
      match doc with
      | JObj m =>
          match nth_error m n with
          | Some (key, value) =>
              if skip key value then None
              else locate skip value (sub_path path key) route'
          | None => None
          end
      | JArr items =>
          match nth_error items n with
          | Some item => locate skip item (index_path path n) route'
          | None => None
          end
      | _ => None
      end
  end.

(** The entries of a record the miner built. *)
Definition record_field (k : string) (record : json) : option json :=
  match record with
  | JObj fields => assoc (lit k) fields
  | _ => None
  end.

(** A candidate [_parse_single_visual] accepts: a dict whose query, when it
    is consulted for data roles, is a dict, or a string or list in which
    the word dataRoles is not found. *)
Definition visual_ok (v : json) : bool :=
  match v with
  | JObj m =>
      match assoc (lit "dataRoles") m with
      | Some _ => true
      | None =>
          match assoc (lit "query") m with
          | None => true
          | Some (JObj _) => true
          | Some (JStr s) => negb (contains (lit "dataRoles") s)
          | Some (JArr l) => negb (existsb (is_str_eq (lit "dataRoles")) l)
          | Some _ => false
          end
      end
  | _ => false
  end.

(** The candidate pages of a layout dict, in the order the first loop of
    the page search meets them. *)
Definition keyed_pages (layout : list (text * json)) : list json :=
  flat_map (fun key =>
              match assoc key layout with
              | Some (JArr page_data) => page_data
              | Some (JObj page_data) => [JObj page_data]
              | _ => []
              end) possible_page_keys.

Definition visual_list_ok (page : list (text * json)) (vkey : string) : bool :=
  match assoc (lit vkey) page with
  | Some (JArr vs) => forallb visual_ok vs
  | _ => true
  end.

(** A page [_parse_single_page] accepts: a dict whose visual lists hold
    acceptable candidates. *)
Definition page_ok (p : json) : bool :=
  match p with
  | JObj page =>
      visual_list_ok page "visuals" && visual_list_ok page "visualContainers" &&
      visual_list_ok page "visualizations"
  | _ => false
  end.

(** The body of the visualLink loop of [actions_try], and the actions a
    link with a literal type and bookmark leaves. *)
Definition link_body (link_config : json) : SE (list (text * json)) unit :=
  has_props <~ se_lift (py_in (lit "properties") link_config) ;;
  if has_props then
    props <~ se_lift (getitem link_config (lit "properties")) ;;
    b1 <~ se_lift (in_nested props (lit "type") (lit "expr")) ;;
    link_type <~ (if b1 then
                    t <~ se_lift (getitem props (lit "type")) ;;
                    se_lift (literal_value t)
                  else se_ret JNull) ;;
    b2 <~ se_lift (in_nested props (lit "bookmark") (lit "expr")) ;;
    bookmark <~ (if b2 then
                   t <~ se_lift (getitem props (lit "bookmark")) ;;
                   se_lift (literal_value t)
                 else se_ret JNull) ;;
    actions <~ se_get ;;
    se_put (dict_set (lit "bookmark") bookmark
             (dict_set (lit "link_type") link_type actions))
  else se_ret tt.

Definition link_actions (link_type bookmark : text) : list (text * json) :=
  [(lit "link_type", JStr (strip_char 39 link_type));
   (lit "bookmark", JStr (strip_char 39 bookmark))].

(** A node the visual search takes for a visual: a dict with one of the
    indicator keys, reached from [data] by some route and spelled [p]. *)
Definition candidate_at (data : json) (path p : text) (m : list (text * json)) : Prop :=
  exists route,
    locate no_member data path route = Some (p, JObj m) /\ has_indicator m = true.

(** A record that names the path [p] and keeps [node] as its raw data. *)
Definition records (v : json) (p : text) (node : json) : Prop :=
  record_field "path" v = Some (JStr p) /\ record_field "raw_data" v = Some node.

(** A dict the filter search reads filters from: reached without entering
    a filters list, and holding a list under the key filters. *)
Definition filter_owner_at (data : json) (path p : text) (fs : list json) : Prop :=
  exists route m,
    locate filters_member data path route = Some (p, JObj m) /\
    assoc (lit "filters") m = Some (JArr fs).

(** What one call of [find_visuals] on [data] does to the list of visuals:
    it appends records of candidates below [data], all of them when it
    returns, and it returns when every candidate is acceptable. *)
Definition visuals_spec (data : json) : Prop :=
  forall path st r st',
    find_visuals data path st = (r, st') ->
    exists new,
      st' = st ++ new /\
      (forall v, In v new ->
         exists p m, candidate_at data path p m /\ records v p (JObj m)) /\
      (r = Ok tt ->
         forall p m, candidate_at data path p m ->
           exists v, In v new /\ records v p (JObj m)) /\
      ((forall p m, candidate_at data path p m -> visual_ok (JObj m) = true) ->
         r = Ok tt).

(** What [find_filters] returns for [data]: one record for every filter of
    every owner below [data]. *)
Definition filters_spec (data : json) : Prop :=
  forall path r,
    In r (find_filters data path) <->
    exists p fs f,
      filter_owner_at data path p fs /\ In f fs /\ r = filter_record p f.

(** A layout with one page that holds one visual container. *)
Definition small_layout : json :=
  JObj [field "sections"
          (JArr [JObj [field "visualContainers"
                         (JArr [JObj [field "config" (str "{}")]])]])].

(** The entries of a page under one of its visual keys, when it is a list. *)
Definition listed_visuals (page : list (text * json)) (vkey : string) : list json :=
  match assoc (lit vkey) page with
  | Some (JArr vs) => vs
  | _ => []
  end.

(** The properties of the configurations of one formatting object. *)
Definition config_properties (obj_config : json) : list json :=
  match obj_config with
  | JObj cm =>
      match assoc (lit "properties") cm with
      | Some p => [p]
      | None => []
      end
  | _ => []
  end.

Definition object_properties (object_configs : json) : json :=
  match object_configs with
  | JArr configs => JArr (flat_map config_properties configs)
  | _ => JArr []
  end.

(** Formatting objects whose list-valued entries hold dicts only. *)
Definition object_ok (object_configs : json) : bool :=
  match object_configs with
  | JArr configs => forallb is_dict configs
  | _ => true
  end.

(** The bodies of the two loops of [visual_properties_try]. *)
Definition config_body (object_name : text) (obj_config : json)
  : SE (list (text * json)) unit :=
  has_props <~ se_lift (py_in (lit "properties") obj_config) ;;
  if has_props then
    p <~ se_lift (getitem obj_config (lit "properties")) ;;
    properties <~ se_get ;;
    cur <~ se_lift (getitem (JObj properties) object_name) ;;
    cur' <~ se_lift (list_append cur p) ;;
    se_put (dict_set object_name cur' properties)
  else se_ret tt.

Definition object_body (item : text * json) : SE (list (text * json)) unit :=
  properties <~ se_get ;;
  se_put (dict_set (fst item) (JArr []) properties) ;;;
  match snd item with
  | JArr object_configs => se_for object_configs (config_body (fst item))
  | _ => se_ret tt
  end.

(* ================================================================== *)
(** * Properties                                                       *)
(* ================================================================== *)

(** ** Text *)

Lemma text_eqb_refl (a : text) : text_eqb a a = true.
Proof.
  induction a as [|x a IH]; simpl; [reflexivity|].
  now rewrite Z.eqb_refl, IH.
Qed.

Lemma text_eqb_eq (a b : text) : text_eqb a b = true <-> a = b.
Proof.
  split.
  - revert b; induction a as [|x a IH]; intros [|y b] H; simpl in H;
      try discriminate; [reflexivity|].
    apply andb_true_iff in H as [Hxy Hab].
    apply Z.eqb_eq in Hxy. apply IH in Hab. now subst.
  - intros ->. apply text_eqb_refl.
Qed.

Lemma text_eqb_neq (a b : text) : text_eqb a b = false <-> a <> b.
Proof.
  split.
  - intros H Heq. apply text_eqb_eq in Heq. congruence.
  - intros H. destruct (text_eqb a b) eqn:E; [|reflexivity].
    apply text_eqb_eq in E. contradiction.
Qed.

(** ** extract_source_type *)

Lemma extract_source_type_priority (s : text) :
  extract_source_type (JStr s) = Ok (label_by_priority source_markers s).
Proof.
  unfold extract_source_type, source_markers, label_by_priority, py_in, bind.
  repeat match goal with
         | |- context [contains ?m s] => destruct (contains m s); try reflexivity
         end.
Qed.

Lemma label_by_priority_in (s : text) :
  In (label_by_priority source_markers s) source_labels.
Proof.
  unfold source_markers, label_by_priority, source_labels.
  repeat match goal with
         | |- context [contains ?m s] => destruct (contains m s)
         end; simpl; tauto.
Qed.

(** C10.  The source-type classifier is total on strings and applies a fixed
    priority: for every M expression it returns one of the six labels (which
    are pairwise distinct), namely the label of the earliest marker, in the
    order Excel.Workbook, AzureStorage.BlobContents, Table.FromRows,
    Sql.Database, Web.Contents, that occurs in the expression, and Other when
    none occurs; an expression with both Excel.Workbook and Sql.Database is
    labelled Excel. *)
Theorem extract_source_type_total_priority :
  forall s : text,
    extract_source_type (JStr s) = Ok (label_by_priority source_markers s) /\
    In (label_by_priority source_markers s) source_labels /\
    NoDup source_labels /\
    length source_labels = 6%nat /\
    (contains (lit "Excel.Workbook") s = true ->
       extract_source_type (JStr s) = Ok (lit "Excel")) /\
    (contains (lit "Excel.Workbook") s = false ->
     contains (lit "AzureStorage.BlobContents") s = true ->
       extract_source_type (JStr s) = Ok (lit "Azure Blob Storage")) /\
    (contains (lit "Excel.Workbook") s = false ->
     contains (lit "AzureStorage.BlobContents") s = false ->
     contains (lit "Table.FromRows") s = true ->
       extract_source_type (JStr s) = Ok (lit "Embedded Table")) /\
    (contains (lit "Excel.Workbook") s = false ->
     contains (lit "AzureStorage.BlobContents") s = false ->
     contains (lit "Table.FromRows") s = false ->
     contains (lit "Sql.Database") s = true ->
       extract_source_type (JStr s) = Ok (lit "SQL Database")) /\
    (contains (lit "Excel.Workbook") s = false ->
     contains (lit "AzureStorage.BlobContents") s = false ->
     contains (lit "Table.FromRows") s = false ->
     contains (lit "Sql.Database") s = false ->
     contains (lit "Web.Contents") s = true ->
       extract_source_type (JStr s) = Ok (lit "Web Source")) /\
    (contains (lit "Excel.Workbook") s = false ->
     contains (lit "AzureStorage.BlobContents") s = false ->
     contains (lit "Table.FromRows") s = false ->
     contains (lit "Sql.Database") s = false ->
     contains (lit "Web.Contents") s = false ->
       extract_source_type (JStr s) = Ok (lit "Other")).
Proof.
  intros s.
  split; [apply extract_source_type_priority|].
  split; [apply label_by_priority_in|].
  split.
  { unfold source_labels, source_markers. cbn [map snd app].
    repeat constructor; cbn [In]; intros H;
      repeat (destruct H as [H|H]; [vm_compute in H; discriminate|]);
      exact H. }
  split; [reflexivity|].
  rewrite extract_source_type_priority.
  unfold source_markers, label_by_priority.
  repeat split; intros; 
    repeat match goal with
           | H : contains _ s = _ |- _ => rewrite H; clear H
           end; reflexivity.
Qed.

(** An expression that mentions a workbook and a database is an Excel
    source. *)
Example extract_source_type_excel_first :
  extract_source_type (JStr (lit "Excel.Workbook(Sql.Database(server, db))"))
  = Ok (lit "Excel").
Proof. vm_compute. reflexivity. Qed.

(** ** extract_visual_type *)

Lemma in_nested_obj (m sv : list (text * json)) (k1 k2 : text) :
  assoc k1 m = Some (JObj sv) ->
  in_nested (JObj m) k1 k2 = Ok (match assoc k2 sv with Some _ => true | None => false end).
Proof.
  intros H. unfold in_nested, py_in, getitem, bind. now rewrite H.
Qed.

Lemma in_nested_absent (m : list (text * json)) (k1 k2 : text) :
  assoc k1 m = None -> in_nested (JObj m) k1 k2 = Ok false.
Proof.
  intros H. unfold in_nested, py_in, bind. now rewrite H.
Qed.

(** C4, as the source has it.  For every configuration whose singleVisual
    object carries a string visualType code, the classifier answers with the
    code's entry in VISUAL_TYPE_MAP when it has one (barChart gives
    Bar Chart), and with the code itself, unchanged, when it has none. *)
Theorem extract_visual_type_lookup_or_verbatim :
  forall (m sv : list (text * json)) (code : text),
    assoc (lit "singleVisual") m = Some (JObj sv) ->
    assoc (lit "visualType") sv = Some (JStr code) ->
    extract_visual_type (JObj m)
    = Ok (match assoc code VISUAL_TYPE_MAP with
          | Some name => name
          | None => JStr code
          end) /\
    (code = lit "barChart" ->
       extract_visual_type (JObj m) = Ok (JStr (lit "Bar Chart"))) /\
    (assoc code VISUAL_TYPE_MAP = None ->
       extract_visual_type (JObj m) = Ok (JStr code)).
Proof.
  intros m sv code Hsv Hvt.
  assert (E : extract_visual_type (JObj m)
              = Ok (match assoc code VISUAL_TYPE_MAP with
                    | Some name => name
                    | None => JStr code
                    end)).
  { unfold extract_visual_type.
    rewrite (in_nested_obj m sv _ (lit "visualType") Hsv), Hvt.
    unfold bind, getitem. rewrite Hsv, Hvt. reflexivity. }
  split; [exact E|]. split.
  - intros ->. rewrite E. vm_compute. reflexivity.
  - intros Hnone. rewrite E, Hnone. reflexivity.
Qed.

Lemma extract_visual_type_lookup_or_verbatim_witness :
  extract_visual_type
    (JObj [(lit "singleVisual", JObj [(lit "visualType", JStr (lit "barChart"))])])
  = Ok (JStr (lit "Bar Chart")).
Proof.
  apply (extract_visual_type_lookup_or_verbatim
           [(lit "singleVisual", JObj [(lit "visualType", JStr (lit "barChart"))])]
           [(lit "visualType", JStr (lit "barChart"))]
           (lit "barChart")); reflexivity.
Defined.

(** C4 as the specification words it fails: a code that is not in the table
    comes back as it is, not in title case. *)
Lemma extract_visual_type_not_title_cased :
  assoc (lit "sankeyChart") VISUAL_TYPE_MAP = None /\
  extract_visual_type
    (JObj [(lit "singleVisual", JObj [(lit "visualType", JStr (lit "sankeyChart"))])])
  = Ok (JStr (lit "sankeyChart")) /\
  spec_title_case (lit "sankeyChart") = lit "Sankeychart" /\
  extract_visual_type
    (JObj [(lit "singleVisual", JObj [(lit "visualType", JStr (lit "sankeyChart"))])])
  <> Ok (JStr (spec_title_case (lit "sankeyChart"))).
Proof.
  repeat split; try (vm_compute; reflexivity).
  vm_compute. discriminate.
Qed.

(** ** The decoding cascade *)

Lemma split_low_bits (u : Z) (n : Z) :
  0 <= n ->
  Z.lor (Z.land u (Z.ones n)) (Z.shiftl (Z.shiftr u n) n) = u.
Proof.
  intros Hn.
  rewrite <- (Z.ldiff_ones_r u n Hn), Z.lor_comm.
  apply Z.lor_ldiff_and.
Qed.

Lemma unit16_split (u : Z) : unit16 (Z.land u 0xFF) (Z.shiftr u 8) = u.
Proof.
  unfold unit16. change 0xFF with (Z.ones 8). apply split_low_bits. lia.
Qed.

Lemma land_low10_offset (base q : Z) :
  0 <= q < 1024 -> base mod 1024 = 0 -> Z.land (base + q) 0x3FF = q.
Proof.
  intros Hq Hb.
  change 0x3FF with (Z.ones 10).
  rewrite Z.land_ones by lia.
  change (2 ^ 10) with 1024.
  rewrite Z.add_mod by lia.
  rewrite Hb, Z.add_0_l, Z.mod_mod by lia.
  apply Z.mod_small. lia.
Qed.

Lemma join_surrogates_split (c : Z) :
  0x10000 <= c < 0x110000 ->
  join_surrogates (0xD800 + Z.shiftr (c - 0x10000) 10)
                  (0xDC00 + Z.land (c - 0x10000) 0x3FF) = c.
Proof.
  intros Hc. unfold join_surrogates.
  set (v := c - 0x10000).
  assert (Hv : 0 <= v < 2 ^ 20) by (subst v; change (2 ^ 20) with 1048576; lia).
  assert (Hq : 0 <= Z.shiftr v 10 < 1024).
  { rewrite Z.shiftr_div_pow2 by lia. change (2 ^ 10) with 1024.
    change (2 ^ 20) with (1024 * 1024) in Hv.
    split; [apply Z.div_pos; lia | apply Z.div_lt_upper_bound; lia]. }
  assert (Hr : 0 <= Z.land v 0x3FF < 1024).
  { change 0x3FF with (Z.ones 10). rewrite Z.land_ones by lia.
    change (2 ^ 10) with 1024. apply Z.mod_pos_bound. lia. }
  rewrite (land_low10_offset 0xD800 _ Hq) by reflexivity.
  rewrite (land_low10_offset 0xDC00 _ Hr) by reflexivity.
  rewrite Z.lor_comm.
  change 0x3FF with (Z.ones 10).
  rewrite split_low_bits by lia.
  subst v. lia.
Qed.

Lemma surrogate_ranges (c : Z) :
  0x10000 <= c < 0x110000 ->
  is_high_surrogate (0xD800 + Z.shiftr (c - 0x10000) 10) = true /\
  is_low_surrogate (0xDC00 + Z.land (c - 0x10000) 0x3FF) = true.
Proof.
  intros Hc.
  set (v := c - 0x10000).
  assert (Hv : 0 <= v < 1024 * 1024) by (subst v; lia).
  assert (Hq : 0 <= Z.shiftr v 10 < 1024).
  { rewrite Z.shiftr_div_pow2 by lia. change (2 ^ 10) with 1024.
    split; [apply Z.div_pos; lia | apply Z.div_lt_upper_bound; lia]. }
  assert (Hr : 0 <= Z.land v 0x3FF < 1024).
  { change 0x3FF with (Z.ones 10). rewrite Z.land_ones by lia.
    change (2 ^ 10) with 1024. apply Z.mod_pos_bound. lia. }
  unfold is_high_surrogate, is_low_surrogate.
  split; apply andb_true_iff; split; apply Z.leb_le; lia.
Qed.

Lemma utf16le_decode_unit (lo hi : Z) (rest : bytes) :
  is_high_surrogate (unit16 lo hi) = false ->
  is_low_surrogate (unit16 lo hi) = false ->
  utf16le_decode (lo :: hi :: rest)
  = option_map (cons (unit16 lo hi)) (utf16le_decode rest).
Proof.
  intros Hh Hl. cbn [utf16le_decode]. rewrite Hh, Hl. reflexivity.
Qed.

Lemma utf16le_decode_pair (lo hi lo2 hi2 : Z) (rest : bytes) :
  is_high_surrogate (unit16 lo hi) = true ->
  is_low_surrogate (unit16 lo2 hi2) = true ->
  utf16le_decode (lo :: hi :: lo2 :: hi2 :: rest)
  = option_map (cons (join_surrogates (unit16 lo hi) (unit16 lo2 hi2)))
               (utf16le_decode rest).
Proof.
  intros Hh Hl. cbn [utf16le_decode]. rewrite Hh, Hl. reflexivity.
Qed.

(** Decoding undoes encoding: a payload that is the UTF-16LE encoding of a
    text of scalar values decodes, strictly, to that text. *)
Lemma utf16le_roundtrip (t : text) :
  forallb is_scalar t = true ->
  utf16le_decode (utf16le_encode t) = Some t.
Proof.
  induction t as [|c t IH]; intros Hs; [reflexivity|].
  cbn [forallb] in Hs. apply andb_true_iff in Hs as [Hc Ht].
  specialize (IH Ht).
  unfold is_scalar in Hc.
  apply andb_true_iff in Hc as [Hc Hns].
  apply andb_true_iff in Hc as [H0 H1].
  apply Z.leb_le in H0. apply Z.ltb_lt in H1.
  apply negb_true_iff in Hns.
  unfold utf16le_encode. cbn [flat_map].
  fold (utf16le_encode t).
  unfold utf16le_encode_char.
  destruct (c <? 0x10000) eqn:Hbmp.
  - cbn [app].
    rewrite utf16le_decode_unit; rewrite unit16_split.
    + rewrite IH. reflexivity.
    + unfold is_high_surrogate.
      apply andb_false_iff in Hns as [Hn|Hn];
        [apply Z.leb_gt in Hn | apply Z.leb_gt in Hn];
        apply andb_false_iff; [left|right]; apply Z.leb_gt; lia.
    + unfold is_low_surrogate.
      apply andb_false_iff in Hns as [Hn|Hn];
        [apply Z.leb_gt in Hn | apply Z.leb_gt in Hn];
        apply andb_false_iff; [left|right]; apply Z.leb_gt; lia.
  - apply Z.ltb_ge in Hbmp.
    cbn zeta. cbn [app].
    assert (Hr : 0x10000 <= c < 0x110000) by lia.
    destruct (surrogate_ranges c Hr) as [Hh Hl].
    rewrite utf16le_decode_pair; rewrite !unit16_split; try assumption.
    rewrite join_surrogates_split by assumption.
    rewrite IH. reflexivity.
Qed.

Lemma utf8_step_shrinks (bs : bytes) (c : Z) (r : bytes) :
  utf8_step bs = U8Char c r -> (length r < length bs)%nat.
Proof.
  unfold utf8_step.
  repeat match goal with
         | |- context [match ?x with [] => _ | _ :: _ => _ end] =>
             destruct x; cbn [length]
         | |- context [if ?b then _ else _] => destruct b
         end;
    intros H; try discriminate; inversion H; subst; cbn [length]; lia.
Qed.

(** The fuel of the two UTF-8 loops never runs out: more fuel than the
    length of the input changes nothing. *)
Lemma utf8_strict_loop_fuel (fuel : nat) :
  forall bs, (length bs <= fuel)%nat ->
    utf8_strict_loop fuel bs = utf8_strict_loop (length bs) bs.
Proof.
  induction fuel as [fuel IH] using lt_wf_ind.
  intros bs Hlen.
  destruct bs as [|b bs']; [destruct fuel; reflexivity|].
  destruct fuel as [|fuel']; [cbn [length] in Hlen; lia|].
  cbn [length utf8_strict_loop].
  destruct (utf8_step (b :: bs')) as [c r| |] eqn:Hstep; try reflexivity.
  pose proof (utf8_step_shrinks _ _ _ Hstep) as Hr. cbn [length] in Hr, Hlen.
  rewrite (IH fuel') by lia.
  rewrite (IH (length bs')) by lia.
  reflexivity.
Qed.

Lemma utf8_ignore_loop_fuel (fuel : nat) :
  forall bs, (length bs <= fuel)%nat ->
    utf8_ignore_loop fuel bs = utf8_ignore_loop (length bs) bs.
Proof.
  induction fuel as [fuel IH] using lt_wf_ind.
  intros bs Hlen.
  destruct bs as [|b bs']; [destruct fuel; reflexivity|].
  destruct fuel as [|fuel']; [cbn [length] in Hlen; lia|].
  cbn [length utf8_ignore_loop].
  cbn [length] in Hlen.
  destruct (utf8_step (b :: bs')) as [c r|n|] eqn:Hstep; try reflexivity.
  - pose proof (utf8_step_shrinks _ _ _ Hstep) as Hr. cbn [length] in Hr.
    rewrite (IH fuel') by lia.
    rewrite (IH (length bs')) by lia.
    reflexivity.
  - assert (Hn : (1 <= n)%nat).
    { revert Hstep. unfold utf8_step.
      repeat match goal with
             | |- context [match ?x with [] => _ | _ :: _ => _ end] => destruct x
             | |- context [if ?b then _ else _] => destruct b
             end; intros H; try discriminate; inversion H; lia. }
    assert (Hs : (length (skipn n (b :: bs')) <= length bs')%nat).
    { rewrite length_skipn. cbn [length]. lia. }
    rewrite (IH fuel') by lia.
    rewrite (IH (length bs')) by lia.
    reflexivity.
Qed.

(** A payload that strict UTF-8 accepts loses nothing in the lossy decode. *)
Lemma utf8_ignore_of_valid (fuel : nat) :
  forall bs t, utf8_strict_loop fuel bs = Some t -> utf8_ignore_loop fuel bs = t.
Proof.
  induction fuel as [|fuel IH]; intros bs t H.
  - destruct bs; cbn in H; [now inversion H | discriminate].
  - destruct bs as [|b bs']; [cbn in H; now inversion H|].
    cbn [utf8_strict_loop utf8_ignore_loop] in *.
    destruct (utf8_step (b :: bs')) as [c r| |]; try discriminate.
    destruct (utf8_strict_loop fuel r) as [t'|] eqn:E; [|discriminate].
    cbn in H. inversion H; subst. now rewrite (IH _ _ E).
Qed.

(** C2, as the source has it.  The cascade tries UTF-16LE, then UTF-8, then
    a lossy UTF-8 decode that drops what it cannot decode, and it always
    yields a text: when UTF-16LE accepts the payload its result is taken;
    when it does not and UTF-8 accepts, that result is taken; otherwise the
    lossy decode answers.  In particular the UTF-16LE encoding of any text of
    Unicode scalar values decodes to exactly that text by the first step. *)
Theorem decode_cascade_order :
  forall content : bytes,
    (forall t, utf16le_decode content = Some t -> decode_cascade content = t) /\
    (utf16le_decode content = None ->
       forall t, utf8_decode content = Some t -> decode_cascade content = t) /\
    (utf16le_decode content = None -> utf8_decode content = None ->
       decode_cascade content = utf8_decode_ignore content) /\
    (forall t, forallb is_scalar t = true -> content = utf16le_encode t ->
       utf16le_decode content = Some t /\ decode_cascade content = t).
Proof.
  intros content. unfold decode_cascade. repeat split.
  - intros t H. now rewrite H.
  - intros H16 t H8. now rewrite H16, H8.
  - intros H16 H8. now rewrite H16, H8.
  - subst content. now apply utf16le_roundtrip.
  - subst content. now rewrite utf16le_roundtrip.
Qed.

(** C2 as the specification words it fails in its last step: on a payload
    that neither strict codec accepts (the Latin-1 bytes of a five letter
    word with an accent), the undecodable byte is dropped, where a decode
    that replaces would leave U+FFFD in its place. *)
Lemma decode_cascade_drops_not_replaces :
  utf16le_decode [0x63; 0x61; 0x66; 0xE9; 0x21] = None /\
  utf8_decode [0x63; 0x61; 0x66; 0xE9; 0x21] = None /\
  decode_cascade [0x63; 0x61; 0x66; 0xE9; 0x21] = [0x63; 0x61; 0x66; 0x21] /\
  spec_decode_cascade [0x63; 0x61; 0x66; 0xE9; 0x21]
    = [0x63; 0x61; 0x66; 0xFFFD; 0x21] /\
  decode_cascade [0x63; 0x61; 0x66; 0xE9; 0x21]
    <> spec_decode_cascade [0x63; 0x61; 0x66; 0xE9; 0x21].
Proof.
  repeat split; try (vm_compute; reflexivity).
  vm_compute. discriminate.
Qed.

(** ** The page resolver *)

Section ResolverFacts.
Context {rt : PyRuntime}.

Lemma scan_containers_dicts (vid : text) (cs : list json) :
  forallb is_dict cs = true ->
  scan_containers vid cs = Ok (existsb (fun c => text_eqb (container_id c) vid) cs).
Proof.
  induction cs as [|c cs IH]; intros H; [reflexivity|].
  cbn [forallb] in H. apply andb_true_iff in H as [Hc Hcs].
  destruct c; try discriminate.
  cbn [scan_containers existsb container_id dict_get bind].
  destruct (text_eqb _ vid); [reflexivity|].
  now rewrite IH.
Qed.

Lemma well_formed_page_reads (page : json) :
  well_formed_page page = true ->
  exists raw_data vcs,
    dict_get page (lit "raw_data") (JObj []) = Ok raw_data /\
    dict_get raw_data (lit "visualContainers") (JArr []) = Ok vcs /\
    py_iter vcs = Ok (page_containers page) /\
    forallb is_dict (page_containers page) = true /\
    getitem page (lit "name") = Ok (page_name page).
Proof.
  destruct page as [| | | | | |m]; try discriminate.
  unfold well_formed_page, page_containers, page_name, dict_get, getitem.
  destruct (assoc (lit "name") m) as [name|]; [|discriminate].
  destruct (assoc (lit "raw_data") m) as [rd|].
  - destruct rd as [| | | | | |rdm]; try discriminate.
    destruct (assoc (lit "visualContainers") rdm) as [vcs|] eqn:Evc.
    + destruct vcs as [| | | | |cs|]; try discriminate.
      intros H. exists (JObj rdm), (JArr cs). rewrite Evc. now repeat split.
    + intros _. exists (JObj rdm), (JArr []). rewrite Evc. now repeat split.
  - intros _. exists (JObj []), (JArr []). now repeat split.
Qed.

Lemma scan_pages_well_formed (vid : text) (pages : list json) :
  forallb well_formed_page pages = true ->
  scan_pages vid pages = Ok (option_map page_name (find (page_holds vid) pages)).
Proof.
  induction pages as [|page pages IH]; intros H; [reflexivity|].
  cbn [forallb] in H. apply andb_true_iff in H as [Hp Hps].
  destruct (well_formed_page_reads page Hp) as (rd & vcs & H1 & H2 & H3 & H4 & H5).
  cbn [scan_pages find]. rewrite H1. cbn [bind]. rewrite H2. cbn [bind].
  rewrite H3. cbn [bind]. rewrite (scan_containers_dicts vid _ H4). cbn [bind].
  fold (page_holds vid page).
  destruct (page_holds vid page).
  - rewrite H5. reflexivity.
  - now apply IH.
Qed.

Lemma find_first_match {A} (f : A -> bool) (pre : list A) (x : A) (post : list A) :
  forallb (fun y => negb (f y)) pre = true -> f x = true ->
  find f (pre ++ x :: post) = Some x.
Proof.
  induction pre as [|y pre IH]; intros Hpre Hx; cbn [app find].
  - now rewrite Hx.
  - cbn [forallb] in Hpre. apply andb_true_iff in Hpre as [Hy Hpre].
    apply negb_true_iff in Hy. rewrite Hy. now apply IH.
Qed.

Lemma find_no_match {A} (f : A -> bool) (l : list A) :
  forallb (fun y => negb (f y)) l = true -> find f l = None.
Proof.
  induction l as [|y l IH]; intros H; [reflexivity|].
  cbn [forallb] in H. apply andb_true_iff in H as [Hy Hl].
  apply negb_true_iff in Hy. cbn [find]. rewrite Hy. now apply IH.
Qed.

Lemma first_page_or_unknown_well_formed (pages : list json) :
  forallb well_formed_page pages = true ->
  first_page_or_unknown pages = Ok (first_name_or_unknown pages).
Proof.
  destruct pages as [|page pages]; intros H; [reflexivity|].
  cbn [forallb] in H. apply andb_true_iff in H as [Hp _].
  destruct (well_formed_page_reads page Hp) as (_ & _ & _ & _ & _ & _ & H5).
  exact H5.
Qed.

Lemma page_name_at_well_formed (i : nat) (pages : list json) :
  forallb well_formed_page pages = true -> (i < length pages)%nat ->
  page_name_at i pages = Ok (page_name (nth i pages JNull)).
Proof.
  intros H Hi. unfold page_name_at.
  assert (Hin : In (nth i pages JNull) pages) by now apply nth_In.
  rewrite forallb_forall in H. specialize (H _ Hin).
  destruct (well_formed_page_reads _ H) as (_ & _ & _ & _ & _ & _ & H5).
  exact H5.
Qed.

(** The chain after the loops, on a string path and pages of the expected
    shape. *)
Lemma resolve_fallback_well_formed (m : list (text * json)) (pages : list json) (path : text) :
  forallb well_formed_page pages = true ->
  dict_get (JObj m) (lit "path") (JStr []) = Ok (JStr path) ->
  resolve_fallback (JObj m) pages =
  Ok (if contains (section_marker 0) path then first_name_or_unknown pages
      else if contains (section_marker 1) path && (1 <? length pages)%nat
           then page_name (nth 1 pages JNull)
      else if contains (section_marker 2) path && (2 <? length pages)%nat
           then page_name (nth 2 pages JNull)
      else if contains (section_marker 3) path && (3 <? length pages)%nat
           then page_name (nth 3 pages JNull)
      else first_name_or_unknown pages).
Proof.
  intros Hwf Hpath. unfold resolve_fallback. rewrite Hpath.
  change (section_marker 0) with (lit "sections[0]").
  change (section_marker 1) with (lit "sections[1]").
  change (section_marker 2) with (lit "sections[2]").
  change (section_marker 3) with (lit "sections[3]").
  cbn [bind py_in].
  destruct (contains (lit "sections[0]") path).
  { now apply first_page_or_unknown_well_formed. }
  destruct (contains (lit "sections[1]") path && (1 <? length pages)%nat) eqn:E1.
  { apply andb_true_iff in E1 as [_ E1]. apply Nat.ltb_lt in E1.
    now apply page_name_at_well_formed. }
  destruct (contains (lit "sections[2]") path && (2 <? length pages)%nat) eqn:E2.
  { apply andb_true_iff in E2 as [_ E2]. apply Nat.ltb_lt in E2.
    now apply page_name_at_well_formed. }
  destruct (contains (lit "sections[3]") path && (3 <? length pages)%nat) eqn:E3.
  { apply andb_true_iff in E3 as [_ E3]. apply Nat.ltb_lt in E3.
    now apply page_name_at_well_formed. }
  now apply first_page_or_unknown_well_formed.
Qed.

End ResolverFacts.

Section ResolverChain.
Context {rt : PyRuntime}.

(** C5, as the source has it.  For a visual with a string discovery path and
    pages of the expected shape: (1) when some page holds a container with the
    visual's id, the first such page is assigned; (2) otherwise, for N among
    0, 1, 2, 3 only, when the path carries the marker of section N, page N
    exists, and no smaller marker with an existing page is present, page N is
    assigned; (3) otherwise, which includes every marker from section 4 on,
    the first page is assigned when there is one and Unknown when the list
    is empty. *)
Theorem resolver_fallback_chain :
  forall (m : list (text * json)) (pages : list json) (id : json) (path : text),
    forallb well_formed_page pages = true ->
    dict_get (JObj m) (lit "id") (JStr []) = Ok id ->
    dict_get (JObj m) (lit "path") (JStr []) = Ok (JStr path) ->
    (forall pre page post,
        pages = pre ++ page :: post ->
        forallb (fun p => negb (page_holds (py_str id) p)) pre = true ->
        page_holds (py_str id) page = true ->
        extract_page_from_visual (JObj m) pages = Ok (page_name page)) /\
    (forallb (fun p => negb (page_holds (py_str id) p)) pages = true ->
     forall n : nat,
        (n < 4)%nat ->
        contains (section_marker n) path = true ->
        (n < length pages)%nat ->
        (forall j : nat, (j < n)%nat ->
            contains (section_marker j) path = true -> (length pages <= j)%nat) ->
        extract_page_from_visual (JObj m) pages = Ok (page_name (nth n pages JNull))) /\
    (forallb (fun p => negb (page_holds (py_str id) p)) pages = true ->
     (forall n : nat, (n < 4)%nat ->
         contains (section_marker n) path = true -> (length pages <= n)%nat) ->
     extract_page_from_visual (JObj m) pages = Ok (first_name_or_unknown pages)) /\
    (pages = [] ->
     extract_page_from_visual (JObj m) pages = Ok (JStr (lit "Unknown"))).
Proof.
  intros m pages id path Hwf Hid Hpath.
  assert (Hrun : extract_page_from_visual (JObj m) pages =
                 match option_map page_name (find (page_holds (py_str id)) pages) with
                 | Some name => Ok name
                 | None => resolve_fallback (JObj m) pages
                 end).
  { unfold extract_page_from_visual. rewrite Hid. cbn [bind].
    rewrite (scan_pages_well_formed _ _ Hwf). reflexivity. }
  assert (Hno : forallb (fun p => negb (page_holds (py_str id) p)) pages = true ->
                extract_page_from_visual (JObj m) pages =
                Ok (if contains (section_marker 0) path then first_name_or_unknown pages
                    else if contains (section_marker 1) path && (1 <? length pages)%nat
                         then page_name (nth 1 pages JNull)
                    else if contains (section_marker 2) path && (2 <? length pages)%nat
                         then page_name (nth 2 pages JNull)
                    else if contains (section_marker 3) path && (3 <? length pages)%nat
                         then page_name (nth 3 pages JNull)
                    else first_name_or_unknown pages)).
  { intros Hnone. rewrite Hrun, (find_no_match _ _ Hnone). cbn [option_map].
    now apply resolve_fallback_well_formed. }
  split; [|split; [|split]].
  - intros pre page post -> Hpre Hpage.
    rewrite Hrun, (find_first_match _ _ _ _ Hpre Hpage). reflexivity.
  - intros Hnone n Hn Hmark Hlen Hmin.
    rewrite (Hno Hnone).
    assert (Hskip : forall j, (j < n)%nat ->
              contains (section_marker j) path && (j <? length pages)%nat = false).
    { intros j Hj.
      destruct (contains (section_marker j) path) eqn:Ej; [|reflexivity].
      specialize (Hmin j Hj Ej). cbn [andb]. apply Nat.ltb_ge. lia. }
    assert (Hskip0 : (0 < n)%nat -> contains (section_marker 0) path = false).
    { intros H0. specialize (Hskip 0%nat H0).
      apply andb_false_iff in Hskip as [Hs|Hs]; [exact Hs|].
      apply Nat.ltb_ge in Hs. lia. }
    assert (Hhere : contains (section_marker n) path && (n <? length pages)%nat = true).
    { rewrite Hmark. cbn [andb]. now apply Nat.ltb_lt. }
    destruct n as [|[|[|[|n]]]]; [| | | |lia].
    + rewrite Hmark. destruct pages; [cbn [length] in Hlen; lia|reflexivity].
    + rewrite Hskip0 by lia. rewrite Hhere. reflexivity.
    + rewrite Hskip0 by lia. rewrite (Hskip 1%nat) by lia. rewrite Hhere. reflexivity.
    + rewrite Hskip0 by lia. rewrite (Hskip 1%nat), (Hskip 2%nat) by lia.
      rewrite Hhere. reflexivity.
  - intros Hnone Hmarks.
    rewrite (Hno Hnone).
    assert (Hskip : forall j, (j < 4)%nat ->
              contains (section_marker j) path && (j <? length pages)%nat = false).
    { intros j Hj.
      destruct (contains (section_marker j) path) eqn:Ej; [|reflexivity].
      specialize (Hmarks j Hj Ej). cbn [andb]. apply Nat.ltb_ge. lia. }
    rewrite (Hskip 1%nat), (Hskip 2%nat), (Hskip 3%nat) by lia.
    destruct (contains (section_marker 0) path); reflexivity.
  - intros ->. rewrite (Hno eq_refl).
    cbn [length Nat.ltb Nat.leb andb first_name_or_unknown].
    rewrite !andb_false_r.
    destruct (contains (section_marker 0) path); reflexivity.
Qed.

End ResolverChain.

Lemma resolver_fallback_chain_witness :
  extract_page_from_visual
    (JObj (visual_in_section 8 "sections[2].visualContainers[0]")) five_pages
  = Ok (JStr (lit "Page2")).
Proof.
  refine (proj1 (proj2 (resolver_fallback_chain
            (visual_in_section 8 "sections[2].visualContainers[0]")
            five_pages (JInt 8) (lit "sections[2].visualContainers[0]")
            eq_refl eq_refl eq_refl)) eq_refl 2%nat _ eq_refl _ _).
  - lia.
  - cbn [length five_pages]. lia.
  - intros j Hj Hc.
    destruct j as [|[|j]]; [vm_compute in Hc; discriminate
                           |vm_compute in Hc; discriminate|lia].
Defined.

(** C5 as the specification words it fails in its second clause: a visual
    found under the fifth section of a report with five pages, and held by no
    page's container list, is given the first page, not the fifth. *)
Lemma resolver_ignores_fifth_section :
  forallb (fun p => negb (page_holds (py_str (JInt 8)) p)) five_pages = true /\
  contains (section_marker 4) (lit "sections[4].visualContainers[0]") = true /\
  nth 4 five_pages JNull = JObj [(lit "name", JStr (lit "Page4"))] /\
  extract_page_from_visual
    (JObj (visual_in_section 8 "sections[4].visualContainers[0]")) five_pages
  = Ok (JStr (lit "Page0")) /\
  extract_page_from_visual
    (JObj (visual_in_section 8 "sections[4].visualContainers[0]")) five_pages
  <> Ok (page_name (nth 4 five_pages JNull)).
Proof.
  repeat split; try (vm_compute; reflexivity).
  vm_compute. discriminate.
Qed.

(** ** The resolver is a deterministic transition system *)

Section ResolverDeterminism.
Context {rt : PyRuntime}.
Variable visual : json.
Variable pages : list json.

Lemma rstep_deterministic (s a b : rstate) :
  rstep visual pages s a -> rstep visual pages s b -> a = b.
Proof.
  intros Ha Hb.
  inversion Ha; subst; inversion Hb; subst; congruence.
Qed.

Lemma rfinal_stuck (s s' : rstate) :
  rfinal s = true -> ~ rstep visual pages s s'.
Proof.
  intros Hf Hs. inversion Hs; subst; discriminate.
Qed.

Lemma rsteps_final_unique (s f1 f2 : rstate) :
  rsteps visual pages s f1 -> rsteps visual pages s f2 ->
  rfinal f1 = true -> rfinal f2 = true -> f1 = f2.
Proof.
  intros H1. revert f2.
  induction H1 as [s|s s' s'' Hstep Hrest IH]; intros f2 H2 Hf1 Hf2.
  - inversion H2 as [|? ? ? Hstep2]; subst; [reflexivity|].
    exfalso. exact (rfinal_stuck _ _ Hf1 Hstep2).
  - inversion H2 as [|? t ? Hstep2 Hrest2]; subst.
    + exfalso. exact (rfinal_stuck _ _ Hf2 Hstep).
    + rewrite (rstep_deterministic _ _ _ Hstep2 Hstep) in Hrest2.
      now apply IH.
Qed.

Lemma rsteps_trans (a b c : rstate) :
  rsteps visual pages a b -> rsteps visual pages b c -> rsteps visual pages a c.
Proof.
  intros H1 H2. induction H1; [exact H2|].
  eapply rsteps_step; eauto.
Qed.

Lemma rfinal_outcome (r : result json) : rfinal (outcome r) = true.
Proof. destruct r; reflexivity. Qed.

(** The inner loop reaches the state its result names. *)
Lemma container_loop_runs (vid : text) (page : json) (rest : list json) :
  forall cs,
    rsteps visual pages (AtContainerLoop vid page cs rest)
      match scan_containers vid cs with
      | Ok true => outcome (getitem page (lit "name"))
      | Ok false => AtPageLoop vid rest
      | Raise e => Raised e
      end.
Proof.
  induction cs as [|c cs IH].
  - cbn [scan_containers]. eapply rsteps_step; [constructor|constructor].
  - cbn [scan_containers].
    destruct (dict_get c (lit "id") (JStr [])) as [cid|e] eqn:Ecid; cbn [bind].
    + destruct (text_eqb (py_str cid) vid) eqn:Eeq.
      * eapply rsteps_step; [eapply step_container_hit; eauto|constructor].
      * eapply rsteps_step; [eapply step_container_skip; eauto|exact IH].
    + eapply rsteps_step; [eapply step_container_raise; eauto|constructor].
Qed.

(** The outer loop reaches the state its result names. *)
Lemma page_loop_runs (vid : text) :
  forall rest,
    rsteps visual pages (AtPageLoop vid rest)
      match scan_pages vid rest with
      | Ok (Some name) => Returned name
      | Ok None => AtFallback
      | Raise e => Raised e
      end.
Proof.
  induction rest as [|page rest IH].
  - cbn [scan_pages]. eapply rsteps_step; [constructor|constructor].
  - cbn [scan_pages].
    destruct (dict_get page (lit "raw_data") (JObj [])) as [rd|e] eqn:E1; cbn [bind].
    2:{ eapply rsteps_step; [eapply step_page_raw_raise; eauto|constructor]. }
    destruct (dict_get rd (lit "visualContainers") (JArr [])) as [vcs|e] eqn:E2; cbn [bind].
    2:{ eapply rsteps_step; [eapply step_page_vcs_raise; eauto|constructor]. }
    destruct (py_iter vcs) as [cs|e] eqn:E3; cbn [bind].
    2:{ eapply rsteps_step; [eapply step_page_iter_raise; eauto|constructor]. }
    eapply rsteps_step; [eapply step_page_enter; eauto|].
    pose proof (container_loop_runs vid page rest cs) as Hc.
    destruct (scan_containers vid cs) as [[|]|e]; cbn [bind].
    + destruct (getitem page (lit "name")); exact Hc.
    + eapply rsteps_trans; [exact Hc|exact IH].
    + exact Hc.
Qed.

(** Every run of the function is a run of the transition system. *)
Lemma resolver_runs :
  rsteps visual pages AtEntry (outcome (extract_page_from_visual visual pages)).
Proof.
  unfold extract_page_from_visual.
  destruct (dict_get visual (lit "id") (JStr [])) as [id|e] eqn:Eid; cbn [bind].
  2:{ eapply rsteps_step; [eapply step_entry_raise; eauto|constructor]. }
  eapply rsteps_step; [eapply step_entry; eauto|].
  pose proof (page_loop_runs (py_str id) pages) as Hp.
  destruct (scan_pages (py_str id) pages) as [[name|]|e]; cbn [bind outcome].
  - exact Hp.
  - eapply rsteps_trans; [exact Hp|].
    eapply rsteps_step; [apply step_fallback|constructor].
  - exact Hp.
Qed.

End ResolverDeterminism.

(** C9.  The resolver is deterministic.  Read as a transition system over
    the statements of the function (the first matching container of the first
    matching page wins, then the fixed chain on the path), every state has at
    most one successor, so any two complete runs on the same visual and the
    same page list end in the same state: the same page name, the same
    Unknown, or the same exception; and one such run always exists, the one
    the function computes. *)
Theorem resolver_deterministic :
  forall (rt : PyRuntime) (visual : json) (pages : list json),
    rsteps visual pages AtEntry (outcome (extract_page_from_visual visual pages)) /\
    rfinal (outcome (extract_page_from_visual visual pages)) = true /\
    (forall s a b, rstep visual pages s a -> rstep visual pages s b -> a = b) /\
    (forall f1 f2,
        rsteps visual pages AtEntry f1 -> rsteps visual pages AtEntry f2 ->
        rfinal f1 = true -> rfinal f2 = true -> f1 = f2) /\
    (forall f,
        rsteps visual pages AtEntry f -> rfinal f = true ->
        f = outcome (extract_page_from_visual visual pages)).
Proof.
  intros rt visual pages.
  split; [apply resolver_runs|].
  split; [apply rfinal_outcome|].
  split; [apply rstep_deterministic|].
  split; [apply rsteps_final_unique|].
  intros f Hf Hfin.
  eapply rsteps_final_unique; eauto using resolver_runs, rfinal_outcome.
Qed.

(** ** Members that do not parse *)




(** Blank text is no content: the parse is not attempted on the text made
    of a space and a line feed, nor on the empty text, and the member is
    given up (the result is None). *)
Lemma blank_member_discarded :
  decode_cascade [32; 0; 10; 0] = [32; 10] /\
  json_loads (decode_cascade [32; 0; 10; 0]) = Raise JSONDecodeError /\
  _extract_layout_file (Ok [32; 0; 10; 0]) = None /\
  json_loads (decode_cascade []) = Raise JSONDecodeError /\
  _extract_layout_file (Ok []) = None.
Proof. repeat split; vm_compute; reflexivity. Qed.

(** ** Configurations that do not parse *)

Section Degradation.
Context {rt : PyRuntime}.





End Degradation.




(** ** Data-role bindings *)

Section DataRoles.
Context {rt : PyRuntime}.




End DataRoles.




(** ** The projector and its transaction *)

Lemma preserves_ret {S A} (I : S -> Prop) (a : A) : preserves I (se_ret a).
Proof. intros s H. exact H. Qed.

Lemma preserves_lift {S A} (I : S -> Prop) (r : result A) : preserves I (se_lift r).
Proof. intros s H. exact H. Qed.

Lemma preserves_bind {S A B} (I : S -> Prop) (m : SE S A) (k : A -> SE S B) :
  preserves I m -> (forall a, preserves I (k a)) -> preserves I (se_bind m k).
Proof.
  intros Hm Hk s H. unfold se_bind.
  specialize (Hm s H).
  destruct (m s) as [[a|e] s']; cbn [snd] in *.
  - now apply Hk.
  - exact Hm.
Qed.

Lemma preserves_for {S A} (I : S -> Prop) (xs : list A) (body : A -> SE S unit) :
  (forall x, preserves I (body x)) -> preserves I (se_for xs body).
Proof.
  intros Hb. induction xs as [|x xs IH]; cbn [se_for].
  - apply preserves_ret.
  - apply preserves_bind; [apply Hb|intros _; exact IH].
Qed.

Lemma rows_kept_refl (db : store) : rows_kept db db.
Proof.
  split; [|reflexivity].
  intros t. destruct (tables db t); [reflexivity|now left].
Qed.

Lemma relname_eqb_eq (a b : relname) : relname_eqb a b = true <-> a = b.
Proof. destruct a, b; cbn; split; intros H; try reflexivity; discriminate. Qed.

Lemma rows_kept_create_table (db s : store) (t : relname) :
  rows_kept db s -> rows_kept db (create_table t s).
Proof.
  intros [Ht Hv]. unfold create_table.
  destruct (tables s t) as [tb|] eqn:Est; [now split|].
  split; [|exact Hv].
  intros t'. specialize (Ht t'). cbn [set_table tables].
  destruct (relname_eqb t' t) eqn:E.
  - apply relname_eqb_eq in E. subst t'.
    destruct (tables db t); [congruence|now right].
  - exact Ht.
Qed.

Lemma rows_kept_table_rows (db s : store) (t : relname) :
  rows_kept db s -> table_rows s t = table_rows db t.
Proof.
  intros [Ht _]. specialize (Ht t). unfold table_rows.
  destruct (tables db t) as [tb|].
  - now rewrite Ht.
  - destruct Ht as [-> | ->]; reflexivity.
Qed.

Section Atomicity.
Context {rt : PyRuntime}.
Variable db : store.

Lemma create_table_kept (t : relname) : preserves (committed_kept db) (execute_create_table t).
Proof.
  intros c H. unfold committed_kept, execute_create_table in *. cbn [snd committed].
  destruct (in_txn c); [exact H|now apply rows_kept_create_table].
Qed.

Lemma insert_kept (t : relname) (params : list json) :
  preserves (committed_kept db) (execute_insert t params).
Proof.
  intros c H. unfold committed_kept, execute_insert in *.
  destruct (tables (working c) t) as [tb|]; [|exact H].
  destruct (bind_params params); [|exact H].
  destruct (autoincrement_full t tb); exact H.
Qed.

Ltac kept :=
  repeat first
    [ apply preserves_ret
    | apply preserves_lift
    | apply create_table_kept
    | apply insert_kept
    | apply preserves_for; intros ?
    | apply preserves_bind; [|intros ?]
    | progress unfold get, item
    | match goal with
      | |- preserves _ (if ?b then _ else _) => destruct b
      | |- preserves _ (match ?v with _ => _ end) => destruct v
      end ].

Lemma create_ui_tables_kept (ui : result json) :
  preserves (committed_kept db) (create_ui_tables ui).
Proof.
  unfold create_ui_tables, insert_page, insert_visual, insert_custom_visual. kept.
Qed.

Lemma create_metadata_tables_kept (dm : result json) :
  preserves (committed_kept db) (create_metadata_tables dm).
Proof.
  unfold create_metadata_tables, insert_measure, insert_calculated_column,
    insert_relationship, insert_power_query. kept.
Qed.

Lemma create_powerbi_views_returns (c : conn) :
  exists c', create_powerbi_views c = (Ok tt, c').
Proof. eexists. reflexivity. Qed.

(** Whatever raises in the [try] block raises before the views are created
    and before the commit, in a state whose committed part is kept. *)
Lemma setup_try_raise_kept (ui dm : result json) (e : exn) (c : conn) :
  setup_try ui dm (connect db) = (Raise e, c) -> committed_kept db c.
Proof.
  unfold setup_try, se_bind.
  pose proof (create_ui_tables_kept ui (connect db) (rows_kept_refl db)) as H1.
  destruct (create_ui_tables ui (connect db)) as [[[]|e1] c1]; cbn [snd] in H1.
  2:{ intros H. inversion H; subst. exact H1. }
  pose proof (create_metadata_tables_kept dm c1 H1) as H2.
  destruct (create_metadata_tables dm c1) as [[[]|e2] c2]; cbn [snd] in H2.
  2:{ intros H. inversion H; subst. exact H2. }
  destruct (create_powerbi_views_returns c2) as [c3 ->].
  unfold commit. discriminate.
Qed.

End Atomicity.

(** C6, as the source has it.  Every row write of a run sits in one
    transaction that is committed at the end or rolled back by the handler.
    For every run in which a load or a write raises, the error line is
    printed, the transaction is closed with nothing pending, and every table
    holds exactly the rows it held before (a table that did not exist holds
    none): tables that existed are untouched, and a table the run created
    before its first row write stays behind empty; the views are those of
    before. *)
Theorem projection_rolls_back_rows :
  forall (rt : PyRuntime) (db : store) (ui dm : result json) (e : exn),
    fst (setup_try ui dm (connect db)) = Raise e ->
    snd (setup_powerbi_mcp_database db ui dm) = SetupError e /\
    in_txn (fst (setup_powerbi_mcp_database db ui dm)) = false /\
    working (fst (setup_powerbi_mcp_database db ui dm))
    = committed (fst (setup_powerbi_mcp_database db ui dm)) /\
    (forall t, table_rows (committed (fst (setup_powerbi_mcp_database db ui dm))) t
               = table_rows db t) /\
    (forall t tb, tables db t = Some tb ->
        tables (committed (fst (setup_powerbi_mcp_database db ui dm))) t = Some tb) /\
    (forall t, tables db t = None ->
        tables (committed (fst (setup_powerbi_mcp_database db ui dm))) t = None \/
        tables (committed (fst (setup_powerbi_mcp_database db ui dm))) t = Some empty_table) /\
    (forall v, views (committed (fst (setup_powerbi_mcp_database db ui dm))) v = views db v).
Proof.
  intros rt db ui dm e Hraise.
  unfold setup_powerbi_mcp_database.
  destruct (setup_try ui dm (connect db)) as [r c] eqn:Erun.
  cbn [fst] in Hraise. subst r.
  pose proof (setup_try_raise_kept db ui dm e c Erun) as Hkept.
  unfold committed_kept in Hkept.
  cbn [fst snd rollback committed working in_txn].
  repeat split.
  - intros t. now apply rows_kept_table_rows.
  - intros t tb Ht. destruct Hkept as [Hk _]. specialize (Hk t). now rewrite Ht in Hk.
  - intros t Ht. destruct Hkept as [Hk _]. specialize (Hk t). now rewrite Ht in Hk.
  - intros v. now destruct Hkept as [_ Hv].
Qed.

Lemma projection_rolls_back_rows_witness :
  snd (setup_powerbi_mcp_database empty_store (Ok one_page_ui) (Raise OSError))
  = SetupError OSError /\
  in_txn (fst (setup_powerbi_mcp_database empty_store (Ok one_page_ui) (Raise OSError)))
  = false.
Proof.
  pose proof (projection_rolls_back_rows ref_runtime empty_store
                (Ok one_page_ui) (Raise OSError) OSError eq_refl) as H.
  exact (conj (proj1 H) (proj1 (proj2 H))).
Defined.

(** C6 as the specification words it fails on the schema: on a new store, a
    run that raises at its first page (a page without a name) has been rolled
    back and reports the error, yet the pages table, which did not exist
    before, now exists: its CREATE statement ran before any transaction was
    open.  The same run, had it raised after rows were written (here the data
    model cannot be opened), leaves no row behind. *)
Lemma failed_run_leaves_empty_table :
  snd (setup_powerbi_mcp_database empty_store (Ok nameless_page_ui) (Ok (JObj [])))
  = SetupError (KeyError (lit "name")) /\
  tables empty_store powerbi_pages = None /\
  tables (committed (fst (setup_powerbi_mcp_database empty_store
                            (Ok nameless_page_ui) (Ok (JObj []))))) powerbi_pages
  = Some empty_table /\
  tables (committed (fst (setup_powerbi_mcp_database empty_store
                            (Ok nameless_page_ui) (Ok (JObj []))))) powerbi_pages
  <> tables empty_store powerbi_pages /\
  table_rows (working (snd (setup_try (Ok one_page_ui) (Raise OSError)
                              (connect empty_store)))) powerbi_pages
  = [one_page_row] /\
  table_rows (committed (fst (setup_powerbi_mcp_database empty_store
                                (Ok one_page_ui) (Raise OSError)))) powerbi_pages
  = [].
Proof.
  repeat split; try (vm_compute; reflexivity).
  vm_compute. discriminate.
Qed.

(** ** Projecting twice *)

(** An INSERT OR REPLACE into a table whose only key is the AUTOINCREMENT id
    never replaces: the table gains a row, whatever it holds. *)
Lemma insert_without_key_appends (t : relname) (vals : row) (tb : table) :
  primary_key t = None ->
  length (rows (insert_or_replace t vals tb)) = S (length (rows tb)).
Proof.
  intros H. unfold insert_or_replace. rewrite H. cbn [rows].
  rewrite length_app. cbn [length]. lia.
Qed.

Lemma relname_eqb_refl (t : relname) : relname_eqb t t = true.
Proof. now destruct t. Qed.

Lemma adds_rows_ret {A} (t : relname) (a : A) : adds_rows t 0 (se_ret a).
Proof. intros c a' c' H. inversion H; subst. lia. Qed.

Lemma adds_rows_lift {A} (t : relname) (r : result A) : adds_rows t 0 (se_lift r).
Proof. intros c a' c' H. inversion H; subst. lia. Qed.

Lemma adds_rows_bind {A B} (t : relname) (n1 n2 : nat) (m : SE conn A) (k : A -> SE conn B) :
  adds_rows t n1 m -> (forall a, adds_rows t n2 (k a)) ->
  adds_rows t (n1 + n2) (se_bind m k).
Proof.
  intros Hm Hk c b c' H. unfold se_bind in H.
  destruct (m c) as [[a|e] c1] eqn:Em; [|discriminate].
  rewrite (Hk a c1 b c' H), (Hm c a c1 Em). lia.
Qed.

Lemma adds_rows_bind0 {A B} (t : relname) (m : SE conn A) (k : A -> SE conn B) :
  adds_rows t 0 m -> (forall a, adds_rows t 0 (k a)) -> adds_rows t 0 (se_bind m k).
Proof. intros Hm Hk. exact (adds_rows_bind t 0 0 m k Hm Hk). Qed.

Lemma adds_rows_for {A} (t : relname) (n : nat) (xs : list A) (body : A -> SE conn unit) :
  (forall x, adds_rows t n (body x)) ->
  adds_rows t (length xs * n) (se_for xs body).
Proof.
  intros Hb. induction xs as [|x xs IH]; cbn [se_for length Nat.mul].
  - apply adds_rows_ret.
  - apply adds_rows_bind; [apply Hb|intros _; exact IH].
Qed.

Lemma adds_rows_for0 {A} (t : relname) (xs : list A) (body : A -> SE conn unit) :
  (forall x, adds_rows t 0 (body x)) -> adds_rows t 0 (se_for xs body).
Proof.
  intros Hb. pose proof (adds_rows_for t 0 xs body Hb) as H.
  now rewrite Nat.mul_0_r in H.
Qed.

Lemma adds_rows_create_table (t t' : relname) : adds_rows t 0 (execute_create_table t').
Proof.
  intros c a c' H. unfold execute_create_table in H. inversion H; subst; clear H.
  cbn [working]. unfold row_count, table_rows, create_table.
  destruct (tables (working c) t') as [tb|] eqn:E; [lia|].
  cbn [set_table tables].
  destruct (relname_eqb t t') eqn:Et.
  - apply relname_eqb_eq in Et. subst. rewrite E. reflexivity.
  - lia.
Qed.

Lemma adds_rows_create_view (t : relname) (v : viewname) :
  adds_rows t 0 (execute_create_view v).
Proof.
  intros c a c' H. unfold execute_create_view in H. inversion H; subst; clear H.
  unfold row_count, table_rows. cbn [working set_view tables]. lia.
Qed.

Lemma adds_rows_insert_other {rt : PyRuntime} (t t' : relname) (params : list json) :
  relname_eqb t t' = false -> adds_rows t 0 (execute_insert t' params).
Proof.
  intros Hne c a c' H. unfold execute_insert in H.
  destruct (tables (working c) t') as [tb|]; [|discriminate].
  destruct (bind_params params); [|discriminate].
  destruct (autoincrement_full t' tb); [discriminate|].
  inversion H; subst; clear H.
  cbn [working]. unfold row_count, table_rows. cbn [set_table tables].
  rewrite Hne. lia.
Qed.

Lemma adds_rows_insert_same {rt : PyRuntime} (t : relname) (params : list json) :
  primary_key t = None -> adds_rows t 1 (execute_insert t params).
Proof.
  intros Hkey c a c' H. unfold execute_insert in H.
  destruct (tables (working c) t) as [tb|] eqn:E; [|discriminate].
  destruct (bind_params params) as [vals|]; [|discriminate].
  destruct (autoincrement_full t tb); [discriminate|].
  inversion H; subst; clear H.
  cbn [working]. unfold row_count, table_rows. cbn [set_table tables].
  rewrite relname_eqb_refl, E, insert_without_key_appends by exact Hkey. lia.
Qed.

Section Growth.
Context {rt : PyRuntime}.

Ltac no_rows :=
  repeat first
    [ apply adds_rows_ret
    | apply adds_rows_lift
    | apply adds_rows_create_table
    | apply adds_rows_create_view
    | apply adds_rows_insert_other; reflexivity
    | apply adds_rows_for0; intros ?
    | apply adds_rows_bind0; [|intros ?]
    | progress unfold get, item
    | match goal with
      | |- adds_rows _ _ (if ?b then _ else _) => destruct b
      | |- adds_rows _ _ (match ?v with _ => _ end) => destruct v
      end ].

Lemma create_ui_tables_no_measure (ui : result json) :
  adds_rows powerbi_dax_measures 0 (create_ui_tables ui).
Proof.
  unfold create_ui_tables, insert_page, insert_visual, insert_custom_visual. no_rows.
Qed.

Lemma insert_measure_adds (measure : json) :
  adds_rows powerbi_dax_measures 1 (insert_measure measure).
Proof.
  unfold insert_measure, get.
  repeat (apply (adds_rows_bind powerbi_dax_measures 0 1);
          [apply adds_rows_lift|intros ?]).
  now apply adds_rows_insert_same.
Qed.

Lemma adds_rows_known {A B} (t : relname) (n : nat) (a : A) (k : A -> SE conn B) :
  adds_rows t n (k a) -> adds_rows t n (se_bind (se_lift (Ok a)) k).
Proof. intros H c b c' Hrun. exact (H c b c' Hrun). Qed.

Lemma create_metadata_tables_adds (dm : list (text * json)) (measures : list json) :
  assoc (lit "measures") dm = Some (JArr measures) ->
  adds_rows powerbi_dax_measures (length measures)
    (create_metadata_tables (Ok (JObj dm))).
Proof.
  intros Hm. unfold create_metadata_tables.
  apply adds_rows_known.
  replace (length measures) with (0 + (length measures * 1 + 0))%nat by lia.
  apply adds_rows_bind; [apply adds_rows_create_table|intros _].
  unfold get at 1. cbn [dict_get]. rewrite Hm.
  apply adds_rows_known. cbn [py_iter]. apply adds_rows_known.
  apply adds_rows_bind.
  - apply adds_rows_for. intros measure. apply insert_measure_adds.
  - intros _. unfold insert_calculated_column, insert_relationship, insert_power_query.
    no_rows.
Qed.

Lemma commit_no_rows (t : relname) : adds_rows t 0 commit.
Proof.
  intros c a c' H. unfold commit in H. inversion H; subst; clear H.
  unfold row_count, table_rows. cbn [working]. lia.
Qed.

Lemma setup_try_adds (ui : result json) (dm : list (text * json)) (measures : list json) :
  assoc (lit "measures") dm = Some (JArr measures) ->
  adds_rows powerbi_dax_measures (length measures) (setup_try ui (Ok (JObj dm))).
Proof.
  intros Hm. unfold setup_try.
  replace (length measures) with (0 + (length measures + (0 + 0)))%nat by lia.
  apply adds_rows_bind; [apply create_ui_tables_no_measure|intros _].
  apply adds_rows_bind; [now apply create_metadata_tables_adds|intros _].
  apply adds_rows_bind; [unfold create_powerbi_views; no_rows|intros _].
  apply commit_no_rows.
Qed.

Lemma setup_try_commits (ui dm : result json) (c c' : conn) (a : unit) :
  setup_try ui dm c = (Ok a, c') -> committed c' = working c'.
Proof.
  unfold setup_try, se_bind.
  destruct (create_ui_tables ui c) as [[[]|] c1]; [|discriminate].
  destruct (create_metadata_tables dm c1) as [[[]|] c2]; [|discriminate].
  destruct (create_powerbi_views c2) as [[[]|] c3]; [|discriminate].
  unfold commit. intros H. inversion H; subst. reflexivity.
Qed.

(** Every projection that completes adds one row per measure of the data
    model to the measures table, whatever the table held: projecting the same
    model again adds the same rows again. *)
Lemma projection_appends_measures
      (db : store) (ui : result json) (dm : list (text * json)) (measures : list json) :
  assoc (lit "measures") dm = Some (JArr measures) ->
  snd (setup_powerbi_mcp_database db ui (Ok (JObj dm))) = SetupComplete ->
  row_count (committed (fst (setup_powerbi_mcp_database db ui (Ok (JObj dm)))))
            powerbi_dax_measures
  = (row_count db powerbi_dax_measures + length measures)%nat.
Proof.
  intros Hm. unfold setup_powerbi_mcp_database.
  destruct (setup_try ui (Ok (JObj dm)) (connect db)) as [[[]|e] c] eqn:Erun;
    [|discriminate].
  intros _. cbn [fst].
  rewrite (setup_try_commits _ _ _ _ _ Erun).
  exact (setup_try_adds ui dm measures Hm _ _ _ Erun).
Qed.

End Growth.

(** C1 fails on the four tables keyed by an AUTOINCREMENT id.  Projecting
    this model (one page, one visual, one custom visual, one measure, one
    calculated column, one relationship, one query) into a new store and then
    again into the result: both runs complete; the pages, visualizations and
    custom-visual tables hold the same single row after the second run as
    after the first; the measures, calculated-column, relationship and
    power-query tables hold one row after the first run and two after the
    second. *)
Theorem projection_twice_duplicates_metadata :
  snd first_run = SetupComplete /\
  snd second_run = SetupComplete /\
  map (table_rows (committed (fst second_run)))
      [powerbi_pages; powerbi_visualizations; powerbi_custom_visuals]
  = map (table_rows (committed (fst first_run)))
      [powerbi_pages; powerbi_visualizations; powerbi_custom_visuals] /\
  map (row_count (committed (fst first_run)))
      [powerbi_pages; powerbi_visualizations; powerbi_custom_visuals;
       powerbi_dax_measures; powerbi_calculated_columns; powerbi_relationships;
       powerbi_power_query]
  = [1; 1; 1; 1; 1; 1; 1]%nat /\
  map (row_count (committed (fst second_run)))
      [powerbi_pages; powerbi_visualizations; powerbi_custom_visuals;
       powerbi_dax_measures; powerbi_calculated_columns; powerbi_relationships;
       powerbi_power_query]
  = [1; 1; 1; 2; 2; 2; 2]%nat.
Proof. repeat split; vm_compute; reflexivity. Qed.

(** ** The statements of a projection do not depend on the store *)

Lemma run_ops_app (ops1 ops2 : list dbop) (c : conn) :
  run_ops (ops1 ++ ops2) c = run_ops ops2 (run_ops ops1 c).
Proof. unfold run_ops. apply fold_left_app. Qed.

Lemma apply_op_keeps_table (o : dbop) (c : conn) (t : relname) :
  tables (working c) t <> None -> tables (working (apply_op o c)) t <> None.
Proof.
  intros H. destruct o as [t'|v| |t' vals|]; cbn [apply_op execute_create_table
    execute_create_view commit snd working set_view tables]; try exact H.
  - unfold create_table. destruct (tables (working c) t') eqn:E; [exact H|].
    cbn [set_table tables]. destruct (relname_eqb t t'); [discriminate|exact H].
  - cbn [set_table tables]. destruct (relname_eqb t t'); [discriminate|exact H].
Qed.

Lemma run_ops_keeps_tables (ops : list dbop) (ts : list relname) :
  forall c, has_tables ts c -> has_tables ts (run_ops ops c).
Proof.
  induction ops as [|o ops IH]; intros c H; [exact H|].
  cbn [run_ops fold_left]. apply IH.
  intros t Ht. apply apply_op_keeps_table. now apply H.
Qed.

Lemma run_ops_until_full_app (ops1 ops2 : list dbop) (c : conn) :
  run_ops_until_full (ops1 ++ ops2) c
  = if snd (run_ops_until_full ops1 c) then run_ops_until_full ops1 c
    else run_ops_until_full ops2 (fst (run_ops_until_full ops1 c)).
Proof.
  revert c. induction ops1 as [|o ops1 IH]; intros c; cbn [app run_ops_until_full].
  - reflexivity.
  - destruct (op_refused o c); [reflexivity|apply IH].
Qed.

Lemma run_ops_until_full_done (ops : list dbop) (c : conn) :
  snd (run_ops_until_full ops c) = false ->
  fst (run_ops_until_full ops c) = run_ops ops c.
Proof.
  revert c. induction ops as [|o ops IH]; intros c; cbn [run_ops_until_full].
  - reflexivity.
  - destruct (op_refused o c); [discriminate|]. intros H. exact (IH _ H).
Qed.

Lemma oblivious_ret {A} (ts : list relname) (a : A) : oblivious ts (se_ret a) ts.
Proof. exists (Ok a), []. split; [reflexivity|]. intros c a' H _. exact H. Qed.

Lemma oblivious_lift {A} (ts : list relname) (r : result A) : oblivious ts (se_lift r) ts.
Proof. exists r, []. split; [reflexivity|]. intros c a' H _. exact H. Qed.

Lemma oblivious_create_table (ts : list relname) (t : relname) :
  oblivious ts (execute_create_table t) (t :: ts).
Proof.
  exists (Ok tt), [OpCreateTable t]. split; [reflexivity|].
  intros c a H _ t' [<-|Hin].
  - cbn [run_ops fold_left apply_op execute_create_table snd working].
    unfold create_table. destruct (tables (working c) t) eqn:E.
    + now rewrite E.
    + cbn [set_table tables]. rewrite relname_eqb_refl. discriminate.
  - apply (run_ops_keeps_tables [OpCreateTable t] ts c H t' Hin).
Qed.

Lemma oblivious_create_view (ts : list relname) (v : viewname) :
  oblivious ts (execute_create_view v) ts.
Proof.
  exists (Ok tt), [OpCreateView v]. split; [reflexivity|].
  intros c a H _. now apply run_ops_keeps_tables.
Qed.

Lemma oblivious_commit (ts : list relname) : oblivious ts commit ts.
Proof.
  exists (Ok tt), [OpCommit]. split; [reflexivity|].
  intros c a H _. now apply run_ops_keeps_tables.
Qed.

Lemma oblivious_insert {rt : PyRuntime} (ts : list relname) (t : relname)
      (params : list json) :
  In t ts -> oblivious ts (execute_insert t params) ts.
Proof.
  intros Hin. destruct (bind_params params) as [vals|e] eqn:Eb.
  - exists (Ok tt), [OpInsert t (store_row (column_affinities t) vals)]. split.
    + intros c H. unfold execute_insert. rewrite Eb.
      specialize (H t Hin).
      cbn [run_ops_until_full op_refused apply_op]. unfold table_or_empty.
      destruct (tables (working c) t) as [tb|]; [|contradiction].
      destruct (autoincrement_full t tb); reflexivity.
    + intros c a H _. now apply run_ops_keeps_tables.
  - exists (Raise e), [OpBegin]. split.
    + intros c H. unfold execute_insert. rewrite Eb.
      specialize (H t Hin).
      destruct (tables (working c) t) as [tb|]; [reflexivity|contradiction].
    + intros c a H Habs. discriminate.
Qed.

Lemma oblivious_bind {A B} (ts ts' ts'' : list relname) (m : SE conn A) (k : A -> SE conn B) :
  oblivious ts m ts' -> (forall a, oblivious ts' (k a) ts'') ->
  oblivious ts (se_bind m k) ts''.
Proof.
  intros (r & ops & Hm & Hpost) Hk.
  destruct r as [a|e].
  - destruct (Hk a) as (r2 & ops2 & Hk1 & Hk2).
    exists r2, (ops ++ ops2). split.
    + intros c H. unfold se_bind. rewrite (Hm c H), run_ops_until_full_app.
      destruct (snd (run_ops_until_full ops c)) eqn:F; [rewrite F; reflexivity|].
      rewrite (run_ops_until_full_done _ _ F).
      apply Hk1. now apply (Hpost c a).
    + intros c b H Hr. rewrite run_ops_app. apply (Hk2 _ b); [|exact Hr].
      now apply (Hpost c a).
  - exists (Raise e), ops. split.
    + intros c H. unfold se_bind. rewrite (Hm c H).
      destruct (snd (run_ops_until_full ops c)); reflexivity.
    + intros c b H Habs. discriminate.
Qed.

Lemma oblivious_for {A} (ts : list relname) (xs : list A) (body : A -> SE conn unit) :
  (forall x, oblivious ts (body x) ts) -> oblivious ts (se_for xs body) ts.
Proof.
  intros Hb. induction xs as [|x xs IH]; cbn [se_for].
  - apply oblivious_ret.
  - eapply oblivious_bind; [apply Hb|intros _; exact IH].
Qed.

Section Obliviousness.
Context {rt : PyRuntime}.

Ltac obl :=
  repeat first
    [ apply oblivious_ret
    | apply oblivious_lift
    | apply oblivious_create_table
    | apply oblivious_create_view
    | apply oblivious_commit
    | apply oblivious_insert; cbn [In]; tauto
    | apply oblivious_for; intros ?
    | eapply oblivious_bind; [|intros ?]
    | progress unfold get, item
    | match goal with
      | |- oblivious _ (if ?b then _ else _) _ => destruct b
      | |- oblivious _ (match ?v with _ => _ end) _ => destruct v
      end ].

Lemma setup_try_oblivious (ui dm : result json) :
  oblivious [] (setup_try ui dm) (rev all_tables).
Proof.
  unfold setup_try, create_ui_tables, create_metadata_tables, create_powerbi_views,
    insert_page, insert_visual, insert_custom_visual, insert_measure,
    insert_calculated_column, insert_relationship, insert_power_query,
    all_tables, ui_tables, metadata_tables.
  cbn [rev app]. obl.
Qed.

(** The statements of a run: one list of statements for every store, and one
    result for every store that refuses none of them. *)
Lemma setup_try_trace (ui dm : result json) :
  exists (r : result unit) (ops : list dbop),
    (forall db,
        setup_try ui dm (connect db)
        = (if snd (run_ops_until_full ops (connect db))
           then Raise OperationalError else r,
           fst (run_ops_until_full ops (connect db)))) /\
    (forall db a, r = Ok a -> has_tables all_tables (run_ops ops (connect db))).
Proof.
  destruct (setup_try_oblivious ui dm) as (r & ops & Hrun & Hpost).
  exists r, ops. split.
  - intros db. apply Hrun. intros t [].
  - intros db a Hr t Ht. apply (Hpost (connect db) a); [intros t' []|exact Hr|].
    apply in_rev. exact Ht.
Qed.

(** A run that completes on [db] sent statements of which [db] refused
    none; the same files complete on every store that refuses none of them
    and fail with the refusal on the others. *)
Lemma completed_run_trace (db : store) (ui dm : result json) :
  snd (setup_powerbi_mcp_database db ui dm) = SetupComplete ->
  exists (a : unit) (ops : list dbop),
    snd (run_ops_until_full ops (connect db)) = false /\
    (forall db',
        setup_try ui dm (connect db')
        = (if snd (run_ops_until_full ops (connect db'))
           then Raise OperationalError else Ok a,
           fst (run_ops_until_full ops (connect db')))) /\
    (forall db', has_tables all_tables (run_ops ops (connect db'))).
Proof.
  intros Hdone.
  destruct (setup_try_trace ui dm) as (r & ops & Hrun & Hpost).
  unfold setup_powerbi_mcp_database in Hdone. rewrite (Hrun db) in Hdone.
  destruct (snd (run_ops_until_full ops (connect db))) eqn:F; [discriminate Hdone|].
  destruct r as [a|e]; [|discriminate Hdone].
  exists a, ops. split; [exact F|]. split; [exact Hrun|].
  intros db'. now apply (Hpost db' a).
Qed.

End Obliviousness.


(** ** What a list of statements does to one table *)

Lemma relname_eqb_sym (a b : relname) : relname_eqb a b = relname_eqb b a.
Proof. destruct a, b; reflexivity. Qed.

Lemma table_or_empty_create (s : store) (t t' : relname) :
  table_or_empty (create_table t' s) t = table_or_empty s t.
Proof.
  unfold create_table, table_or_empty.
  destruct (tables s t') eqn:E; [reflexivity|].
  cbn [set_table tables]. destruct (relname_eqb t t') eqn:Et; [|reflexivity].
  apply relname_eqb_eq in Et. subst. now rewrite E.
Qed.

Lemma run_ops_table (t : relname) (ops : list dbop) :
  forall c,
    table_or_empty (working (run_ops ops c)) t
    = fold_left (fun tb v => insert_or_replace t v tb) (inserted t ops)
                (table_or_empty (working c) t).
Proof.
  induction ops as [|o ops IH]; intros c; [reflexivity|].
  cbn [run_ops fold_left]. fold (run_ops ops (apply_op o c)). rewrite IH.
  destruct o as [t'|v| |t' vals|]; cbn [inserted apply_op execute_create_table
    execute_create_view commit snd working]; try reflexivity.
  - now rewrite table_or_empty_create.
  - unfold table_or_empty at 1. cbn [set_table tables].
    rewrite (relname_eqb_sym t t').
    destruct (relname_eqb t' t) eqn:Et.
    + apply relname_eqb_eq in Et. subst. reflexivity.
    + reflexivity.
Qed.

Lemma table_rows_or_empty (s : store) (t : relname) :
  table_rows s t = rows (table_or_empty s t).
Proof. unfold table_rows, table_or_empty. now destruct (tables s t). Qed.


(** *** Replace-on-conflict on a keyed table *)

Section ReplaceRows.
Variable cols : list nat.














End ReplaceRows.

(** ** A completed projection *)

Section Completed.
Context {rt : PyRuntime}.

Lemma setup_try_ends (ui dm : result json) (c c' : conn) (a : unit) :
  setup_try ui dm c = (Ok a, c') ->
  committed c' = working c' /\ in_txn c' = false /\
  (forall v, views (working c') v = true).
Proof.
  unfold setup_try, se_bind.
  destruct (create_ui_tables ui c) as [[[]|] c1]; [|discriminate].
  destruct (create_metadata_tables dm c1) as [[[]|] c2]; [|discriminate].
  unfold create_powerbi_views, se_bind, execute_create_view, commit.
  intros H. inversion H; subst; clear H. cbn [committed working in_txn].
  repeat split. intros v. destruct v; reflexivity.
Qed.

Lemma completed_run (db : store) (ui dm : result json) :
  snd (setup_powerbi_mcp_database db ui dm) = SetupComplete ->
  exists a, setup_try ui dm (connect db)
            = (Ok a, fst (setup_powerbi_mcp_database db ui dm)).
Proof.
  unfold setup_powerbi_mcp_database.
  destruct (setup_try ui dm (connect db)) as [[a|e] c]; [|discriminate].
  intros _. exists a. reflexivity.
Qed.

End Completed.

(** X2.  After every projection that completes, the seven tables and the three
    views of the script exist in the store, nothing is left pending (no open
    transaction, the working state is the committed one). *)
Theorem completed_projection_schema :
  forall (rt : PyRuntime) (db : store) (ui dm : result json),
    snd (setup_powerbi_mcp_database db ui dm) = SetupComplete ->
    (forall t, tables (committed (fst (setup_powerbi_mcp_database db ui dm))) t <> None) /\
    (forall v, views (committed (fst (setup_powerbi_mcp_database db ui dm))) v = true) /\
    in_txn (fst (setup_powerbi_mcp_database db ui dm)) = false /\
    working (fst (setup_powerbi_mcp_database db ui dm))
    = committed (fst (setup_powerbi_mcp_database db ui dm)).
Proof.
  intros rt db ui dm Hdone.
  destruct (completed_run db ui dm Hdone) as [a Hrun].
  destruct (completed_run_trace db ui dm Hdone) as (a' & ops & Hfit & Htrace & Htabs).
  remember (fst (setup_powerbi_mcp_database db ui dm)) as c' eqn:Ec'. clear Ec'.
  destruct (setup_try_ends _ _ _ _ _ Hrun) as (Hc & Ht & Hv).
  pose proof (Htrace db) as Hd. rewrite Hrun, Hfit in Hd.
  injection Hd as _ Hfinal.
  rewrite (run_ops_until_full_done _ _ Hfit) in Hfinal.
  rewrite Hc. repeat split; try assumption.
  intros t. rewrite Hfinal. apply (Htabs db).
  destruct t; cbn; tauto.
Qed.

Lemma completed_projection_schema_witness :
  tables (committed (fst first_run)) powerbi_power_query <> None /\
  views (committed (fst first_run)) powerbi_data_model_overview = true.
Proof.
  pose proof (completed_projection_schema ref_runtime empty_store
                (Ok sample_ui) (Ok sample_model) eq_refl) as H.
  exact (conj (proj1 H powerbi_power_query)
              (proj1 (proj2 H) powerbi_data_model_overview)).
Defined.

Section TwoRuns.
Context {rt : PyRuntime}.

(** The tables after a completed run, from the tables before and the
    statements of the run. *)
Lemma completed_run_table (db : store) (ui dm : result json) :
  snd (setup_powerbi_mcp_database db ui dm) = SetupComplete ->
  exists ops,
    snd (run_ops_until_full ops (connect db)) = false /\
    (forall db',
        snd (setup_powerbi_mcp_database db' ui dm)
        = if snd (run_ops_until_full ops (connect db'))
          then SetupError OperationalError else SetupComplete) /\
    (forall db' t,
        snd (setup_powerbi_mcp_database db' ui dm) = SetupComplete ->
        table_or_empty (committed (fst (setup_powerbi_mcp_database db' ui dm))) t
        = fold_left (fun tb v => insert_or_replace t v tb) (inserted t ops)
                    (table_or_empty db' t)).
Proof.
  intros Hdone.
  destruct (completed_run_trace db ui dm Hdone) as (a & ops & Hfit & Htrace & _).
  exists ops. split; [exact Hfit|]. split.
  - intros db'. unfold setup_powerbi_mcp_database. rewrite (Htrace db').
    destruct (snd (run_ops_until_full ops (connect db'))); reflexivity.
  - intros db' t. unfold setup_powerbi_mcp_database.
    pose proof (Htrace db') as Hrun.
    destruct (snd (run_ops_until_full ops (connect db'))) eqn:F.
    + rewrite Hrun. discriminate.
    + intros _.
      destruct (setup_try_ends _ _ _ _ _ Hrun) as (Hc & _ & _).
      rewrite Hrun. cbn [fst]. rewrite Hc, (run_ops_until_full_done _ _ F).
      apply run_ops_table.
Qed.


End TwoRuns.



(** ** The tables keyed by an AUTOINCREMENT id only grow *)

Lemma max_rowid_from (rs : list row) :
  forall m,
    m <= fold_left (fun m r => match r with SqlInt i :: _ => Z.max m i | _ => m end) rs m /\
    (forall r, In r rs ->
       row_id r <= fold_left (fun m r => match r with SqlInt i :: _ => Z.max m i | _ => m end)
                             rs (Z.max m 0)).
Proof.
  induction rs as [|r rs IH]; intros m.
  - split; [cbn; lia|intros r []].
  - cbn [fold_left]. split.
    + destruct (IH (match r with SqlInt i :: _ => Z.max m i | _ => m end)) as [H _].
      destruct r as [|[| i | |] r']; lia.
    + intros r0 [<-|Hin].
      * destruct (IH (match r with SqlInt i :: _ => Z.max (Z.max m 0) i
                               | _ => Z.max m 0 end)) as [H _].
        destruct r as [|[| i | |] r']; cbn [row_id] in *; lia.
      * destruct (IH (match r with SqlInt i :: _ => Z.max m i | _ => m end)) as [_ H].
        specialize (H r0 Hin).
        destruct r as [|[| i | |] r']; try exact H.
        -- replace (Z.max (Z.max m 0) i) with (Z.max (Z.max m i) 0) by lia. exact H.
Qed.

Lemma max_rowid_bounds (rs : list row) (r : row) :
  In r rs -> row_id r <= max_rowid rs.
Proof.
  intros H. unfold max_rowid.
  destruct (max_rowid_from rs 0) as [_ Hb]. exact (Hb r H).
Qed.

Lemma max_rowid_nonneg (rs : list row) : 0 <= max_rowid rs.
Proof. unfold max_rowid. now destruct (max_rowid_from rs 0) as [H _]. Qed.

Lemma max_rowid_last (rs : list row) (i : Z) (v : row) :
  max_rowid (rs ++ [SqlInt i :: v]) = Z.max (max_rowid rs) i.
Proof. unfold max_rowid. rewrite fold_left_app. reflexivity. Qed.

(** An INSERT into an AUTOINCREMENT table uses the next rowid. *)
Lemma used_rowid_insert (t : relname) (v : row) (tb : table) :
  primary_key t = None ->
  used_rowid (insert_or_replace t v tb) = used_rowid tb + 1.
Proof.
  intros Hk. unfold used_rowid, insert_or_replace. rewrite Hk.
  cbn [rows last_rowid]. rewrite max_rowid_last. lia.
Qed.

Lemma autoincrement_inserts_append (t : relname) (vs : list row) :
  primary_key t = None ->
  forall tb,
    inserts_fit t vs tb = true ->
    exists news,
      rows (fold_left (fun tb v => insert_or_replace t v tb) vs tb) = rows tb ++ news /\
      map (@tl sqlval) news = vs /\
      ids_fresh (rows tb) news /\
      Forall (fun r => row_id r <= 2 ^ 63 - 1) news.
Proof.
  intros Hk. induction vs as [|v vs IH]; intros tb Hfit.
  - exists []. cbn. rewrite app_nil_r. auto.
  - cbn [fold_left]. cbn [inserts_fit] in Hfit.
    apply andb_true_iff in Hfit. destruct Hfit as [Hroom Hfit].
    destruct (IH (insert_or_replace t v tb) Hfit) as (news & Hrows & Hvals & Hfresh & Hmax).
    assert (E : rows (insert_or_replace t v tb)
                = rows tb ++ [SqlInt (Z.max (last_rowid tb) (max_rowid (rows tb)) + 1) :: v]).
    { unfold insert_or_replace. rewrite Hk. reflexivity. }
    rewrite E in Hrows, Hfresh.
    exists ((SqlInt (Z.max (last_rowid tb) (max_rowid (rows tb)) + 1) :: v) :: news).
    split; [|split; [|split]].
    + rewrite Hrows, <- app_assoc. reflexivity.
    + cbn [map tl]. now rewrite Hvals.
    + cbn [ids_fresh]. split; [|exact Hfresh].
      intros old Hold. cbn [row_id].
      pose proof (max_rowid_bounds _ _ Hold). lia.
    + constructor; [|exact Hmax]. cbn [row_id].
      unfold autoincrement_full in Hroom. rewrite Hk in Hroom.
      apply negb_true_iff, Z.leb_gt in Hroom. lia.
Qed.

Lemma inserts_fit_keyed (t : relname) (cols : list nat) (vs : list row) :
  primary_key t = Some cols -> forall tb, inserts_fit t vs tb = true.
Proof.
  intros Hk. induction vs as [|v vs IH]; intros tb; [reflexivity|].
  cbn [inserts_fit]. unfold autoincrement_full. rewrite Hk. cbn [negb andb].
  apply IH.
Qed.

(** What fits a table fits a table that has used fewer rowids. *)
Lemma inserts_fit_monotone (t : relname) (vs : list row) :
  primary_key t = None ->
  forall tb1 tb2,
    used_rowid tb1 <= used_rowid tb2 ->
    inserts_fit t vs tb2 = true -> inserts_fit t vs tb1 = true.
Proof.
  intros Hk. induction vs as [|v vs IH]; intros tb1 tb2 Hle Hfit; [reflexivity|].
  cbn [inserts_fit] in *.
  apply andb_true_iff in Hfit. destruct Hfit as [Hroom Hfit].
  apply andb_true_iff. split.
  - unfold autoincrement_full, used_rowid in *. rewrite Hk in *.
    apply negb_true_iff, Z.leb_gt in Hroom.
    apply negb_true_iff, Z.leb_gt. lia.
  - apply (IH _ (insert_or_replace t v tb2)); [|exact Hfit].
    rewrite !used_rowid_insert by exact Hk. lia.
Qed.

Lemma apply_op_table (t : relname) (o : dbop) (c : conn) :
  table_or_empty (working (apply_op o c)) t
  = match o with
    | OpInsert t' vals =>
        if relname_eqb t' t
        then insert_or_replace t vals (table_or_empty (working c) t)
        else table_or_empty (working c) t
    | _ => table_or_empty (working c) t
    end.
Proof.
  destruct o as [t'|v| |t' vals|]; cbn [apply_op execute_create_table
    execute_create_view commit snd working]; try reflexivity.
  - apply table_or_empty_create.
  - unfold table_or_empty at 1. cbn [set_table tables].
    rewrite (relname_eqb_sym t t').
    destruct (relname_eqb t' t) eqn:Et; [|reflexivity].
    apply relname_eqb_eq in Et. subst. reflexivity.
Qed.

(** A store refuses none of the statements exactly when, table by table,
    the rows inserted fit. *)
Lemma run_fits (t : relname) (ops : list dbop) :
  forall c,
    snd (run_ops_until_full ops c) = false ->
    inserts_fit t (inserted t ops) (table_or_empty (working c) t) = true.
Proof.
  induction ops as [|o ops IH]; intros c H; [reflexivity|].
  cbn [run_ops_until_full] in H.
  destruct (op_refused o c) eqn:Er; [discriminate H|].
  specialize (IH _ H). rewrite apply_op_table in IH.
  destruct o as [t'|v| |t' vals|]; cbn [inserted]; try exact IH.
  destruct (relname_eqb t' t) eqn:Et; [|exact IH].
  apply relname_eqb_eq in Et. subst t'.
  cbn [inserts_fit op_refused] in *. rewrite Er. exact IH.
Qed.

Lemma fits_run (ops : list dbop) :
  forall c,
    (forall t, inserts_fit t (inserted t ops) (table_or_empty (working c) t) = true) ->
    snd (run_ops_until_full ops c) = false.
Proof.
  induction ops as [|o ops IH]; intros c H; [reflexivity|].
  cbn [run_ops_until_full].
  assert (Er : op_refused o c = false).
  { destruct o as [t'|v| |t' vals|]; try reflexivity.
    specialize (H t'). cbn [inserted inserts_fit op_refused] in *.
    rewrite relname_eqb_refl in H. cbn [inserts_fit] in H.
    apply andb_true_iff in H. destruct H as [H _].
    now apply negb_true_iff in H. }
  rewrite Er. apply IH. intros t. specialize (H t). rewrite apply_op_table.
  destruct o as [t'|v| |t' vals|]; cbn [inserted] in H; try exact H.
  destruct (relname_eqb t' t) eqn:Et; [|exact H].
  apply relname_eqb_eq in Et. subst t'.
  cbn [inserts_fit] in H. apply andb_true_iff in H. tauto.
Qed.

Section NewStore.
Context {rt : PyRuntime}.

(** Files that a store takes, a new store takes as well. *)
Lemma completes_on_new_store (db : store) (ui dm : result json) :
  snd (setup_powerbi_mcp_database db ui dm) = SetupComplete ->
  snd (setup_powerbi_mcp_database empty_store ui dm) = SetupComplete.
Proof.
  intros Hdone.
  destruct (completed_run_trace db ui dm Hdone) as (a & ops & Hfit & Htrace & _).
  unfold setup_powerbi_mcp_database. rewrite (Htrace empty_store).
  rewrite fits_run; [reflexivity|].
  intros t. destruct (primary_key t) as [cols|] eqn:Hk.
  - exact (inserts_fit_keyed t cols _ Hk _).
  - apply (inserts_fit_monotone t _ Hk _ (table_or_empty (working (connect db)) t)).
    + unfold used_rowid at 1. cbn.
      unfold used_rowid. pose proof (max_rowid_nonneg (rows (table_or_empty db t))). lia.
    + exact (run_fits t ops _ Hfit).
Qed.

End NewStore.

(** X4.  The measures, calculated-columns, relationships and power-query
    tables only grow.  Files that project into a store also project into a
    new, empty store; and after every completed run each of the four tables
    holds the rows it held before, in place, followed by the rows of this
    run: apart from their ids, exactly the rows the same files leave in a new
    store, each with an id above all ids before it and not above 2^63-1. *)
Theorem metadata_tables_append_only :
  forall (rt : PyRuntime) (db : store) (ui dm : result json),
    snd (setup_powerbi_mcp_database db ui dm) = SetupComplete ->
    snd (setup_powerbi_mcp_database empty_store ui dm) = SetupComplete /\
    forall t, In t metadata_tables ->
      exists news,
        table_rows (committed (fst (setup_powerbi_mcp_database db ui dm))) t
        = table_rows db t ++ news /\
        map (@tl sqlval) news
        = map (@tl sqlval)
            (table_rows (committed (fst (setup_powerbi_mcp_database empty_store ui dm))) t) /\
        ids_fresh (table_rows db t) news /\
        Forall (fun r => row_id r <= 2 ^ 63 - 1) news.
Proof.
  intros rt db ui dm Hdone.
  pose proof (completes_on_new_store db ui dm Hdone) as Hnew.
  split; [exact Hnew|].
  intros t Ht.
  destruct (completed_run_table db ui dm Hdone) as (ops & Hfit & Hall & Htab).
  assert (Hk : primary_key t = None).
  { destruct Ht as [<-|[<-|[<-|[<-|[]]]]]; reflexivity. }
  assert (Hfit0 : snd (run_ops_until_full ops (connect empty_store)) = false).
  { pose proof (Hall empty_store) as H0. rewrite Hnew in H0.
    destruct (snd (run_ops_until_full ops (connect empty_store)));
      [discriminate H0|reflexivity]. }
  rewrite !table_rows_or_empty, (Htab db t Hdone), (Htab empty_store t Hnew).
  destruct (autoincrement_inserts_append t (inserted t ops) Hk (table_or_empty db t)
              (run_fits t ops _ Hfit))
    as (news & Hrows & Hvals & Hfresh & Hmax).
  destruct (autoincrement_inserts_append t (inserted t ops) Hk
              (table_or_empty empty_store t) (run_fits t ops _ Hfit0))
    as (news0 & Hrows0 & Hvals0 & _ & _).
  exists news. split; [exact Hrows|]. split; [|split; assumption].
  rewrite Hrows0, Hvals. cbn [table_or_empty empty_store tables rows empty_table app].
  now symmetry.
Qed.

Lemma metadata_tables_append_only_witness :
  exists news,
    table_rows (committed (fst second_run)) powerbi_dax_measures
    = table_rows (committed (fst first_run)) powerbi_dax_measures ++ news /\
    map (@tl sqlval) news
    = map (@tl sqlval) (table_rows (committed (fst first_run)) powerbi_dax_measures) /\
    ids_fresh (table_rows (committed (fst first_run)) powerbi_dax_measures) news /\
    Forall (fun r => row_id r <= 2 ^ 63 - 1) news.
Proof.
  refine (proj2 (metadata_tables_append_only ref_runtime (committed (fst first_run))
                   (Ok sample_ui) (Ok sample_model) _) powerbi_dax_measures _).
  - vm_compute. reflexivity.
  - cbn [metadata_tables In]. tauto.
Defined.

(** ** More on the decoding cascade *)

Lemma utf16le_decode_even_bounded (n : nat) :
  forall bs t, (length bs <= n)%nat ->
    utf16le_decode bs = Some t -> Nat.even (length bs) = true.
Proof.
  induction n as [|n IH]; intros bs t Hlen H.
  - destruct bs; [reflexivity|cbn in Hlen; lia].
  - destruct bs as [|lo [|hi rest]]; [reflexivity|discriminate|].
    cbn [length] in Hlen. cbn [length Nat.even]. cbn [utf16le_decode] in H.
    destruct (is_high_surrogate (unit16 lo hi)).
    + destruct rest as [|lo2 [|hi2 rest']]; try discriminate.
      destruct (is_low_surrogate (unit16 lo2 hi2)); [|discriminate].
      destruct (utf16le_decode rest') as [t'|] eqn:E; [|discriminate].
      cbn [length] in Hlen. cbn [length Nat.even].
      apply (IH rest' t'); [lia|exact E].
    + destruct (is_low_surrogate (unit16 lo hi)); [discriminate|].
      destruct (utf16le_decode rest) as [t'|] eqn:E; [|discriminate].
      apply (IH rest t'); [lia|exact E].
Qed.

Lemma utf16le_decode_odd (bs : bytes) :
  Nat.odd (length bs) = true -> utf16le_decode bs = None.
Proof.
  intros Hodd. destruct (utf16le_decode bs) as [t|] eqn:E; [|reflexivity].
  pose proof (utf16le_decode_even_bounded (length bs) bs t (Nat.le_refl _) E) as He.
  rewrite <- Nat.negb_odd, Hodd in He. discriminate.
Qed.

(** X5.  A payload with an odd number of bytes is never read as UTF-16LE:
    the cascade answers with its strict UTF-8 decoding when it has one and
    with the lossy UTF-8 decoding otherwise, for the layout reader and the
    text reader alike. *)
Theorem odd_payload_skips_utf16 :
  forall content : bytes,
    Nat.odd (length content) = true ->
    utf16le_decode content = None /\
    decode_cascade content
    = match utf8_decode content with
      | Some t => t
      | None => utf8_decode_ignore content
      end /\
    _extract_text_file (Ok content)
    = Some (match utf8_decode content with
            | Some t => t
            | None => utf8_decode_ignore content
            end).
Proof.
  intros content Hodd.
  pose proof (utf16le_decode_odd content Hodd) as H.
  unfold _extract_text_file, decode_cascade. rewrite H. repeat split.
Qed.

Lemma odd_payload_skips_utf16_witness :
  decode_cascade [0xE2; 0x82; 0xAC] = [0x20AC].
Proof.
  exact (proj1 (proj2 (odd_payload_skips_utf16 [0xE2; 0x82; 0xAC] eq_refl))).
Defined.

Lemma unit16_ascii (lo hi : Z) :
  is_ascii lo = true -> is_ascii hi = true ->
  is_high_surrogate (unit16 lo hi) = false /\ is_low_surrogate (unit16 lo hi) = false.
Proof.
  unfold is_ascii. intros Hlo Hhi.
  apply andb_true_iff in Hlo as [Hlo0 Hlo1]. apply andb_true_iff in Hhi as [Hhi0 Hhi1].
  apply Z.leb_le in Hlo0, Hhi0. apply Z.ltb_lt in Hlo1, Hhi1.
  assert (Hu : unit16 lo hi < 0xD800).
  { unfold unit16.
    pose proof (Z.add_lor_land lo (Z.shiftl hi 8)) as Hadd.
    assert (0 <= Z.land lo (Z.shiftl hi 8)).
    { apply Z.land_nonneg. now left. }
    rewrite Z.shiftl_mul_pow2 in * by lia. change (2 ^ 8) with 256 in *. lia. }
  unfold is_high_surrogate, is_low_surrogate.
  split; apply andb_false_iff; left; apply Z.leb_gt; lia.
Qed.

Lemma utf16le_decode_ascii (bs : bytes) :
  forall n, (length bs <= n)%nat ->
  Nat.even (length bs) = true -> forallb is_ascii bs = true ->
  utf16le_decode bs = Some (pair_up bs).
Proof.
  intros n. revert bs. induction n as [|n IH]; intros bs Hlen Heven Hascii.
  - destruct bs; [reflexivity|cbn in Hlen; lia].
  - destruct bs as [|lo [|hi rest]]; [reflexivity|discriminate|].
    cbn [length] in Hlen. cbn [length Nat.even] in Heven.
    cbn [forallb] in Hascii.
    apply andb_true_iff in Hascii as [Hlo Hrest].
    apply andb_true_iff in Hrest as [Hhi Hrest].
    destruct (unit16_ascii lo hi Hlo Hhi) as [Hh Hl].
    rewrite (utf16le_decode_unit lo hi rest Hh Hl).
    rewrite (IH rest) by (try lia; assumption). reflexivity.
Qed.

Lemma pair_up_length (bs : bytes) :
  forall n, (length bs <= n)%nat -> length (pair_up bs) = Nat.div2 (length bs).
Proof.
  intros n. revert bs. induction n as [|n IH]; intros bs Hlen.
  - destruct bs; [reflexivity|cbn in Hlen; lia].
  - destruct bs as [|lo [|hi rest]]; [reflexivity|reflexivity|].
    cbn [length] in Hlen. cbn [pair_up length Nat.div2]. rewrite IH by lia. reflexivity.
Qed.

Lemma utf8_strict_ascii (bs : bytes) :
  forallb is_ascii bs = true -> utf8_strict_loop (length bs) bs = Some bs.
Proof.
  induction bs as [|b bs IH]; intros H; [reflexivity|].
  cbn [forallb] in H. apply andb_true_iff in H as [Hb Hbs].
  unfold is_ascii in Hb. apply andb_true_iff in Hb as [_ Hb].
  cbn [length utf8_strict_loop utf8_step]. rewrite Hb, (IH Hbs). reflexivity.
Qed.

(** X6.  An ASCII payload with an even number of bytes never reaches the
    UTF-8 step: UTF-16LE accepts it and makes one character of every two
    bytes, so the cascade returns half as many characters as the text has,
    although strict UTF-8 would have returned the text itself. *)
Theorem even_ascii_read_as_utf16 :
  forall content : bytes,
    Nat.even (length content) = true ->
    forallb is_ascii content = true ->
    decode_cascade content = pair_up content /\
    length (decode_cascade content) = Nat.div2 (length content) /\
    utf8_decode content = Some content /\
    (content <> [] -> decode_cascade content <> content).
Proof.
  intros content Heven Hascii.
  assert (H16 : utf16le_decode content = Some (pair_up content))
    by (apply (utf16le_decode_ascii content (length content)); auto).
  assert (Hc : decode_cascade content = pair_up content)
    by (unfold decode_cascade; now rewrite H16).
  assert (Hl : length (pair_up content) = Nat.div2 (length content))
    by (apply (pair_up_length content (length content)); auto).
  rewrite Hc. repeat split; try assumption.
  - unfold utf8_decode. now apply utf8_strict_ascii.
  - intros Hne Heq. rewrite Heq in Hl.
    destruct content as [|a [|b rest]]; [contradiction|discriminate|].
    cbn [length Nat.div2] in Hl.
    pose proof (Nat.div2_odd (length rest)) as Hd.
    destruct (Nat.odd (length rest)); cbn [Nat.b2n] in Hd; lia.
Qed.

Lemma even_ascii_read_as_utf16_witness :
  decode_cascade (lit "{}") = [0x7D7B].
Proof.
  exact (proj1 (even_ascii_read_as_utf16 (lit "{}") eq_refl eq_refl)).
Defined.

(** *** UTF-8: decoding undoes encoding *)

Lemma range_check (n : nat) (f : Z -> bool) :
  forallb f (map Z.of_nat (seq 0 n)) = true ->
  forall z, 0 <= z < Z.of_nat n -> f z = true.
Proof.
  intros H z Hz. rewrite forallb_forall in H. apply H.
  replace z with (Z.of_nat (Z.to_nat z)) by lia.
  apply in_map, in_seq. lia.
Qed.

Lemma cont_byte (r : Z) :
  0 <= r < 64 -> is_cont (0x80 + r) = true /\ Z.land (0x80 + r) 0x3F = r.
Proof.
  intros Hr.
  pose proof (range_check 64
                (fun r => is_cont (0x80 + r) && (Z.land (0x80 + r) 0x3F =? r))
                ltac:(vm_compute; reflexivity) r Hr) as H.
  cbv beta in H. apply andb_true_iff in H as [H1 H2].
  apply Z.eqb_eq in H2. now split.
Qed.

Lemma lead_byte (r : Z) :
  0 <= r < 32 ->
  Z.land (0xC0 + r) 0x1F = r /\
  (r < 16 -> Z.land (0xE0 + r) 0x0F = r) /\
  (r < 8 -> Z.land (0xF0 + r) 0x07 = r).
Proof.
  intros Hr.
  pose proof (range_check 32
                (fun r => (Z.land (0xC0 + r) 0x1F =? r) &&
                          ((16 <=? r) || (Z.land (0xE0 + r) 0x0F =? r)) &&
                          ((8 <=? r) || (Z.land (0xF0 + r) 0x07 =? r)))
                ltac:(vm_compute; reflexivity) r Hr) as H.
  cbv beta in H. apply andb_true_iff in H as [H H3].
  apply andb_true_iff in H as [H1 H2].
  apply Z.eqb_eq in H1. split; [exact H1|]. split; intros Hlt.
  - apply orb_true_iff in H2 as [H2|H2]; [apply Z.leb_le in H2; lia|now apply Z.eqb_eq].
  - apply orb_true_iff in H3 as [H3|H3]; [apply Z.leb_le in H3; lia|now apply Z.eqb_eq].
Qed.

Lemma lor_shift_add (hi lo n : Z) :
  0 <= n -> 0 <= lo < 2 ^ n -> Z.lor (Z.shiftl hi n) lo = hi * 2 ^ n + lo.
Proof.
  intros Hn Hlo.
  pose proof (Z.add_lor_land (Z.shiftl hi n) lo) as Hadd.
  assert (Hz : Z.land (Z.shiftl hi n) lo = 0).
  { replace lo with (Z.land (Z.ones n) lo) at 1
      by (rewrite Z.land_comm, Z.land_ones by lia; apply Z.mod_small; lia).
    rewrite Z.land_assoc, Z.land_ones by lia.
    rewrite Z.shiftl_mul_pow2 by lia.
    rewrite Z.mod_mul by lia. apply Z.land_0_l. }
  rewrite Z.shiftl_mul_pow2 in * by lia. lia.
Qed.

Lemma land_63 (x : Z) : Z.land x 0x3F = x mod 64.
Proof. change 0x3F with (Z.ones 6). now rewrite Z.land_ones by lia. Qed.

Lemma utf8_step_encode (c : Z) (rest : bytes) :
  is_scalar c = true -> utf8_step (utf8_encode_char c ++ rest) = U8Char c rest.
Proof.
  unfold is_scalar. intros Hs.
  apply andb_true_iff in Hs as [Hr Hns]. apply andb_true_iff in Hr as [H0 H1].
  apply Z.leb_le in H0. apply Z.ltb_lt in H1. apply negb_true_iff in Hns.
  assert (Hsur : c < 0xD800 \/ 0xDFFF < c).
  { apply andb_false_iff in Hns as [H|H]; apply Z.leb_gt in H; lia. }
  clear Hns.
  unfold utf8_encode_char.
  rewrite !land_63, !Z.shiftr_div_pow2 by lia.
  change (2 ^ 6) with 64. change (2 ^ 12) with 4096. change (2 ^ 18) with 262144.
  destruct (c <? 0x80) eqn:E1.
  { cbn [app utf8_step]. now rewrite E1. }
  apply Z.ltb_ge in E1.
  destruct (c <? 0x800) eqn:E2.
  { apply Z.ltb_lt in E2. cbn [app]. unfold utf8_step.
    assert (Hq : 2 <= c / 64 < 32) by (Z.div_mod_to_equations; lia).
    assert (Hm : 0 <= c mod 64 < 64) by (apply Z.mod_pos_bound; lia).
    replace (0xC0 + c / 64 <? 0x80) with false by (symmetry; apply Z.ltb_ge; lia).
    replace (0xC0 + c / 64 <? 0xC2) with false by (symmetry; apply Z.ltb_ge; lia).
    replace (0xC0 + c / 64 <? 0xE0) with true by (symmetry; apply Z.ltb_lt; lia).
    destruct (cont_byte (c mod 64) Hm) as [Hc Hl]. rewrite Hc, Hl.
    destruct (lead_byte (c / 64)) as [Hlead _]; [lia|]. rewrite Hlead.
    rewrite lor_shift_add by (change (2 ^ 6) with 64; lia).
    change (2 ^ 6) with 64. f_equal. Z.div_mod_to_equations; lia. }
  apply Z.ltb_ge in E2.
  destruct (c <? 0x10000) eqn:E3.
  { apply Z.ltb_lt in E3. cbn [app]. unfold utf8_step.
    assert (Hq : 0 <= c / 4096 < 16) by (Z.div_mod_to_equations; lia).
    assert (Hm2 : 0 <= (c / 64) mod 64 < 64) by (apply Z.mod_pos_bound; lia).
    assert (Hm : 0 <= c mod 64 < 64) by (apply Z.mod_pos_bound; lia).
    replace (0xE0 + c / 4096 <? 0x80) with false by (symmetry; apply Z.ltb_ge; lia).
    replace (0xE0 + c / 4096 <? 0xC2) with false by (symmetry; apply Z.ltb_ge; lia).
    replace (0xE0 + c / 4096 <? 0xE0) with false by (symmetry; apply Z.ltb_ge; lia).
    replace (0xE0 + c / 4096 <? 0xF0) with true by (symmetry; apply Z.ltb_lt; lia).
    destruct (cont_byte ((c / 64) mod 64) Hm2) as [Hc2 Hl2].
    destruct (cont_byte (c mod 64) Hm) as [Hc3 Hl3].
    rewrite Hc2, Hc3, Hl2, Hl3. cbn [negb orb].
    assert (Hspecial : (if 0x80 + (c / 64) mod 64 <? 0xA0
                        then 0xE0 + c / 4096 =? 0xE0
                        else 0xE0 + c / 4096 =? 0xED) = false).
    { destruct (0x80 + (c / 64) mod 64 <? 0xA0) eqn:E;
        [apply Z.ltb_lt in E | apply Z.ltb_ge in E];
        apply Z.eqb_neq; Z.div_mod_to_equations; lia. }
    rewrite Hspecial.
    destruct (lead_byte (c / 4096)) as (_ & Hlead & _); [lia|]. rewrite Hlead by lia.
    rewrite (lor_shift_add ((c / 64) mod 64) (c mod 64) 6)
      by (change (2 ^ 6) with 64; lia).
    rewrite lor_shift_add by (change (2 ^ 6) with 64; change (2 ^ 12) with 4096; lia).
    change (2 ^ 6) with 64. change (2 ^ 12) with 4096.
    f_equal. Z.div_mod_to_equations; lia. }
  apply Z.ltb_ge in E3.
  cbn [app]. unfold utf8_step.
  assert (Hq : 0 <= c / 262144 < 5) by (Z.div_mod_to_equations; lia).
  assert (Hm3 : 0 <= (c / 4096) mod 64 < 64) by (apply Z.mod_pos_bound; lia).
  assert (Hm2 : 0 <= (c / 64) mod 64 < 64) by (apply Z.mod_pos_bound; lia).
  assert (Hm : 0 <= c mod 64 < 64) by (apply Z.mod_pos_bound; lia).
  replace (0xF0 + c / 262144 <? 0x80) with false by (symmetry; apply Z.ltb_ge; lia).
  replace (0xF0 + c / 262144 <? 0xC2) with false by (symmetry; apply Z.ltb_ge; lia).
  replace (0xF0 + c / 262144 <? 0xE0) with false by (symmetry; apply Z.ltb_ge; lia).
  replace (0xF0 + c / 262144 <? 0xF0) with false by (symmetry; apply Z.ltb_ge; lia).
  replace (0xF0 + c / 262144 <? 0xF5) with true by (symmetry; apply Z.ltb_lt; lia).
  destruct (cont_byte ((c / 4096) mod 64) Hm3) as [Hc2 Hl2].
  destruct (cont_byte ((c / 64) mod 64) Hm2) as [Hc3 Hl3].
  destruct (cont_byte (c mod 64) Hm) as [Hc4 Hl4].
  rewrite Hc2, Hc3, Hc4, Hl2, Hl3, Hl4. cbn [negb orb].
  assert (Hspecial : (if 0x80 + (c / 4096) mod 64 <? 0x90
                      then 0xF0 + c / 262144 =? 0xF0
                      else 0xF0 + c / 262144 =? 0xF4) = false).
  { destruct (0x80 + (c / 4096) mod 64 <? 0x90) eqn:E;
      [apply Z.ltb_lt in E | apply Z.ltb_ge in E];
      apply Z.eqb_neq; Z.div_mod_to_equations; lia. }
  rewrite Hspecial.
  destruct (lead_byte (c / 262144)) as (_ & _ & Hlead); [lia|]. rewrite Hlead by lia.
  rewrite (lor_shift_add ((c / 64) mod 64) (c mod 64) 6)
    by (change (2 ^ 6) with 64; lia).
  rewrite (lor_shift_add ((c / 4096) mod 64) _ 12)
    by (change (2 ^ 6) with 64; change (2 ^ 12) with 4096; lia).
  rewrite lor_shift_add
    by (change (2 ^ 6) with 64; change (2 ^ 12) with 4096;
        change (2 ^ 18) with 262144; lia).
  change (2 ^ 6) with 64. change (2 ^ 12) with 4096. change (2 ^ 18) with 262144.
  f_equal. Z.div_mod_to_equations; lia.
Qed.

Lemma utf8_encode_char_nonempty (c : Z) : utf8_encode_char c <> [].
Proof.
  unfold utf8_encode_char.
  destruct (c <? 0x80), (c <? 0x800), (c <? 0x10000); discriminate.
Qed.

Lemma utf8_roundtrip (t : text) :
  forallb is_scalar t = true -> utf8_decode (utf8_encode t) = Some t.
Proof.
  unfold utf8_decode.
  induction t as [|c t IH]; intros Hs; [reflexivity|].
  cbn [forallb] in Hs. apply andb_true_iff in Hs as [Hc Ht].
  unfold utf8_encode. cbn [flat_map]. fold (utf8_encode t).
  pose proof (utf8_step_encode c (utf8_encode t) Hc) as Hstep.
  pose proof (utf8_step_shrinks _ _ _ Hstep) as Hlen.
  destruct (utf8_encode_char c ++ utf8_encode t) as [|b bs] eqn:E.
  { apply app_eq_nil in E as [E _]. now apply utf8_encode_char_nonempty in E. }
  cbn [length utf8_strict_loop]. rewrite Hstep.
  cbn [length] in Hlen.
  rewrite utf8_strict_loop_fuel by lia.
  rewrite (IH Ht). reflexivity.
Qed.

(** X7.  A text of Unicode scalar values whose UTF-8 encoding has an odd
    number of bytes comes back from the cascade, and from the text reader,
    exactly as it was encoded. *)
Theorem odd_utf8_payload_roundtrip :
  forall t : text,
    forallb is_scalar t = true ->
    Nat.odd (length (utf8_encode t)) = true ->
    decode_cascade (utf8_encode t) = t /\
    _extract_text_file (Ok (utf8_encode t)) = Some t.
Proof.
  intros t Hs Hodd.
  assert (H : decode_cascade (utf8_encode t) = t).
  { unfold decode_cascade.
    now rewrite (utf16le_decode_odd _ Hodd), (utf8_roundtrip t Hs). }
  unfold _extract_text_file. now rewrite H.
Qed.

Lemma odd_utf8_payload_roundtrip_witness :
  decode_cascade (utf8_encode [0x7B; 0x20AC; 0x1F600; 0xE9; 0x7D])
  = [0x7B; 0x20AC; 0x1F600; 0xE9; 0x7D].
Proof.
  exact (proj1 (odd_utf8_payload_roundtrip [0x7B; 0x20AC; 0x1F600; 0xE9; 0x7D]
                  eq_refl eq_refl)).
Defined.

(** ** What the resolver can answer *)

(** X8.  On pages of the expected shape and a visual with a string path, the
    resolver never raises and never invents a page: its answer is the name
    of a page of the list, or Unknown, and Unknown only when the list is
    empty. *)
Theorem resolver_names_a_listed_page :
  forall (rt : PyRuntime) (m : list (text * json)) (pages : list json) (path : text),
    forallb well_formed_page pages = true ->
    dict_get (JObj m) (lit "path") (JStr []) = Ok (JStr path) ->
    exists name,
      extract_page_from_visual (JObj m) pages = Ok name /\
      ((pages = [] /\ name = JStr (lit "Unknown")) \/
       (exists page, In page pages /\ name = page_name page)).
Proof.
  intros rt m pages path Hwf Hpath.
  unfold extract_page_from_visual. cbn [dict_get bind].
  rewrite (scan_pages_well_formed _ _ Hwf). cbn [bind].
  destruct (find _ pages) as [page|] eqn:Efind; cbn [option_map].
  { exists (page_name page). split; [reflexivity|]. right.
    exists page. split; [|reflexivity]. now apply find_some in Efind. }
  rewrite (resolve_fallback_well_formed m pages path Hwf Hpath).
  assert (Hfirst : (pages = [] /\ first_name_or_unknown pages = JStr (lit "Unknown")) \/
                   (exists page, In page pages /\ first_name_or_unknown pages = page_name page)).
  { destruct pages as [|p ps]; [left; now split|].
    right. exists p. split; [now left|reflexivity]. }
  assert (Hnth : forall i, (i <? length pages)%nat = true ->
            exists page, In page pages /\ page_name (nth i pages JNull) = page_name page).
  { intros i Hi. apply Nat.ltb_lt in Hi.
    exists (nth i pages JNull). split; [now apply nth_In|reflexivity]. }
  eexists. split; [reflexivity|].
  destruct (contains (section_marker 0) path); [exact Hfirst|].
  destruct (contains (section_marker 1) path && (1 <? length pages)%nat) eqn:E1.
  { right. apply andb_true_iff in E1 as [_ E1]. now apply Hnth. }
  destruct (contains (section_marker 2) path && (2 <? length pages)%nat) eqn:E2.
  { right. apply andb_true_iff in E2 as [_ E2]. now apply Hnth. }
  destruct (contains (section_marker 3) path && (3 <? length pages)%nat) eqn:E3.
  { right. apply andb_true_iff in E3 as [_ E3]. now apply Hnth. }
  exact Hfirst.
Qed.

Lemma resolver_names_a_listed_page_witness :
  exists name,
    extract_page_from_visual
      (JObj (visual_in_section 8 "sections[9].visualContainers[0]")) five_pages
    = Ok name /\
    ((five_pages = [] /\ name = JStr (lit "Unknown")) \/
     (exists page, In page five_pages /\ name = page_name page)).
Proof.
  exact (resolver_names_a_listed_page ref_runtime
           (visual_in_section 8 "sections[9].visualContainers[0]") five_pages
           (lit "sections[9].visualContainers[0]") eq_refl eq_refl).
Defined.

(** ** Configurations that are not strings *)

(** X9.  A visual whose properties entry is anything but a string (an inline
    object, a list, a number, null) is not classified: the call raises
    AttributeError, whatever else the visual holds. *)
Theorem inline_config_raises :
  forall (rt : PyRuntime) (m : list (text * json)) (config page : json),
    assoc (lit "properties") m = Some config ->
    (forall s, config <> JStr s) ->
    _enhance_visual_data (JObj m) page = Raise AttributeError.
Proof.
  intros rt m config page Hc Hns.
  unfold _enhance_visual_data. cbn [dict_get bind]. rewrite Hc.
  destruct config; try reflexivity. now destruct (Hns s).
Qed.

Lemma inline_config_raises_witness :
  _enhance_visual_data
    (JObj [(lit "id", JInt 1);
           (lit "properties",
            JObj [(lit "singleVisual", JObj [(lit "visualType", JStr (lit "barChart"))])])])
    (JStr (lit "Page0"))
  = Raise AttributeError.
Proof.
  apply (inline_config_raises ref_runtime _
           (JObj [(lit "singleVisual", JObj [(lit "visualType", JStr (lit "barChart"))])])).
  - reflexivity.
  - intros s. discriminate.
Defined.
(* ------------------------------------------------------------------ *)
(** ** Pages of the parsed report                                      *)
(* ------------------------------------------------------------------ *)

Ltac bind_ok H :=
  repeat match type of H with
         | match ?x with Ok _ => _ | Raise _ => _ end = Ok _ =>
             let E := fresh "E" in destruct x eqn:E; [| discriminate H]
         end.

Lemma map_result_length {A B} (f : A -> result B) xs ys :
  map_result f xs = Ok ys -> length ys = length xs.
Proof.
  revert ys; induction xs as [| x xs IH]; intros ys H; cbn in H.
  - injection H as <-; reflexivity.
  - unfold bind in H. bind_ok H. injection H as <-.
    cbn. f_equal. apply IH. reflexivity.
Qed.

Lemma map_result_Forall {A B} (f : A -> result B) (P : B -> Prop) xs ys :
  (forall x y, f x = Ok y -> P y) ->
  map_result f xs = Ok ys -> Forall P ys.
Proof.
  intros Hf; revert ys; induction xs as [| x xs IH]; intros ys H; cbn in H.
  - injection H as <-; constructor.
  - unfold bind in H. bind_ok H. injection H as <-.
    constructor; [eapply Hf; eassumption | apply IH; reflexivity].
Qed.

Lemma map_result_Forall2 {A B} (f : A -> result B) (P : A -> B -> Prop) xs ys :
  (forall x y, f x = Ok y -> P x y) ->
  map_result f xs = Ok ys -> Forall2 P xs ys.
Proof.
  intros Hf; revert ys; induction xs as [| x xs IH]; intros ys H; cbn in H.
  - injection H as <-; constructor.
  - unfold bind in H. bind_ok H. injection H as <-.
    constructor; [apply Hf; assumption | apply IH; reflexivity].
Qed.

Lemma map_result_total {A B} (f : A -> result B) xs :
  Forall (fun x => exists y, f x = Ok y) xs ->
  exists ys, map_result f xs = Ok ys.
Proof.
  induction 1 as [| x xs [y Hy] _ [ys Hys]]; cbn.
  - eexists; reflexivity.
  - unfold bind. rewrite Hy, Hys. eexists; reflexivity.
Qed.

Lemma py_len_iter v n vs :
  py_len v = Ok n -> py_iter v = Ok vs -> n = Z.of_nat (length vs).
Proof.
  destruct v; cbn; intros Hn Hv; try discriminate;
    injection Hn as <-; injection Hv as <-; now rewrite ?length_map.
Qed.

Lemma enhanced_visual_page_name {rt : PyRuntime} visual page_name r :
  _enhance_visual_data visual page_name = Ok r ->
  record_field "page_name" r = Some page_name.
Proof.
  unfold _enhance_visual_data, bind. intros H. bind_ok H.
  injection H as <-. reflexivity.
Qed.

Lemma page_prefix_not_report_section s :
  starts_with (lit "ReportSection") (lit "Page " ++ s) = false.
Proof. reflexivity. Qed.

(** X10.  _clean_page_name on a string: a name that does not start with
    ReportSection comes back unchanged; one that does comes back starting
    with the word Page and a blank, and when it is longer than 50 characters
    the result is that prefix and the last four characters of the name, nine
    characters in all.  Cleaning a cleaned name changes nothing. *)
Theorem clean_page_name_stable (s : text) :
  exists s' : text,
    _clean_page_name (JStr s) = Ok (JStr s') /\
    _clean_page_name (JStr s') = Ok (JStr s') /\
    (starts_with (lit "ReportSection") s = false -> s' = s) /\
    (starts_with (lit "ReportSection") s = true ->
       starts_with (lit "Page ") s' = true /\
       ((50 < length s)%nat ->
          s' = lit "Page " ++ skipn (length s - 4) s /\ length s' = 9%nat)).
Proof.
  unfold _clean_page_name.
  destruct (starts_with (lit "ReportSection") s) eqn:Hs.
  - destruct (50 <? length s)%nat eqn:Hl.
    + exists (lit "Page " ++ skipn (length s - 4) s).
      rewrite page_prefix_not_report_section.
      split; [reflexivity |]. split; [reflexivity |]. split; [discriminate |].
      intros _. split; [reflexivity |]. intros _. split; [reflexivity |].
      rewrite length_app, length_skipn.
      apply Nat.ltb_lt in Hl.
      change (length (lit "Page ")) with 5%nat. lia.
    + assert (Hp : exists r, py_replace (lit "ReportSection") (lit "Page ") s
                             = lit "Page " ++ r).
      { unfold py_replace. destruct s as [| c r]; [discriminate Hs |].
        cbn [replace_from]. rewrite Hs. eexists; reflexivity. }
      destruct Hp as [r Hr].
      exists (py_replace (lit "ReportSection") (lit "Page ") s).
      rewrite Hr, page_prefix_not_report_section.
      split; [reflexivity |]. split; [reflexivity |]. split; [discriminate |].
      intros _. split; [reflexivity |].
      intros Hlt. apply Nat.ltb_ge in Hl. lia.
  - exists s. rewrite Hs.
    split; [reflexivity |]. split; [reflexivity |]. split; [reflexivity |].
    discriminate.
Qed.

(** X11.  Whenever _enhance_page_data returns, the visual_count it reports
    is the number of enhanced visuals in the page's visualizations list, and
    every one of them carries the page's own name as page_name. *)
Theorem enhanced_page_counts_its_visuals {rt : PyRuntime} (page r : json) :
  _enhance_page_data page = Ok r ->
  exists vs : list json,
    record_field "visualizations" r = Some (JArr vs) /\
    record_field "visual_count" r = Some (JInt (Z.of_nat (length vs))) /\
    Forall (fun v => record_field "page_name" v = record_field "name" r) vs.
Proof.
  unfold _enhance_page_data, bind. intros H. bind_ok H.
  injection H as <-.
  exists a7. split; [reflexivity |]. split.
  - cbn. do 2 f_equal.
    rewrite (py_len_iter _ _ _ E5 E6).
    f_equal. symmetry. eapply map_result_length; eassumption.
  - eapply map_result_Forall; [| eassumption].
    intros x y Hxy. cbn beta in Hxy.
    apply enhanced_visual_page_name in Hxy. rewrite Hxy. reflexivity.
Qed.

Lemma enhanced_page_counts_its_visuals_witness :
  exists r vs,
    _enhance_page_data (rt := ref_runtime)
      (JObj [field "name" (str "ReportSection1");
             field "visualizations" (JArr [JObj [field "id" (JInt 7)]])]) = Ok r /\
    record_field "visualizations" r = Some (JArr vs) /\
    record_field "visual_count" r = Some (JInt (Z.of_nat (length vs))) /\
    length vs = 1%nat.
Proof.
  destruct (_enhance_page_data (rt := ref_runtime)
      (JObj [field "name" (str "ReportSection1");
             field "visualizations" (JArr [JObj [field "id" (JInt 7)]])])) as [r | e] eqn:Hr;
    [| vm_compute in Hr; discriminate Hr].
  destruct (enhanced_page_counts_its_visuals _ r Hr) as [vs [Hv [Hc _]]].
  exists r, vs. split; [reflexivity |]. split; [exact Hv |]. split; [exact Hc |].
  assert (Hr' := Hr). vm_compute in Hr'. injection Hr' as <-.
  vm_compute in Hv. injection Hv as <-. reflexivity.
Defined.
(* ------------------------------------------------------------------ *)
(** ** Text and actions of a visual                                    *)
(* ------------------------------------------------------------------ *)

Lemma literal_value_literal_expr (s : text) :
  literal_value (literal_expr (JStr s)) = Ok (JStr (strip_char 39 s)).
Proof. reflexivity. Qed.

Lemma in_nested_literal_expr (v : json) :
  in_nested (literal_expr v) (lit "expr") (lit "Literal") = Ok true.
Proof. reflexivity. Qed.

Lemma in_nested_hit d m k1 k2 v sub :
  d = JObj m -> assoc k1 m = Some (JObj sub) -> assoc k2 sub = Some v ->
  in_nested d k1 k2 = Ok true.
Proof.
  intros -> H1 H2. unfold in_nested, py_in, getitem, bind.
  rewrite H1, H2. reflexivity.
Qed.

Lemma getitem_hit m k v : assoc k m = Some v -> getitem (JObj m) k = Ok v.
Proof. intros H; unfold getitem; now rewrite H. Qed.

Lemma py_in_hit m k v : assoc k m = Some v -> py_in k (JObj m) = Ok true.
Proof. intros H; unfold py_in; now rewrite H. Qed.

(** X12.  extract_text_content: when the first entry of objects.text has a
    properties.text holding a literal string, that string without its
    surrounding apostrophes is the text content, whatever the later entries
    and the other objects hold. *)
Theorem first_text_literal_wins
  (config single objects cfg props : list (text * json))
  (rest : list json) (s : text) :
  assoc (lit "singleVisual") config = Some (JObj single) ->
  assoc (lit "objects") single = Some (JObj objects) ->
  assoc (lit "text") objects = Some (JArr (JObj cfg :: rest)) ->
  assoc (lit "properties") cfg = Some (JObj props) ->
  assoc (lit "text") props = Some (literal_expr (JStr s)) ->
  extract_text_content (JObj config) = JStr (strip_char 39 s).
Proof.
  intros Hs Ho Ht Hp Hx.
  unfold extract_text_content, text_content_try.
  rewrite (in_nested_hit _ _ _ _ _ _ eq_refl Hs Ho).
  cbn [bind].
  rewrite (getitem_hit _ _ _ Hs). cbn [bind].
  rewrite (getitem_hit _ _ _ Ho). cbn [bind].
  rewrite (py_in_hit _ _ _ Ht). cbn [bind].
  rewrite (getitem_hit _ _ _ Ht). cbn [bind py_iter first_return].
  rewrite (in_nested_hit _ _ _ _ _ _ eq_refl Hp Hx). cbn [bind].
  rewrite (getitem_hit _ _ _ Hp). cbn [bind].
  rewrite (getitem_hit _ _ _ Hx). cbn [bind].
  rewrite in_nested_literal_expr. cbn [bind].
  rewrite literal_value_literal_expr. reflexivity.
Qed.

Lemma first_text_literal_wins_witness :
  extract_text_content
    (JObj [field "singleVisual"
             (JObj [field "objects"
                      (JObj [field "general" (JArr []);
                             field "text"
                               (JArr [JObj [field "properties"
                                              (JObj [(lit "text", literal_expr (str "'Sales'"))])];
                                      JInt 3])])])])
  = JStr (lit "Sales").
Proof.
  apply (first_text_literal_wins
           [field "singleVisual"
             (JObj [field "objects"
                      (JObj [field "general" (JArr []);
                             field "text"
                               (JArr [JObj [field "properties"
                                              (JObj [(lit "text", literal_expr (str "'Sales'"))])];
                                      JInt 3])])])]
           [field "objects"
                      (JObj [field "general" (JArr []);
                             field "text"
                               (JArr [JObj [field "properties"
                                              (JObj [(lit "text", literal_expr (str "'Sales'"))])];
                                      JInt 3])])]
           [field "general" (JArr []);
                             field "text"
                               (JArr [JObj [field "properties"
                                              (JObj [(lit "text", literal_expr (str "'Sales'"))])];
                                      JInt 3])]
           [field "properties" (JObj [(lit "text", literal_expr (str "'Sales'"))])]
           [(lit "text", literal_expr (str "'Sales'"))]
           [JInt 3] (lit "'Sales'"));
    reflexivity.
Defined.

Lemma link_body_bookmark_link t b actions :
  link_body (bookmark_link t b) actions =
  (Ok tt, dict_set (lit "bookmark") (JStr (strip_char 39 b))
            (dict_set (lit "link_type") (JStr (strip_char 39 t)) actions)).
Proof. reflexivity. Qed.

Lemma link_actions_overwritten t0 b0 t b :
  dict_set (lit "bookmark") (JStr (strip_char 39 b))
    (dict_set (lit "link_type") (JStr (strip_char 39 t)) (link_actions t0 b0))
  = link_actions t b.
Proof. reflexivity. Qed.

Lemma link_actions_first t b :
  dict_set (lit "bookmark") (JStr (strip_char 39 b))
    (dict_set (lit "link_type") (JStr (strip_char 39 t)) [])
  = link_actions t b.
Proof. reflexivity. Qed.

Lemma links_last_wins (earlier : list (text * text)) t b actions :
  actions = [] \/ (exists t0 b0, actions = link_actions t0 b0) ->
  se_for (map (fun tb => bookmark_link (fst tb) (snd tb)) earlier
            ++ [bookmark_link t b]) link_body actions
  = (Ok tt, link_actions t b).
Proof.
  revert actions; induction earlier as [| [t1 b1] earlier IH]; intros actions Ha.
  - cbn [map app se_for]. unfold se_bind.
    rewrite link_body_bookmark_link.
    destruct Ha as [-> | [t0 [b0 ->]]]; reflexivity.
  - cbn [map app se_for fst snd]. unfold se_bind at 1.
    rewrite link_body_bookmark_link.
    apply IH. right. exists t1, b1.
    destruct Ha as [-> | [t0 [b0 ->]]]; reflexivity.
Qed.

(** X13.  extract_bookmarks_and_actions keeps one action: when every entry
    of vcObjects.visualLink is a link with a literal type and a literal
    bookmark, the result holds the type and the bookmark of the last entry,
    without their surrounding apostrophes, and nothing of the earlier
    ones. *)
Theorem last_visual_link_wins {rt : PyRuntime}
  (config single vc : list (text * json))
  (earlier : list (text * text)) (link_type bookmark : text) :
  assoc (lit "singleVisual") config = Some (JObj single) ->
  assoc (lit "vcObjects") single = Some (JObj vc) ->
  assoc (lit "visualLink") vc =
    Some (JArr (map (fun tb => bookmark_link (fst tb) (snd tb)) earlier
                  ++ [bookmark_link link_type bookmark])) ->
  extract_bookmarks_and_actions (JObj config) =
  JObj [(lit "link_type", JStr (strip_char 39 link_type));
        (lit "bookmark", JStr (strip_char 39 bookmark))].
Proof.
  intros Hs Hv Hl.
  unfold extract_bookmarks_and_actions, actions_try.
  unfold se_bind at 1. unfold se_lift at 1.
  rewrite (in_nested_hit _ _ _ _ _ _ eq_refl Hs Hv).
  unfold se_bind at 1. unfold se_lift at 1.
  rewrite (getitem_hit _ _ _ Hs).
  unfold se_bind at 1. unfold se_lift at 1.
  rewrite (getitem_hit _ _ _ Hv).
  unfold se_bind at 1. unfold se_lift at 1.
  rewrite (py_in_hit _ _ _ Hl).
  unfold se_bind at 1. unfold se_lift at 1.
  rewrite (getitem_hit _ _ _ Hl).
  unfold se_bind at 1. unfold se_lift at 1.
  cbn [py_iter].
  change (se_for ?l _ ?a) with (se_for l link_body a).
  rewrite links_last_wins by (left; reflexivity).
  reflexivity.
Qed.

Lemma last_visual_link_wins_witness :
  extract_bookmarks_and_actions (rt := ref_runtime)
    (JObj [field "singleVisual"
             (JObj [field "vcObjects"
                      (JObj [field "visualLink"
                               (JArr [bookmark_link (lit "'Bookmark'") (lit "'Overview'");
                                      bookmark_link (lit "'Back'") (lit "''")])])])])
  = JObj [(lit "link_type", JStr (lit "Back")); (lit "bookmark", JStr [])].
Proof.
  apply (last_visual_link_wins (rt := ref_runtime)
           [field "singleVisual"
             (JObj [field "vcObjects"
                      (JObj [field "visualLink"
                               (JArr [bookmark_link (lit "'Bookmark'") (lit "'Overview'");
                                      bookmark_link (lit "'Back'") (lit "''")])])])]
           [field "vcObjects"
                      (JObj [field "visualLink"
                               (JArr [bookmark_link (lit "'Bookmark'") (lit "'Overview'");
                                      bookmark_link (lit "'Back'") (lit "''")])])]
           [field "visualLink"
                               (JArr [bookmark_link (lit "'Bookmark'") (lit "'Overview'");
                                      bookmark_link (lit "'Back'") (lit "''")])]
           [(lit "'Bookmark'", lit "'Overview'")] (lit "'Back'") (lit "''"));
    reflexivity.
Defined.
(* ------------------------------------------------------------------ *)
(** ** The structural miner                                            *)
(* ------------------------------------------------------------------ *)

Lemma json_nested_ind (P : json -> Prop) :
  P JNull -> (forall b, P (JBool b)) -> (forall z, P (JInt z)) ->
  (forall l, P (JFloat l)) -> (forall s, P (JStr s)) ->
  (forall items, Forall P items -> P (JArr items)) ->
  (forall members, Forall (fun kv => P (snd kv)) members -> P (JObj members)) ->
  forall v, P v.
Proof.
  intros Hn Hb Hi Hf Hs Ha Ho.
  fix IH 1. intros [ | b | z | l | s | items | members ].
  - exact Hn.
  - apply Hb.
  - apply Hi.
  - apply Hf.
  - apply Hs.
  - apply Ha. induction items as [| x xs IHxs]; constructor; [apply IH | exact IHxs].
  - apply Ho. induction members as [| [k x] xs IHxs]; constructor; [apply IH | exact IHxs].
Qed.

Lemma parse_single_visual_records data path v :
  _parse_single_visual data path = Ok v -> records v path data.
Proof.
  unfold _parse_single_visual, bind. intros H. bind_ok H.
  injection H as <-. split; reflexivity.
Qed.

Ltac visual_rest m :=
  destruct (assoc (lit "properties") m), (assoc (lit "config") m),
    (assoc (lit "filters") m).

Lemma parse_single_visual_ok v path :
  visual_ok v = true <-> exists r, _parse_single_visual v path = Ok r.
Proof.
  destruct v as [ | | | | | | m ];
    try (split; [discriminate | intros [r Hr]; discriminate Hr]).
  unfold visual_ok, _parse_single_visual, in_nested, py_in, getitem, dict_get, bind.
  destruct (assoc (lit "dataRoles") m) as [roles |] eqn:Hr.
  - split; [intros _ | reflexivity]. visual_rest m; eexists; reflexivity.
  - destruct (assoc (lit "query") m) as [q |] eqn:Hq.
    + destruct q as [ | | | | s | l | qm ];
        try (split; [discriminate | intros [r H]; discriminate H]).
      * destruct (contains (lit "dataRoles") s); cbn [negb].
        -- split; [discriminate | intros [r H]; discriminate H].
        -- split; [intros _ | reflexivity]. visual_rest m; eexists; reflexivity.
      * destruct (existsb (is_str_eq (lit "dataRoles")) l); cbn [negb].
        -- split; [discriminate | intros [r H]; discriminate H].
        -- split; [intros _ | reflexivity]. visual_rest m; eexists; reflexivity.
      * split; [intros _ | reflexivity].
        destruct (assoc (lit "dataRoles") qm); visual_rest m; eexists; reflexivity.
    + split; [intros _ | reflexivity]. visual_rest m; eexists; reflexivity.
Qed.

Lemma candidate_at_obj m path p mm :
  candidate_at (JObj m) path p mm <->
  (p = path /\ mm = m /\ has_indicator m = true) \/
  (exists n key value,
      nth_error m n = Some (key, value) /\
      candidate_at value (sub_path path key) p mm).
Proof.
  split.
  - intros [[| n route] [Hl Hi]]; cbn [locate] in Hl.
    + injection Hl as <- <-. left. auto.
    + destruct (nth_error m n) as [[key value] |] eqn:Hn; [| discriminate Hl].
      cbn [no_member] in Hl. right. exists n, key, value.
      split; [exact Hn |]. exists route. auto.
  - intros [[-> [-> Hi]] | [n [key [value [Hn [route [Hl Hi]]]]]]].
    + exists []. auto.
    + exists (n :: route). cbn [locate]. rewrite Hn. cbn [no_member]. auto.
Qed.

Lemma candidate_at_arr items path p mm :
  candidate_at (JArr items) path p mm <->
  exists n item,
    nth_error items n = Some item /\
    candidate_at item (index_path path n) p mm.
Proof.
  split.
  - intros [[| n route] [Hl Hi]]; cbn [locate] in Hl; [discriminate Hl |].
    destruct (nth_error items n) as [item |] eqn:Hn; [| discriminate Hl].
    exists n, item. split; [exact Hn |]. exists route. auto.
  - intros [n [item [Hn [route [Hl Hi]]]]].
    exists (n :: route). cbn [locate]. rewrite Hn. auto.
Qed.

Lemma candidate_at_scalar data path p mm :
  is_dict data = false -> is_list data = false ->
  ~ candidate_at data path p mm.
Proof.
  intros Hd Hl [[| n route] [H _]]; destruct data; cbn in *; discriminate.
Qed.

Lemma for_members_cons {St} (f : json -> text -> SE St unit) path key value rest st :
  for_members f path ((key, value) :: rest) st =
  match f value (sub_path path key) st with
  | (Ok _, s') => for_members f path rest s'
  | (Raise e, s') => (Raise e, s')
  end.
Proof. reflexivity. Qed.

Lemma for_items_cons {St} (f : json -> text -> SE St unit) path item rest i st :
  for_items f path (item :: rest) i st =
  match f item (index_path path i) st with
  | (Ok _, s') => for_items f path rest (S i) s'
  | (Raise e, s') => (Raise e, s')
  end.
Proof. reflexivity. Qed.

Lemma find_visuals_obj m path st :
  find_visuals (JObj m) path st =
  match (if has_indicator m
         then match _parse_single_visual (JObj m) path with
              | Ok v => (Ok tt, st ++ [v])
              | Raise e => (Raise e, st)
              end
         else (Ok tt, st)) with
  | (Ok _, s') => for_members find_visuals path m s'
  | (Raise e, s') => (Raise e, s')
  end.
Proof.
  cbn [find_visuals]. unfold se_bind at 1.
  destruct (has_indicator m); [| reflexivity].
  unfold se_bind, se_lift, se_get, se_put.
  destruct (_parse_single_visual (JObj m) path); reflexivity.
Qed.

Lemma for_members_visuals path m :
  Forall (fun kv => visuals_spec (snd kv)) m ->
  forall st r st',
    for_members find_visuals path m st = (r, st') ->
    exists new,
      st' = st ++ new /\
      (forall v, In v new ->
         exists n key value p mm,
           nth_error m n = Some (key, value) /\
           candidate_at value (sub_path path key) p mm /\ records v p (JObj mm)) /\
      (r = Ok tt ->
         forall n key value p mm,
           nth_error m n = Some (key, value) ->
           candidate_at value (sub_path path key) p mm ->
           exists v, In v new /\ records v p (JObj mm)) /\
      ((forall n key value p mm,
           nth_error m n = Some (key, value) ->
           candidate_at value (sub_path path key) p mm ->
           visual_ok (JObj mm) = true) ->
         r = Ok tt).
Proof.
  induction 1 as [| [k x] rest Hx _ IH]; intros st r st' H.
  - injection H as <- <-. exists []. rewrite app_nil_r.
    split; [reflexivity |]. split; [intros v [] |]. split.
    + intros _ [| n] key value p mm Hn; discriminate Hn.
    + reflexivity.
  - rewrite for_members_cons in H.
    destruct (find_visuals x (sub_path path k) st) as [r1 st1] eqn:E1.
    cbn [snd] in Hx. destruct (Hx _ _ _ _ E1) as [new1 [-> [S1 [C1 T1]]]].
    destruct r1 as [[] | e].
    + destruct (IH _ _ _ H) as [new2 [-> [S2 [C2 T2]]]].
      exists (new1 ++ new2). rewrite app_assoc.
      split; [reflexivity |]. split; [| split].
      * intros v Hv. apply in_app_or in Hv. destruct Hv as [Hv | Hv].
        -- destruct (S1 v Hv) as [p [mm [Hc Hr]]].
           exists 0%nat, k, x, p, mm. auto.
        -- destruct (S2 v Hv) as [n [key [value [p [mm [Hn [Hc Hr]]]]]]].
           exists (S n), key, value, p, mm. auto.
      * intros Hok [| n] key value p mm Hn Hc; cbn [nth_error] in Hn.
        -- injection Hn as <- <-.
           destruct (C1 eq_refl p mm Hc) as [v [Hv Hr]].
           exists v. split; [apply in_or_app; left; exact Hv | exact Hr].
        -- destruct (C2 Hok n key value p mm Hn Hc) as [v [Hv Hr]].
           exists v. split; [apply in_or_app; right; exact Hv | exact Hr].
      * intros Hall. apply T2. intros n key value p mm Hn Hc.
        apply (Hall (S n) key value p mm Hn Hc).
    + injection H as <- <-. exists new1.
      split; [reflexivity |]. split; [| split].
      * intros v Hv. destruct (S1 v Hv) as [p [mm [Hc Hr]]].
        exists 0%nat, k, x, p, mm. auto.
      * discriminate.
      * intros Hall. exfalso.
        assert (Hr1 : Raise e = Ok tt :> result unit); [| discriminate Hr1].
        apply T1. intros p mm Hc. apply (Hall 0%nat k x p mm eq_refl Hc).
Qed.

Lemma for_items_visuals path items :
  Forall visuals_spec items ->
  forall i st r st',
    for_items find_visuals path items i st = (r, st') ->
    exists new,
      st' = st ++ new /\
      (forall v, In v new ->
         exists n item p mm,
           nth_error items n = Some item /\
           candidate_at item (index_path path (i + n)) p mm /\
           records v p (JObj mm)) /\
      (r = Ok tt ->
         forall n item p mm,
           nth_error items n = Some item ->
           candidate_at item (index_path path (i + n)) p mm ->
           exists v, In v new /\ records v p (JObj mm)) /\
      ((forall n item p mm,
           nth_error items n = Some item ->
           candidate_at item (index_path path (i + n)) p mm ->
           visual_ok (JObj mm) = true) ->
         r = Ok tt).
Proof.
  induction 1 as [| x rest Hx _ IH]; intros i st r st' H.
  - injection H as <- <-. exists []. rewrite app_nil_r.
    split; [reflexivity |]. split; [intros v [] |]. split.
    + intros _ [| n] item p mm Hn; discriminate Hn.
    + reflexivity.
  - rewrite for_items_cons in H.
    destruct (find_visuals x (index_path path i) st) as [r1 st1] eqn:E1.
    destruct (Hx _ _ _ _ E1) as [new1 [-> [S1 [C1 T1]]]].
    destruct r1 as [[] | e].
    + destruct (IH _ _ _ _ H) as [new2 [-> [S2 [C2 T2]]]].
      exists (new1 ++ new2). rewrite app_assoc.
      split; [reflexivity |]. split; [| split].
      * intros v Hv. apply in_app_or in Hv. destruct Hv as [Hv | Hv].
        -- destruct (S1 v Hv) as [p [mm [Hc Hr]]].
           exists 0%nat, x, p, mm. rewrite Nat.add_0_r. auto.
        -- destruct (S2 v Hv) as [n [item [p [mm [Hn [Hc Hr]]]]]].
           exists (S n), item, p, mm. rewrite <- Nat.add_succ_comm. auto.
      * intros Hok [| n] item p mm Hn Hc; cbn [nth_error] in Hn.
        -- injection Hn as <-. rewrite Nat.add_0_r in Hc.
           destruct (C1 eq_refl p mm Hc) as [v [Hv Hr]].
           exists v. split; [apply in_or_app; left; exact Hv | exact Hr].
        -- rewrite <- Nat.add_succ_comm in Hc.
           destruct (C2 Hok n item p mm Hn Hc) as [v [Hv Hr]].
           exists v. split; [apply in_or_app; right; exact Hv | exact Hr].
      * intros Hall. apply T2. intros n item p mm Hn Hc.
        apply (Hall (S n) item p mm Hn). rewrite <- Nat.add_succ_comm. exact Hc.
    + injection H as <- <-. exists new1.
      split; [reflexivity |]. split; [| split].
      * intros v Hv. destruct (S1 v Hv) as [p [mm [Hc Hr]]].
        exists 0%nat, x, p, mm. rewrite Nat.add_0_r. auto.
      * discriminate.
      * intros Hall. exfalso.
        assert (Hr1 : Raise e = Ok tt :> result unit); [| discriminate Hr1].
        apply T1. intros p mm Hc. apply (Hall 0%nat x p mm eq_refl).
        rewrite Nat.add_0_r. exact Hc.
Qed.

Lemma find_visuals_scalar data path st :
  is_dict data = false -> is_list data = false ->
  find_visuals data path st = (Ok tt, st).
Proof. destruct data; cbn; intros; try discriminate; reflexivity. Qed.

Lemma visuals_spec_scalar data :
  is_dict data = false -> is_list data = false -> visuals_spec data.
Proof.
  intros Hd Hl path st r st' H.
  rewrite (find_visuals_scalar _ _ _ Hd Hl) in H. injection H as <- <-.
  exists []. rewrite app_nil_r.
  split; [reflexivity |]. split; [intros v [] |]. split; [| reflexivity].
  intros _ p m Hc. exfalso. exact (candidate_at_scalar _ _ _ _ Hd Hl Hc).
Qed.

Lemma find_visuals_spec (data : json) : visuals_spec data.
Proof.
  induction data as [ | b | z | l | s | items IH | m IH ] using json_nested_ind;
    try (apply visuals_spec_scalar; reflexivity).
  - intros path st r st' H. cbn [find_visuals] in H.
    destruct (for_items_visuals path items IH _ _ _ _ H) as [new [-> [S1 [C1 T1]]]].
    exists new. split; [reflexivity |]. split; [| split].
    + intros v Hv. destruct (S1 v Hv) as [n [item [p [mm [Hn [Hc Hr]]]]]].
      exists p, mm. split; [| exact Hr].
      apply candidate_at_arr. exists n, item. auto.
    + intros Hok p mm Hc. apply candidate_at_arr in Hc.
      destruct Hc as [n [item [Hn Hc]]]. exact (C1 Hok n item p mm Hn Hc).
    + intros Hall. apply T1. intros n item p mm Hn Hc.
      apply (Hall p mm). apply candidate_at_arr. exists n, item. auto.
  - intros path st r st' H. rewrite find_visuals_obj in H.
    assert (Hmem : forall st1 new0,
               for_members find_visuals path m st1 = (r, st') ->
               st1 = st ++ new0 ->
               (forall v, In v new0 -> records v path (JObj m) /\ has_indicator m = true) ->
               (has_indicator m = true -> exists v, In v new0 /\ records v path (JObj m)) ->
               exists new,
                 st' = st ++ new /\
                 (forall v, In v new ->
                    exists p mm, candidate_at (JObj m) path p mm /\ records v p (JObj mm)) /\
                 (r = Ok tt ->
                    forall p mm, candidate_at (JObj m) path p mm ->
                      exists v, In v new /\ records v p (JObj mm)) /\
                 ((forall p mm, candidate_at (JObj m) path p mm ->
                     visual_ok (JObj mm) = true) -> r = Ok tt)).
    { intros st1 new0 Hm -> Hown Hfound.
      destruct (for_members_visuals path m IH _ _ _ Hm) as [new [-> [S1 [C1 T1]]]].
      exists (new0 ++ new). rewrite app_assoc.
      split; [reflexivity |]. split; [| split].
      - intros v Hv. apply in_app_or in Hv. destruct Hv as [Hv | Hv].
        + destruct (Hown v Hv) as [Hr Hi]. exists path, m.
          split; [| exact Hr]. apply candidate_at_obj. left. auto.
        + destruct (S1 v Hv) as [n [key [value [p [mm [Hn [Hc Hr]]]]]]].
          exists p, mm. split; [| exact Hr].
          apply candidate_at_obj. right. exists n, key, value. auto.
      - intros Hok p mm Hc. apply candidate_at_obj in Hc.
        destruct Hc as [[-> [-> Hi]] | [n [key [value [Hn Hc]]]]].
        + destruct (Hfound Hi) as [v [Hv Hr]].
          exists v. split; [apply in_or_app; left; exact Hv | exact Hr].
        + destruct (C1 Hok n key value p mm Hn Hc) as [v [Hv Hr]].
          exists v. split; [apply in_or_app; right; exact Hv | exact Hr].
      - intros Hall. apply T1. intros n key value p mm Hn Hc.
        apply (Hall p mm). apply candidate_at_obj. right. exists n, key, value. auto. }
    destruct (has_indicator m) eqn:Hi.
    + destruct (_parse_single_visual (JObj m) path) as [v | e] eqn:Hp.
      * apply (Hmem (st ++ [v]) [v] H eq_refl).
        -- intros v' [<- | []]. split; [| reflexivity].
           apply parse_single_visual_records. exact Hp.
        -- intros _. exists v. split; [left; reflexivity |].
           apply parse_single_visual_records. exact Hp.
      * injection H as <- <-. exists []. rewrite app_nil_r.
        split; [reflexivity |]. split; [intros v [] |]. split; [discriminate |].
        intros Hall. exfalso.
        assert (Hv : visual_ok (JObj m) = true).
        { apply (Hall path m). apply candidate_at_obj. left. auto. }
        apply (parse_single_visual_ok _ path) in Hv. destruct Hv as [v Hv].
        rewrite Hv in Hp. discriminate Hp.
    + apply (Hmem st [] H).
      * now rewrite app_nil_r.
      * intros v [].
      * discriminate.
Qed.

(** X14.  _parse_visualizations is sound: every record it returns was built
    from a dict node of the layout that has one of the keys visualType, type
    or config; the record keeps that node as raw_data, and its path spells
    the route from the root to the node, keys joined by dots and list
    positions in brackets.  This holds also when the search was cut short
    by an exception. *)
Theorem found_visuals_are_layout_nodes (layout_data v : json) :
  In v (_parse_visualizations layout_data) ->
  exists p m, candidate_at layout_data [] p m /\ records v p (JObj m).
Proof.
  unfold _parse_visualizations. intros Hv.
  destruct (find_visuals layout_data [] []) as [r st'] eqn:E.
  destruct (find_visuals_spec layout_data _ _ _ _ E) as [new [-> [S1 _]]].
  cbn [snd app] in Hv. exact (S1 v Hv).
Qed.

(** X15.  _parse_visualizations is complete on acceptable layouts: when
    every candidate node (a dict with a key visualType, type or config) is
    one _parse_single_visual accepts, the search raises nothing and every
    candidate node, at whatever depth, has a record with its path and with
    the node as raw_data. *)
Theorem every_candidate_is_found (layout_data : json) :
  (forall p m, candidate_at layout_data [] p m -> visual_ok (JObj m) = true) ->
  fst (find_visuals layout_data [] []) = Ok tt /\
  forall p m, candidate_at layout_data [] p m ->
    exists v, In v (_parse_visualizations layout_data) /\ records v p (JObj m).
Proof.
  unfold _parse_visualizations. intros Hall.
  destruct (find_visuals layout_data [] []) as [r st'] eqn:E.
  destruct (find_visuals_spec layout_data _ _ _ _ E) as [new [-> [_ [C1 T1]]]].
  cbn [fst snd app]. split; [exact (T1 Hall) |].
  exact (C1 (T1 Hall)).
Qed.

Lemma found_visuals_are_layout_nodes_witness :
  exists p m,
    candidate_at small_layout [] p m /\
    records (hd JNull (_parse_visualizations small_layout)) p (JObj m).
Proof.
  apply (found_visuals_are_layout_nodes small_layout).
  vm_compute. left. reflexivity.
Defined.

Ltac only_member Hn n :=
  destruct n as [| n]; [| destruct n; discriminate Hn];
  unfold field in Hn; cbn [nth_error] in Hn.

Lemma small_layout_acceptable :
  forall p m, candidate_at small_layout [] p m -> visual_ok (JObj m) = true.
Proof.
  intros p m Hc. unfold small_layout in Hc.
  apply candidate_at_obj in Hc.
  destruct Hc as [[_ [_ Hi]] | [n [key [value [Hn Hc]]]]];
    [vm_compute in Hi; discriminate Hi |].
  only_member Hn n. injection Hn as <- <-.
  apply candidate_at_arr in Hc. destruct Hc as [n [item [Hn Hc]]].
  only_member Hn n. injection Hn as <-.
  apply candidate_at_obj in Hc.
  destruct Hc as [[_ [_ Hi]] | [n [key [value [Hn Hc]]]]];
    [vm_compute in Hi; discriminate Hi |].
  only_member Hn n. injection Hn as <- <-.
  apply candidate_at_arr in Hc. destruct Hc as [n [item [Hn Hc]]].
  only_member Hn n. injection Hn as <-.
  apply candidate_at_obj in Hc.
  destruct Hc as [[_ [-> _]] | [n [key [value [Hn Hc]]]]]; [reflexivity |].
  only_member Hn n. injection Hn as <- <-.
  exfalso. eapply candidate_at_scalar; [| | exact Hc]; reflexivity.
Qed.

Lemma every_candidate_is_found_witness :
  fst (find_visuals small_layout [] []) = Ok tt /\
  exists v,
    In v (_parse_visualizations small_layout) /\
    records v (lit "sections[0].visualContainers[0]")
      (JObj [field "config" (str "{}")]).
Proof.
  destruct (every_candidate_is_found small_layout small_layout_acceptable)
    as [Hr Hall].
  split; [exact Hr |].
  apply Hall. exists [0; 0; 0; 0]%nat. split; reflexivity.
Defined.

Lemma filter_owner_at_obj m path p fs :
  filter_owner_at (JObj m) path p fs <->
  (p = path /\ assoc (lit "filters") m = Some (JArr fs)) \/
  (exists n key value,
      nth_error m n = Some (key, value) /\
      filters_member key value = false /\
      filter_owner_at value (sub_path path key) p fs).
Proof.
  split.
  - intros [[| n route] [mm [Hl Hf]]]; cbn [locate] in Hl.
    + injection Hl as <- <-. left. auto.
    + destruct (nth_error m n) as [[key value] |] eqn:Hn; [| discriminate Hl].
      destruct (filters_member key value) eqn:Hs; [discriminate Hl |].
      right. exists n, key, value.
      split; [exact Hn |]. split; [exact Hs |]. exists route, mm. auto.
  - intros [[-> Hf] | [n [key [value [Hn [Hs [route [mm [Hl Hf]]]]]]]]].
    + exists [], m. auto.
    + exists (n :: route), mm. cbn [locate]. rewrite Hn, Hs. auto.
Qed.

Lemma filter_owner_at_arr items path p fs :
  filter_owner_at (JArr items) path p fs <->
  exists n item,
    nth_error items n = Some item /\
    filter_owner_at item (index_path path n) p fs.
Proof.
  split.
  - intros [[| n route] [mm [Hl Hf]]]; cbn [locate] in Hl; [discriminate Hl |].
    destruct (nth_error items n) as [item |] eqn:Hn; [| discriminate Hl].
    exists n, item. split; [exact Hn |]. exists route, mm. auto.
  - intros [n [item [Hn [route [mm [Hl Hf]]]]]].
    exists (n :: route), mm. cbn [locate]. rewrite Hn. auto.
Qed.

Lemma filter_owner_at_scalar data path p fs :
  is_dict data = false -> is_list data = false ->
  ~ filter_owner_at data path p fs.
Proof.
  intros Hd Hl [[| n route] [mm [H _]]]; destruct data; cbn in *; discriminate.
Qed.

Lemma members_filters_cons f path key value rest :
  members_filters f path ((key, value) :: rest) =
  if filters_member key value then members_filters f path rest
  else f value (sub_path path key) ++ members_filters f path rest.
Proof. reflexivity. Qed.

Lemma items_filters_cons f path item rest i :
  items_filters f path (item :: rest) i =
  f item (index_path path i) ++ items_filters f path rest (S i).
Proof. reflexivity. Qed.

Lemma members_filters_spec path m :
  Forall (fun kv => filters_spec (snd kv)) m ->
  forall r,
    In r (members_filters find_filters path m) <->
    exists n key value p fs f,
      nth_error m n = Some (key, value) /\
      filters_member key value = false /\
      filter_owner_at value (sub_path path key) p fs /\
      In f fs /\ r = filter_record p f.
Proof.
  induction 1 as [| [k x] rest Hx _ IH]; intros r.
  - split; [intros [] |].
    intros [[| n] [key [value [p [fs [f [Hn _]]]]]]]; discriminate Hn.
  - rewrite members_filters_cons. cbn [snd] in Hx.
    destruct (filters_member k x) eqn:Hs.
    + rewrite IH. split.
      * intros [n [key [value [p [fs [f [Hn Hrest]]]]]]].
        exists (S n), key, value, p, fs, f. auto.
      * intros [[| n] [key [value [p [fs [f [Hn [Hs' Hrest]]]]]]]];
          cbn [nth_error] in Hn.
        -- injection Hn as <- <-. rewrite Hs in Hs'. discriminate Hs'.
        -- exists n, key, value, p, fs, f. auto.
    + rewrite in_app_iff, IH, (Hx (sub_path path k) r). split.
      * intros [[p [fs [f [Ho [Hf Hr]]]]] | [n [key [value [p [fs [f [Hn Hrest]]]]]]]].
        -- exists 0%nat, k, x, p, fs, f. auto.
        -- exists (S n), key, value, p, fs, f. auto.
      * intros [[| n] [key [value [p [fs [f [Hn [Hs' [Ho [Hf Hr]]]]]]]]]];
          cbn [nth_error] in Hn.
        -- injection Hn as <- <-. left. exists p, fs, f. auto.
        -- right. exists n, key, value, p, fs, f. auto.
Qed.

Lemma items_filters_spec path items :
  Forall filters_spec items ->
  forall i r,
    In r (items_filters find_filters path items i) <->
    exists n item p fs f,
      nth_error items n = Some item /\
      filter_owner_at item (index_path path (i + n)) p fs /\
      In f fs /\ r = filter_record p f.
Proof.
  induction 1 as [| x rest Hx _ IH]; intros i r.
  - split; [intros [] |].
    intros [[| n] [item [p [fs [f [Hn _]]]]]]; discriminate Hn.
  - rewrite items_filters_cons, in_app_iff, IH, (Hx (index_path path i) r). split.
    + intros [[p [fs [f [Ho [Hf Hr]]]]] | [n [item [p [fs [f [Hn [Ho Hrest]]]]]]]].
      * exists 0%nat, x, p, fs, f. rewrite Nat.add_0_r. auto.
      * exists (S n), item, p, fs, f. rewrite <- Nat.add_succ_comm. auto.
    + intros [[| n] [item [p [fs [f [Hn [Ho [Hf Hr]]]]]]]]; cbn [nth_error] in Hn.
      * injection Hn as <-. rewrite Nat.add_0_r in Ho. left. exists p, fs, f. auto.
      * rewrite <- Nat.add_succ_comm in Ho. right. exists n, item, p, fs, f. auto.
Qed.

Lemma filters_spec_scalar data :
  is_dict data = false -> is_list data = false -> filters_spec data.
Proof.
  intros Hd Hl path r. split.
  - destruct data; try discriminate; intros [].
  - intros [p [fs [f [Ho _]]]]. exfalso.
    exact (filter_owner_at_scalar _ _ _ _ Hd Hl Ho).
Qed.

Lemma in_own_filters m path r :
  In r (own_filters m path) <->
  exists fs f, assoc (lit "filters") m = Some (JArr fs) /\ In f fs /\
               r = filter_record path f.
Proof.
  unfold own_filters.
  destruct (assoc (lit "filters") m) as [[ | | | | | fs | ] |];
    try (split; [intros [] | intros [fs' [f [H _]]]; discriminate H]).
  rewrite in_map_iff. split.
  - intros [f [<- Hf]]. exists fs, f. auto.
  - intros [fs' [f [Hfs [Hf ->]]]]. injection Hfs as <-. exists f. auto.
Qed.

Lemma find_filters_spec (data : json) : filters_spec data.
Proof.
  induction data as [ | b | z | l | s | items IH | m IH ] using json_nested_ind;
    try (apply filters_spec_scalar; reflexivity).
  - intros path r. cbn [find_filters].
    rewrite (items_filters_spec path items IH 0%nat r). split.
    + intros [n [item [p [fs [f [Hn [Ho [Hf Hr]]]]]]]].
      exists p, fs, f. split; [| auto].
      apply filter_owner_at_arr. exists n, item. auto.
    + intros [p [fs [f [Ho [Hf Hr]]]]]. apply filter_owner_at_arr in Ho.
      destruct Ho as [n [item [Hn Ho]]]. exists n, item, p, fs, f. auto.
  - intros path r. cbn [find_filters].
    rewrite in_app_iff, in_own_filters, (members_filters_spec path m IH r). split.
    + intros [[fs [f [Hfs [Hf Hr]]]] |
              [n [key [value [p [fs [f [Hn [Hs [Ho [Hf Hr]]]]]]]]]]].
      * exists path, fs, f. split; [| auto].
        apply filter_owner_at_obj. left. auto.
      * exists p, fs, f. split; [| auto].
        apply filter_owner_at_obj. right. exists n, key, value. auto.
    + intros [p [fs [f [Ho [Hf Hr]]]]]. apply filter_owner_at_obj in Ho.
      destruct Ho as [[-> Hfs] | [n [key [value [Hn [Hs Ho]]]]]].
      * left. exists fs, f. auto.
      * right. exists n, key, value, p, fs, f. auto.
Qed.

(** X16.  _parse_filters reports exactly the filters of the dicts it can
    reach: a record is returned if and only if it pairs an entry of the
    filters list of some dict of the layout with the path of that dict,
    where the dict is reached from the root without passing through a list
    stored under a key filters.  So filters nested inside a filter are not
    reported, and a filters entry that is not a list is searched like any
    other member. *)
Theorem parse_filters_characterised (layout_data r : json) :
  In r (_parse_filters layout_data) <->
  exists p fs f,
    filter_owner_at layout_data [] p fs /\ In f fs /\ r = filter_record p f.
Proof. apply find_filters_spec. Qed.

Lemma page_visuals_ok page vkey :
  visual_list_ok page vkey = true ->
  exists vs, page_visuals (JObj page) vkey = Ok vs.
Proof.
  unfold visual_list_ok, page_visuals, py_in, getitem, bind.
  destruct (assoc (lit vkey) page) as [v |]; [| eexists; reflexivity].
  destruct v as [ | | | | | vs | ]; try (eexists; reflexivity).
  intros Hall. apply map_result_total.
  rewrite forallb_forall in Hall. apply Forall_forall. intros x Hx.
  apply parse_single_visual_ok. apply Hall. exact Hx.
Qed.

Lemma parse_single_page_raw p r :
  _parse_single_page p = Ok r -> record_field "raw_data" r = Some p.
Proof.
  unfold _parse_single_page, bind. intros H. bind_ok H.
  injection H as <-. reflexivity.
Qed.

Lemma parse_single_page_ok p :
  page_ok p = true -> exists r, _parse_single_page p = Ok r.
Proof.
  destruct p as [ | | | | | | page ]; try discriminate.
  unfold page_ok. intros H.
  apply andb_true_iff in H. destruct H as [H H3].
  apply andb_true_iff in H. destruct H as [H1 H2].
  destruct (page_visuals_ok _ _ H1) as [v1 E1].
  destruct (page_visuals_ok _ _ H2) as [v2 E2].
  destruct (page_visuals_ok _ _ H3) as [v3 E3].
  unfold _parse_single_page, dict_get, bind. rewrite E1, E2, E3.
  eexists; reflexivity.
Qed.

Lemma map_result_raises {A B} (f : A -> result B) (ok : A -> bool) xs :
  (forall x, ok x = true -> exists y, f x = Ok y) ->
  (forall x, ok x = false -> exists e, f x = Raise e) ->
  forallb ok xs = false -> exists e, map_result f xs = Raise e.
Proof.
  intros Hok Hbad. induction xs as [| x xs IH]; [discriminate |].
  cbn [forallb map_result]. unfold bind. intros H.
  destruct (ok x) eqn:Hx.
  - destruct (Hok x Hx) as [y ->]. destruct (IH H) as [e ->].
    eexists; reflexivity.
  - destruct (Hbad x Hx) as [e ->]. eexists; reflexivity.
Qed.

Lemma parse_single_visual_bad v path :
  visual_ok v = false -> exists e, _parse_single_visual v path = Raise e.
Proof.
  intros H. destruct (_parse_single_visual v path) as [r | e] eqn:E;
    [| eexists; reflexivity].
  assert (Hv : visual_ok v = true) by (apply (parse_single_visual_ok v path); eauto).
  rewrite Hv in H. discriminate H.
Qed.

Lemma page_visuals_bad page vkey :
  visual_list_ok page vkey = false ->
  exists e, page_visuals (JObj page) vkey = Raise e.
Proof.
  unfold visual_list_ok, page_visuals, py_in, getitem, bind.
  destruct (assoc (lit vkey) page) as [v |]; [| discriminate].
  destruct v as [ | | | | | vs | ]; try discriminate.
  apply map_result_raises.
  - intros x Hx. apply parse_single_visual_ok. exact Hx.
  - intros x Hx. apply parse_single_visual_bad. exact Hx.
Qed.

Lemma parse_single_page_bad p :
  page_ok p = false -> exists e, _parse_single_page p = Raise e.
Proof.
  destruct p as [ | | | | | | page ]; try (intros _; eexists; reflexivity).
  unfold page_ok. intros H.
  unfold _parse_single_page, dict_get, bind.
  destruct (visual_list_ok page "visuals") eqn:H1.
  - destruct (page_visuals_ok _ _ H1) as [v1 ->].
    destruct (visual_list_ok page "visualContainers") eqn:H2.
    + destruct (page_visuals_ok _ _ H2) as [v2 ->].
      cbn [andb] in H. destruct (page_visuals_bad _ _ H) as [e ->].
      eexists; reflexivity.
    + destruct (page_visuals_bad _ _ H2) as [e ->]. eexists; reflexivity.
  - destruct (page_visuals_bad _ _ H1) as [e ->]. eexists; reflexivity.
Qed.

Lemma append_page_ok p r st :
  _parse_single_page p = Ok r -> append_page p st = (Ok tt, st ++ [r]).
Proof.
  intros H. unfold append_page, se_bind, se_lift, se_get, se_put.
  rewrite H. reflexivity.
Qed.

Lemma append_page_raise p e st :
  _parse_single_page p = Raise e -> append_page p st = (Raise e, st).
Proof.
  intros H. unfold append_page, se_bind, se_lift.
  rewrite H. reflexivity.
Qed.

Lemma se_for_cons {St A} (x : A) xs (body : A -> SE St unit) st :
  se_for (x :: xs) body st =
  match body x st with
  | (Ok _, s') => se_for xs body s'
  | (Raise e, s') => (Raise e, s')
  end.
Proof. reflexivity. Qed.

Lemma se_for_app {St A} (xs ys : list A) (body : A -> SE St unit) st :
  se_for (xs ++ ys) body st =
  match se_for xs body st with
  | (Ok _, s') => se_for ys body s'
  | (Raise e, s') => (Raise e, s')
  end.
Proof.
  revert st; induction xs as [| x xs IH]; intros st; [reflexivity |].
  cbn [app]. rewrite !se_for_cons.
  destruct (body x st) as [[[] | e] s']; [apply IH | reflexivity].
Qed.

Lemma se_for_one {St A} (x : A) (body : A -> SE St unit) st :
  se_for [x] body st = body x st.
Proof.
  rewrite se_for_cons. destruct (body x st) as [[[] | e] s']; reflexivity.
Qed.

Lemma pages_by_key_keyed layout st :
  pages_by_key layout st = se_for (keyed_pages layout) append_page st.
Proof.
  unfold pages_by_key, keyed_pages.
  revert st. induction possible_page_keys as [| key keys IH]; intros st;
    [reflexivity |].
  cbn [flat_map]. rewrite se_for_cons, se_for_app.
  destruct (assoc key layout) as [[ | | | | | page_data | page_data ] |];
    try (cbn [se_for]; unfold se_ret; apply IH).
  - destruct (se_for page_data append_page st) as [[[] | e] s'];
      [apply IH | reflexivity].
  - rewrite se_for_one.
    destruct (append_page (JObj page_data) st) as [[[] | e] s'];
      [apply IH | reflexivity].
Qed.

Lemma se_for_pages_ok ps :
  forallb page_ok ps = true ->
  forall st,
  exists pages,
    se_for ps append_page st = (Ok tt, st ++ pages) /\
    map (record_field "raw_data") pages = map Some ps.
Proof.
  induction ps as [| p ps IH]; intros Hall st.
  - exists []. rewrite app_nil_r. split; reflexivity.
  - cbn [forallb] in Hall. apply andb_true_iff in Hall. destruct Hall as [Hp Hall].
    destruct (parse_single_page_ok p Hp) as [r Hr].
    destruct (IH Hall (st ++ [r])) as [pages [Hfor Hraw]].
    exists (r :: pages). rewrite se_for_cons, (append_page_ok _ _ _ Hr), Hfor.
    rewrite <- app_assoc. split; [reflexivity |].
    cbn [map]. rewrite Hraw, (parse_single_page_raw _ _ Hr). reflexivity.
Qed.

(** X17.  _parse_report_pages on a dict whose candidate pages (the entries
    under the keys pages, reportPages, sections, Pages and ReportPages, in
    that order) are all acceptable: it returns one page record per candidate,
    in that order and each keeping its candidate as raw_data, followed by
    the pages of the nested dicts that have a page key. *)
Theorem report_pages_in_key_order (layout : list (text * json)) :
  forallb page_ok (keyed_pages layout) = true ->
  exists pages,
    _parse_report_pages (JObj layout) =
      pages ++ nested_pages _parse_report_pages layout /\
    map (record_field "raw_data") pages = map Some (keyed_pages layout).
Proof.
  intros Hall.
  destruct (se_for_pages_ok _ Hall []) as [pages [Hfor Hraw]].
  exists pages. split; [| exact Hraw].
  cbn [_parse_report_pages]. rewrite pages_by_key_keyed, Hfor. reflexivity.
Qed.

Lemma report_pages_in_key_order_witness :
  exists pages,
    _parse_report_pages small_layout =
      pages ++ nested_pages _parse_report_pages
                 [field "sections"
                    (JArr [JObj [field "visualContainers"
                                   (JArr [JObj [field "config" (str "{}")]])]])] /\
    map (record_field "raw_data") pages =
      map Some (keyed_pages
                  [field "sections"
                     (JArr [JObj [field "visualContainers"
                                    (JArr [JObj [field "config" (str "{}")]])]])]).
Proof.
  apply (report_pages_in_key_order
           [field "sections"
              (JArr [JObj [field "visualContainers"
                             (JArr [JObj [field "config" (str "{}")]])]])]).
  vm_compute. reflexivity.
Defined.

(** X18.  A candidate page that is not acceptable (not a dict, or holding
    a visual that _parse_single_visual rejects) ends the page search: the
    pages before it, in key order, are returned, and neither the candidates
    after it nor the nested dicts are looked at. *)
Theorem bad_page_ends_page_search
  (layout : list (text * json)) (good rest : list json) (bad : json) :
  keyed_pages layout = good ++ bad :: rest ->
  forallb page_ok good = true ->
  page_ok bad = false ->
  exists pages,
    _parse_report_pages (JObj layout) = pages /\
    map (record_field "raw_data") pages = map Some good.
Proof.
  intros Hk Hgood Hbad.
  destruct (se_for_pages_ok _ Hgood []) as [pages [Hfor Hraw]].
  destruct (parse_single_page_bad _ Hbad) as [e He].
  exists pages. split; [| exact Hraw].
  cbn [_parse_report_pages].
  rewrite pages_by_key_keyed, Hk, se_for_app, Hfor, se_for_cons.
  rewrite (append_page_raise _ _ _ He). reflexivity.
Qed.

Lemma bad_page_ends_page_search_witness :
  exists pages,
    _parse_report_pages
      (JObj [field "sections"
               (JArr [JObj [field "name" (str "ReportSection1")];
                      JInt 3;
                      JObj [field "name" (str "ReportSection2")]]);
             field "report" (JObj [field "pages" (JArr [JObj []])])]) = pages /\
    map (record_field "raw_data") pages =
      map Some [JObj [field "name" (str "ReportSection1")]].
Proof.
  apply (bad_page_ends_page_search
           [field "sections"
               (JArr [JObj [field "name" (str "ReportSection1")];
                      JInt 3;
                      JObj [field "name" (str "ReportSection2")]]);
             field "report" (JObj [field "pages" (JArr [JObj []])])]
           [JObj [field "name" (str "ReportSection1")]]
           [JObj [field "name" (str "ReportSection2")]]
           (JInt 3));
    reflexivity.
Defined.

(** X19.  _parse_single_page on an acceptable page gathers the entries of
    its visuals, visualContainers and visualizations lists, in that order,
    one record per entry with the entry as raw_data, and gives every one of
    them the empty path. *)
Theorem page_visuals_gathered (page : list (text * json)) :
  page_ok (JObj page) = true ->
  exists r vs,
    _parse_single_page (JObj page) = Ok r /\
    record_field "visualizations" r = Some (JArr vs) /\
    map (record_field "raw_data") vs =
      map Some (listed_visuals page "visuals" ++
                listed_visuals page "visualContainers" ++
                listed_visuals page "visualizations") /\
    Forall (fun v => record_field "path" v = Some (JStr [])) vs.
Proof.
  intros Hok.
  assert (Hkey : forall vkey vs,
             page_visuals (JObj page) vkey = Ok vs ->
             map (record_field "raw_data") vs = map Some (listed_visuals page vkey) /\
             Forall (fun v => record_field "path" v = Some (JStr [])) vs).
  { intros vkey vs. unfold page_visuals, listed_visuals, py_in, getitem, bind.
    destruct (assoc (lit vkey) page) as [v |];
      [| intros H; injection H as <-; split; [reflexivity | constructor]].
    destruct v as [ | | | | | l | ];
      try (intros H; injection H as <-; split; [reflexivity | constructor]).
    intros H. split.
    - apply (map_result_Forall2 _ (fun x y => record_field "raw_data" y = Some x)) in H.
      + induction H as [| x y xs ys Hxy _ IH]; [reflexivity |].
        cbn [map]. rewrite Hxy, IH. reflexivity.
      + intros x y Hxy. apply parse_single_visual_records in Hxy. apply Hxy.
    - eapply map_result_Forall; [| exact H].
      intros x y Hxy. apply parse_single_visual_records in Hxy. apply Hxy. }
  destruct (parse_single_page_ok _ Hok) as [r Hr].
  assert (Hr' := Hr). unfold _parse_single_page, bind in Hr'. bind_ok Hr'.
  injection Hr' as <-.
  destruct (Hkey _ _ E8) as [R1 P1].
  destruct (Hkey _ _ E9) as [R2 P2].
  destruct (Hkey _ _ E10) as [R3 P3].
  eexists; eexists. split; [exact Hr |]. split; [reflexivity |]. split.
  - rewrite !map_app, R1, R2, R3. reflexivity.
  - apply Forall_app; split; [exact P1 |]. apply Forall_app; split; assumption.
Qed.

Lemma page_visuals_gathered_witness :
  exists r vs,
    _parse_single_page
      (JObj [field "name" (str "ReportSection1");
             field "visualContainers" (JArr [JObj [field "id" (JInt 1)]]);
             field "visuals" (JArr [JObj [field "id" (JInt 2)]])]) = Ok r /\
    record_field "visualizations" r = Some (JArr vs) /\
    map (record_field "raw_data") vs =
      map Some [JObj [field "id" (JInt 2)]; JObj [field "id" (JInt 1)]] /\
    Forall (fun v => record_field "path" v = Some (JStr [])) vs.
Proof.
  apply (page_visuals_gathered
           [field "name" (str "ReportSection1");
            field "visualContainers" (JArr [JObj [field "id" (JInt 1)]]);
            field "visuals" (JArr [JObj [field "id" (JInt 2)]])]).
  reflexivity.
Defined.

(* ------------------------------------------------------------------ *)
(** ** Layout members                                                  *)
(* ------------------------------------------------------------------ *)

(** X20.  _extract_layout_file composes the decoder with the JSON reader on
    UTF-16LE members: when the payload is the UTF-16LE encoding of a text of
    Unicode scalar values that is not blank and that json.loads accepts, the
    member is returned as the parsed document. *)
Theorem utf16_json_member_is_parsed {rt : PyRuntime} (t : text) (v : json) :
  forallb is_scalar t = true ->
  strip t <> [] ->
  json_loads t = Ok v ->
  _extract_layout_file (Ok (utf16le_encode t)) = Some v.
Proof.
  intros Hs Hb Hv. unfold _extract_layout_file, decode_cascade.
  rewrite (utf16le_roundtrip t Hs).
  destruct (strip t) as [| c r]; [contradiction Hb; reflexivity |].
  rewrite Hv. reflexivity.
Qed.

Lemma utf16_json_member_is_parsed_witness :
  _extract_layout_file (rt := ref_runtime)
    (Ok (utf16le_encode (jlit "{'sections': []}")))
  = Some (JObj [field "sections" (JArr [])]).
Proof.
  apply (utf16_json_member_is_parsed (rt := ref_runtime)
           (jlit "{'sections': []}") (JObj [field "sections" (JArr [])])).
  - vm_compute. reflexivity.
  - vm_compute. discriminate.
  - vm_compute. reflexivity.
Defined.

(* ------------------------------------------------------------------ *)
(** ** Formatting properties of a visual                               *)
(* ------------------------------------------------------------------ *)

Lemma assoc_app k (a b : list (text * json)) :
  assoc k (a ++ b) = match assoc k a with Some v => Some v | None => assoc k b end.
Proof.
  induction a as [| [k' v'] a IH]; [reflexivity |].
  cbn [app assoc]. destruct (text_eqb k k'); [reflexivity | exact IH].
Qed.

Lemma dict_set_fresh k v (m : list (text * json)) :
  assoc k m = None -> dict_set k v m = m ++ [(k, v)].
Proof.
  induction m as [| [k' v'] m IH]; [reflexivity |].
  cbn [assoc dict_set app]. destruct (text_eqb k k'); [discriminate |].
  intros H. now rewrite IH.
Qed.

Lemma dict_set_last k v v' (pre : list (text * json)) :
  assoc k pre = None -> dict_set k v' (pre ++ [(k, v)]) = pre ++ [(k, v')].
Proof.
  induction pre as [| [k0 v0] pre IH].
  - intros _. cbn [app dict_set]. now rewrite text_eqb_refl.
  - cbn [assoc dict_set app]. destruct (text_eqb k k0); [discriminate |].
    intros H. now rewrite IH.
Qed.

Lemma assoc_last k v (pre : list (text * json)) :
  assoc k pre = None -> assoc k (pre ++ [(k, v)]) = Some v.
Proof.
  intros H. rewrite assoc_app, H. cbn [assoc]. now rewrite text_eqb_refl.
Qed.

Lemma assoc_not_key k (m : list (text * json)) :
  ~ In k (map fst m) -> assoc k m = None.
Proof.
  induction m as [| [k' v'] m IH]; [reflexivity |].
  cbn [map fst In assoc]. intros H.
  destruct (text_eqb k k') eqn:E.
  - apply text_eqb_eq in E. exfalso. apply H. left. now symmetry.
  - apply IH. intros Hin. apply H. right. exact Hin.
Qed.

Lemma config_loop_collects k configs :
  forallb is_dict configs = true ->
  forall pre acc,
    assoc k pre = None ->
    se_for configs (config_body k) (pre ++ [(k, JArr acc)]) =
    (Ok tt, pre ++ [(k, JArr (acc ++ flat_map config_properties configs))]).
Proof.
  induction configs as [| c configs IH]; intros Hall pre acc Hk.
  - cbn [flat_map]. rewrite app_nil_r. reflexivity.
  - cbn [forallb] in Hall. apply andb_true_iff in Hall. destruct Hall as [Hc Hall].
    destruct c as [ | | | | | | cm ]; try discriminate Hc.
    rewrite se_for_cons. cbn [flat_map config_properties].
    unfold config_body at 1, se_bind, se_lift, se_get, se_put, se_ret, py_in, getitem.
    destruct (assoc (lit "properties") cm) as [p |].
    + rewrite (assoc_last _ _ _ Hk). cbn [list_append].
      rewrite (dict_set_last _ _ _ _ Hk).
      rewrite (IH Hall pre (acc ++ [p]) Hk). rewrite <- app_assoc. reflexivity.
    + rewrite (IH Hall pre acc Hk). reflexivity.
Qed.

Lemma object_loop_collects objects :
  NoDup (map fst objects) ->
  forallb (fun kv => object_ok (snd kv)) objects = true ->
  forall st,
    (forall k, In k (map fst objects) -> assoc k st = None) ->
    se_for objects object_body st =
    (Ok tt, st ++ map (fun kv => (fst kv, object_properties (snd kv))) objects).
Proof.
  induction objects as [| [k v] objects IH]; intros Hnd Hall st Hst.
  - cbn [map]. rewrite app_nil_r. reflexivity.
  - cbn [map fst] in Hnd. inversion Hnd as [| k0 ks Hk Hnd']; subst.
    cbn [forallb snd] in Hall. apply andb_true_iff in Hall. destruct Hall as [Hv Hall].
    assert (Hfresh : assoc k st = None) by (apply Hst; left; reflexivity).
    assert (Hstep : object_body (k, v) st = (Ok tt, st ++ [(k, object_properties v)])).
    { unfold object_body, se_bind at 1 2, se_get, se_put. cbn [fst snd].
      rewrite (dict_set_fresh _ _ _ Hfresh).
      destruct v as [ | | | | | configs | ]; try reflexivity.
      cbn [object_ok] in Hv.
      rewrite (config_loop_collects k configs Hv st [] Hfresh). reflexivity. }
    rewrite se_for_cons, Hstep.
    rewrite IH; [| exact Hnd' | exact Hall |].
    + cbn [map fst snd]. rewrite <- app_assoc. reflexivity.
    + intros k' Hk'. rewrite assoc_app.
      rewrite (Hst k' (or_intror Hk')). cbn [assoc].
      destruct (text_eqb k' k) eqn:E; [| reflexivity].
      apply text_eqb_eq in E. subst k'. contradiction.
Qed.

(** X21.  extract_visual_properties keeps the shape of singleVisual.objects:
    when objects is a dict (with distinct keys) whose list-valued entries
    hold dicts only, the result has one entry per object, under the same
    name and in the same order, holding the list of the properties of those
    configurations of the object that have properties (the empty list for
    an object that is not a list); no error entry is added. *)
Theorem visual_properties_per_object {rt : PyRuntime}
  (config single objects : list (text * json)) :
  assoc (lit "singleVisual") config = Some (JObj single) ->
  assoc (lit "objects") single = Some (JObj objects) ->
  NoDup (map fst objects) ->
  forallb (fun kv => object_ok (snd kv)) objects = true ->
  extract_visual_properties (JObj config) =
  JObj (map (fun kv => (fst kv, object_properties (snd kv))) objects).
Proof.
  intros Hs Ho Hnd Hall.
  unfold extract_visual_properties, visual_properties_try.
  unfold se_bind at 1. unfold se_lift at 1.
  rewrite (in_nested_hit _ _ _ _ _ _ eq_refl Hs Ho).
  unfold se_bind at 1. unfold se_lift at 1.
  rewrite (getitem_hit _ _ _ Hs).
  unfold se_bind at 1. unfold se_lift at 1.
  rewrite (getitem_hit _ _ _ Ho).
  unfold se_bind at 1. unfold se_lift at 1.
  cbn [dict_items].
  change (se_for ?l _ ?a) with (se_for l object_body a).
  rewrite (object_loop_collects objects Hnd Hall []); [reflexivity |].
  reflexivity.
Qed.

Lemma visual_properties_per_object_witness :
  extract_visual_properties (rt := ref_runtime)
    (JObj [field "singleVisual"
             (JObj [field "objects"
                      (JObj [field "general" (JArr [JObj [field "properties" (JInt 1)];
                                                    JObj [];
                                                    JObj [field "properties" (JInt 2)]]);
                             field "title" (JInt 5)])])])
  = JObj [field "general" (JArr [JInt 1; JInt 2]); field "title" (JArr [])].
Proof.
  apply (visual_properties_per_object (rt := ref_runtime)
           [field "singleVisual"
             (JObj [field "objects"
                      (JObj [field "general" (JArr [JObj [field "properties" (JInt 1)];
                                                    JObj [];
                                                    JObj [field "properties" (JInt 2)]]);
                             field "title" (JInt 5)])])]
           [field "objects"
                      (JObj [field "general" (JArr [JObj [field "properties" (JInt 1)];
                                                    JObj [];
                                                    JObj [field "properties" (JInt 2)]]);
                             field "title" (JInt 5)])]
           [field "general" (JArr [JObj [field "properties" (JInt 1)];
                                                    JObj [];
                                                    JObj [field "properties" (JInt 2)]]);
                             field "title" (JInt 5)]).
  - reflexivity.
  - reflexivity.
  - repeat constructor; cbn; intuition discriminate.
  - reflexivity.
Defined.
